(** * Document analyser: requirement-driven extraction and publication

    A shallow embedding of the Python package [document_analyser]
    (modules [prompts], [loaders], [extractor] and [evidence_store]) and
    the properties of its specification that can be settled on it.

    Conventions of the embedding.
    - A Python object that comes out of [json.loads] or goes into a wire
      payload is a [value]; a [dict] is an association list in insertion
      order whose keys are pairwise distinct.
    - A Python [str] is a [string]; a character is a code point below 256.
    - A call that may raise returns a [result]; the exception is data.
    - Library calls whose results the package only passes along
      ([json.loads], [repr] of a container, [str.format], [uuid4],
      [datetime.now]) are the methods of the class [Builtins]; the chat
      gateway and the network behind the HTTP client are functions
      handed to the operations that call them. *)

From Stdlib Require Import List String Ascii ZArith Bool Lia Arith PeanoNat.
From Stdlib Require Import DecimalString.
Import ListNotations.
Set Warnings "-register-all".
Open Scope string_scope.
Open Scope nat_scope.

(* ================================================================== *)
(** ** Python strings *)

Module PyStr.

(** [str.isspace] on the code points below 256. *)
Definition is_space (c : ascii) : bool :=
  let n := nat_of_ascii c in
  ((9 <=? n) && (n <=? 13)) || ((28 <=? n) && (n <=? 32))
  || (n =? 133) || (n =? 160).

(** [str.lower] on the code points below 256: the ASCII capitals and
    the Latin-1 capitals (all of 0xC0..0xDE but the multiplication
    sign) move up by 32. *)
Definition lower_char (c : ascii) : ascii :=
  let n := nat_of_ascii c in
  if ((65 <=? n) && (n <=? 90))
     || ((192 <=? n) && (n <=? 222) && negb (n =? 215))
  then ascii_of_nat (n + 32) else c.

Fixpoint lower (s : string) : string :=
  match s with
  | EmptyString => EmptyString
  | String c r => String (lower_char c) (lower r)
  end.

Fixpoint lstrip_by (p : ascii -> bool) (s : string) : string :=
  match s with
  | EmptyString => EmptyString
  | String c r => if p c then lstrip_by p r else s
  end.

Fixpoint rstrip_by (p : ascii -> bool) (s : string) : string :=
  match s with
  | EmptyString => EmptyString
  | String c r =>
      match rstrip_by p r with
      | EmptyString => if p c then EmptyString else String c EmptyString
      | r' => String c r'
      end
  end.

(** [s.strip()] *)
Definition strip (s : string) : string :=
  rstrip_by is_space (lstrip_by is_space s).

(** [s.lstrip(".")] and [s.rstrip("/")] *)
Definition lstrip_char (x : ascii) (s : string) : string :=
  lstrip_by (Ascii.eqb x) s.
Definition rstrip_char (x : ascii) (s : string) : string :=
  rstrip_by (Ascii.eqb x) s.

(** [sep.join(parts)] *)
Fixpoint join (sep : string) (parts : list string) : string :=
  match parts with
  | [] => EmptyString
  | [p] => p
  | p :: rest => p ++ sep ++ join sep rest
  end.

Definition is_empty (s : string) : bool :=
  match s with EmptyString => true | _ => false end.

(** [x in {a, b, ...}] for a set of string literals *)
Definition mem (x : string) (l : list string) : bool :=
  existsb (String.eqb x) l.

(** [str(n)] for a non-negative [int] *)
Definition of_nat (n : nat) : string :=
  NilEmpty.string_of_uint (Nat.to_uint n).

(** [str(z)] for an [int] *)
Definition of_Z (z : Z) : string :=
  NilEmpty.string_of_int (Z.to_int z).

(** The line feed and the double quote, for the literals below. *)
Definition nl : string := String (ascii_of_nat 10) EmptyString.
Definition dq : string := String (ascii_of_nat 34) EmptyString.

End PyStr.

(* ================================================================== *)
(** ** Python values, truthiness, exceptions *)

(** What [json.loads] can return, and what a payload is made of.  A
    finite [float] is [m * 2^e]. *)
Inductive value : Type :=
| VNone
| VBool (b : bool)
| VInt (z : Z)
| VFloat (m e : Z)
| VStr (s : string)
| VList (l : list value)
| VDict (d : list (string * value)).

Definition dict : Type := list (string * value).

(** [bool(v)] *)
Definition truthy (v : value) : bool :=
  match v with
  | VNone => false
  | VBool b => b
  | VInt z => negb (z =? 0)%Z
  | VFloat m _ => negb (m =? 0)%Z
  | VStr s => negb (PyStr.is_empty s)
  | VList l => match l with [] => false | _ => true end
  | VDict d => match d with [] => false | _ => true end
  end.

(** [a or b] *)
Definition py_or (a b : value) : value := if truthy a then a else b.

Inductive exn : Type :=
| ValueError (msg : string)
| NameError (name : string)
| AttributeError (type_name attr : string)
| TypeError (msg : string)
| ZeroDivisionError
| IndexError
| JSONDecodeError
| HTTPError (text : string)
| EvidenceStoreError (msg : string)
| GatewayError (text : string).

Inductive result (A : Type) : Type :=
| Ok (a : A)
| Raise (e : exn).
Arguments Ok {A} a.
Arguments Raise {A} e.

Definition bind {A B} (r : result A) (k : A -> result B) : result B :=
  match r with
  | Ok a => k a
  | Raise e => Raise e
  end.

Notation "x <- r ;; k" := (bind r (fun x => k))
  (at level 61, r at next level, right associativity).

Definition type_name (v : value) : string :=
  match v with
  | VNone => "NoneType"
  | VBool _ => "bool"
  | VInt _ => "int"
  | VFloat _ _ => "float"
  | VStr _ => "str"
  | VList _ => "list"
  | VDict _ => "dict"
  end.

(** ** Dictionaries *)

Fixpoint lookup (d : dict) (k : string) : option value :=
  match d with
  | [] => None
  | (k', v) :: r => if String.eqb k k' then Some v else lookup r k
  end.

(** [d.get(k)] on a dictionary: [None] when the key is absent. *)
Definition dict_get (d : dict) (k : string) : value :=
  match lookup d k with
  | Some v => v
  | None => VNone
  end.

(** [d[k] = v]: an existing key keeps its place and takes the new
    value, a new key goes to the end. *)
Fixpoint dict_set (d : dict) (k : string) (v : value) : dict :=
  match d with
  | [] => [(k, v)]
  | (k', v') :: r =>
      if String.eqb k k' then (k', v) :: r else (k', v') :: dict_set r k v
  end.

(** A dictionary display [{k1: v1, k2: v2, ...}]: the entries are
    stored left to right, so a repeated key keeps the last value. *)
Definition dict_display (entries : list (string * value)) : dict :=
  fold_left (fun d kv => dict_set d (fst kv) (snd kv)) entries [].

(** [obj.get(k)] on any value: only a [dict] has the method. *)
Definition py_get (obj : value) (k : string) : result value :=
  match obj with
  | VDict d => Ok (dict_get d k)
  | _ => Raise (AttributeError (type_name obj) "get")
  end.

(** Following a path of keys through nested dictionaries. *)
Fixpoint lookup_path (v : value) (path : list string) : option value :=
  match path with
  | [] => Some v
  | k :: rest =>
      match v with
      | VDict d =>
          match lookup d k with
          | Some v' => lookup_path v' rest
          | None => None
          end
      | _ => None
      end
  end.

(** [a or b] where evaluating either side may raise: the right side is
    evaluated only when the left one is falsy. *)
Definition or_else (a b : result value) : result value :=
  x <- a ;; if truthy x then Ok x else b.

Notation "a <|> b" := (or_else a b) (at level 55, right associativity).

(* ================================================================== *)
(** ** The library functions the package calls *)

Class Builtins : Type := {
  (** [json.loads]: [None] stands for [json.JSONDecodeError] *)
  json_loads : string -> option value;
  (** [repr] of a float, a list or a dict *)
  py_repr : value -> string;
  (** [template.format] with keyword arguments *)
  str_format : string -> list (string * value) -> result string;
  (** [str(uuid4())] at the n-th call *)
  uuid4 : nat -> string;
  (** [datetime.now(timezone.utc).isoformat()] at the n-th call *)
  utc_now_iso : nat -> string
}.

Section Formatting.
Context {B : Builtins}.

(** [str(v)], which is what an f-string field [{v}] inserts. *)
Definition py_str (v : value) : string :=
  match v with
  | VNone => "None"
  | VBool true => "True"
  | VBool false => "False"
  | VInt z => PyStr.of_Z z
  | VStr s => s
  | VFloat _ _ | VList _ | VDict _ => py_repr v
  end.

(** A value used as a key of a dictionary display.  The dictionaries
    of this development have [str] keys, as [json.loads] gives them
    and as the wire format wants them: a [str] key is itself, another
    hashable key is held in the form [json.dumps] writes it, and a
    list or a dict is unhashable, so the display raises. *)
Definition as_key (v : value) : result string :=
  match v with
  | VStr s => Ok s
  | VNone => Ok "null"
  | VBool true => Ok "true"
  | VBool false => Ok "false"
  | VInt z => Ok (PyStr.of_Z z)
  | VFloat _ _ => Ok (py_repr v)
  | VList _ | VDict _ =>
      Raise (TypeError ("unhashable type: '" ++ type_name v ++ "'"))
  end.

End Formatting.

(* ================================================================== *)
(** ** Exceptions of the file system and of the configuration

    The operations that touch the file system or read the command line
    can end in these as well as in an [exn]. *)

Inductive failure : Type :=
| Python (e : exn)
| FileNotFoundError (msg : string)
| UnicodeDecodeError
| OSError (text : string)
| ConfigError (msg : string).

Inductive outcome (A : Type) : Type :=
| Done (a : A)
| Failed (e : failure).
Arguments Done {A} a.
Arguments Failed {A} e.

Definition and_so {A C} (o : outcome A) (k : A -> outcome C) : outcome C :=
  match o with
  | Done a => k a
  | Failed e => Failed e
  end.

Notation "x <-- o ;; k" := (and_so o (fun x => k))
  (at level 61, o at next level, right associativity).

(* ================================================================== *)
(** ** loaders.py *)

Module loaders.

(** [pathlib.Path]: the attributes the package reads, [str(path)],
    [path.name] and [path.suffix]. *)
Record Path : Type := {
  path_str : string;
  path_name : string;
  path_suffix : string
}.

Record Document : Type := {
  path : Path;
  content : string
}.

Definition name (doc : Document) : string := path_name (path doc).

Definition concatenate_documents (documents : list Document) : string :=
  let parts :=
    map (fun doc =>
           let header := "### Document: " ++ name doc ++ PyStr.nl in
           header ++ PyStr.strip (content doc) ++ PyStr.nl)
        documents in
  PyStr.strip (PyStr.join PyStr.nl parts).

(** What [page.extract_text()] does on one page of a PDF: it returns a
    text (or nothing), or it raises. *)
Inductive page : Type :=
| Extracted (text : option string)
| ExtractionFailed.

(** The file system as the loaders use it. *)
Record FileSystem : Type := {
  (** [target.exists()] *)
  file_exists : Path -> bool;
  (** [target.read_text(encoding=encoding)] *)
  read_text : Path -> string -> outcome string;
  (** [target.read_text(encoding=encoding, errors="ignore")] *)
  read_text_ignore : Path -> string -> outcome string;
  (** [PdfReader(str(target)).pages] *)
  pdf_pages : Path -> outcome (list page)
}.

Definition load_text_document (fs : FileSystem) (target : Path)
    (encoding : string) : outcome Document :=
  if negb (file_exists fs target) then
    Failed (FileNotFoundError ("Document not found: " ++ path_str target))
  else
    text <--
      (match read_text fs target encoding with
       | Failed UnicodeDecodeError => read_text_ignore fs target encoding
       | other => other
       end) ;;
    Done {| path := target; content := text |}.

(** The loop over [enumerate(reader.pages, start=1)]. *)
Fixpoint pdf_page_texts (idx : nat) (reader_pages : list page)
    (pages : list string) : list string :=
  match reader_pages with
  | [] => pages
  | p :: rest =>
      let text :=
        match p with
        | Extracted (Some t) => t
        | Extracted None => EmptyString
        | ExtractionFailed => EmptyString
        end in
      let entry :=
        "[Page " ++ PyStr.of_nat idx ++ "]" ++ PyStr.nl ++ PyStr.strip text in
      if PyStr.is_empty (PyStr.strip text)
      then pdf_page_texts (S idx) rest pages
      else pdf_page_texts (S idx) rest (pages ++ [entry])%list
  end.

Definition pdf_content (reader_pages : list page) : string :=
  match pdf_page_texts 1 reader_pages [] with
  | [] => "[No extractable text found in PDF]"
  | pages => PyStr.strip (PyStr.join (PyStr.nl ++ PyStr.nl) pages)
  end.

Definition load_pdf_document (fs : FileSystem) (target : Path)
    : outcome Document :=
  if negb (file_exists fs target) then
    Failed (FileNotFoundError ("Document not found: " ++ path_str target))
  else
    reader_pages <-- pdf_pages fs target ;;
    Done {| path := target; content := pdf_content reader_pages |}.

Definition load_any_document (fs : FileSystem) (target : Path)
    (encoding : string) : outcome Document :=
  let suffix := PyStr.lower (path_suffix target) in
  if String.eqb suffix ".pdf" then load_pdf_document fs target
  else load_text_document fs target encoding.

End loaders.

(* ================================================================== *)
(** ** requirements.py *)

Module requirements.

Inductive ResourceType : Type := genericDocument | data.

Definition resource_type_str (t : ResourceType) : string :=
  match t with
  | genericDocument => "genericDocument"
  | data => "data"
  end.

(** A requirement as the builders and the analyser see it: they are
    handed an object and read its attributes, some of them through
    [getattr] with a default.  An attribute is [None] here when the
    object does not have it (or, for [response_field_name] and
    [response_schema], when it holds [None]). *)
Record requirement : Type := {
  id : option string;
  name : option string;
  prompt : option string;
  resource_type : option ResourceType;
  response_field_name : option string;
  response_schema : option value
}.

(** The dataclass [RequirementPrompt]: [id], [name] and [prompt] are
    required, [resource_type] and [response_field_name] have defaults,
    and there is no [response_schema] field. *)
Definition RequirementPrompt (i n p : string) (t : ResourceType)
    (f : option string) : requirement :=
  {| id := Some i; name := Some n; prompt := Some p;
     resource_type := Some t; response_field_name := f;
     response_schema := None |}.

(** [requirement.attr] *)
Definition attr {A} (a : option A) (attr_name : string) : result A :=
  match a with
  | Some x => Ok x
  | None => Raise (AttributeError "requirement" attr_name)
  end.

(** [getattr(requirement, "response_field_name", None) or "requirementMet"] *)
Definition field_name_of (r : requirement) : string :=
  match response_field_name r with
  | Some s => if PyStr.is_empty s then "requirementMet" else s
  | None => "requirementMet"
  end.

(** The table [REQUIREMENTS], in the order of the source: the key of
    the mapping, then the [RequirementPrompt] it maps to. *)
Definition REQUIREMENTS : list (string * requirement) :=
  [
    ("X.1.1.9.1",
     RequirementPrompt "E83"
       ("Products with digital elements shall protect the "
        ++ "availability of essential and basic functions, also after an "
        ++ "incident, including through resilience and mitigation "
        ++ "measures against denial-of-service attacks")
       ("Business continuity policy created: describing strategies "
        ++ "and procedures to maintain essential functions during "
        ++ "cyberattacks and recover quickly, ensuring resilience, "
        ++ "protecting assets.")
       genericDocument (Some "businessContinuityPolicy"));
    ("X.1.1.9.2",
     RequirementPrompt "E81"
       ("Products with digital elements shall protect the "
        ++ "availability of essential and basic functions, also after an "
        ++ "incident, including through resilience and mitigation "
        ++ "measures against denial-of-service attacks")
       ("Describes strategies or procedures to protect the "
        ++ "availability of essential and basic functions of the "
        ++ "product. And also highlights mitigation measures against "
        ++ "denial-of-service attacks.")
       genericDocument (Some "availabilityProtection"));
    ("X.1.1.8",
     RequirementPrompt "E79"
       ("Products with digital elements shall process only data, "
        ++ "personal or other, that are adequate, relevant and limited "
        ++ "to what is necessary in relation to the intended purpose of "
        ++ "the product with digital elements (data minimisation)")
       ("Data minimization policy created: outlining principles and "
        ++ "practices to ensure only necessary data is collected, "
        ++ "processed, and retained, minimizing privacy risks.")
       genericDocument (Some "dataMinimizationPolicy"));
    ("X.1.1.7",
     RequirementPrompt "E63"
       ("Products with digital elements shall protect the integrity "
        ++ "of stored, transmitted or otherwise processed data, personal "
        ++ "or other, commands, programs and configuration against any "
        ++ "manipulation or modification not authorised by the user, and "
        ++ "report on corruptions")
       ("Integrity protection mechanisms described: technical measure "
        ++ "to ensure stored, transmitted and processed data are not "
        ++ "altered or tampered with. A secure default configuration is "
        ++ "described.")
       genericDocument (Some "integrityProtection"));
    ("X.1.1.6",
     RequirementPrompt "E63"
       ("Products with digital elements shall protect the "
        ++ "confidentiality of stored, transmitted or otherwise "
        ++ "processed data, personal or other, such as by encrypting "
        ++ "relevant data at rest or in transit by state of the art "
        ++ "mechanisms, and by using other technical means;")
       ("Confidentiality protection mechanisms described: technical "
        ++ "measures such as encryption to safeguard stored, "
        ++ "transmitted, and processed data from unauthorized access.")
       genericDocument (Some "confidentialityProtection"));
    ("X.1.1.5",
     RequirementPrompt "E67"
       ("Products with digital elements shall implement mechanisms to "
        ++ "ensure that only authorised users have access to the product "
        ++ "with digital elements and to data, personal or other, "
        ++ "processed by the product with digital elements, including by "
        ++ "providing means for user authentication and for managing "
        ++ "user identities and access rights;")
       ("Access control mechanisms described: technical and "
        ++ "organizational measures to ensure only authorized users can "
        ++ "access the product and its data, including user "
        ++ "authentication and identity management. (e.g. Unauthorised "
        ++ "access detection and reporting mechanisms)")
       genericDocument (Some "accessControlMechanisms"));
    ("X.1.1.4",
     RequirementPrompt "E61"
       ("Products with digital elements shall ensure that "
        ++ "vulnerabilities can be addressed through security updates, "
        ++ "including, where applicable, through automatic security "
        ++ "updates that are installed within an appropriate timeframe "
        ++ "enabled as a default setting, with a clear and easy-to-use "
        ++ "opt-out mechanism, through the notification of available "
        ++ "updates to users, and the option to temporarily postpone "
        ++ "them;")
       ("Security update mechanisms described: Enabled by default and "
        ++ "description of opt-out mechanism with instructions to "
        ++ "temporarily postpone updates. Processes to notify users of "
        ++ "available updates.")
       genericDocument (Some "securityUpdateMechanisms"));
    ("X.1.1.3",
     RequirementPrompt "E55"
       ("Products with digital elements shall be made available on "
        ++ "the market with a secure by default configuration, unless "
        ++ "otherwise agreed between manufacturer and business user in "
        ++ "relation to a tailor-made product with digital elements, "
        ++ "including the possibility to reset the product to its "
        ++ "original state;")
       ("Secure by default configuration described, including the "
        ++ "possibility to reset the product to its original state.")
       genericDocument (Some "secureByDefaultConfiguration"));
    ("X.1.1.2.1",
     RequirementPrompt "E51"
       ("Products with digital elements shall be made available on "
        ++ "the market without known exploitable vulnerabilities;")
       ("Security testing policies described: outlining processes for "
        ++ "identifying and addressing vulnerabilities before market "
        ++ "release, including penetration testing, code reviews, and "
        ++ "vulnerability assessments.")
       genericDocument (Some "securityTestingPolicies"));
    ("X.1.1.2.2",
     RequirementPrompt "E52"
       ("Products with digital elements shall be made available on "
        ++ "the market without known exploitable vulnerabilities;")
       ("Documented penetration testing results: showing that the "
        ++ "product has been tested for vulnerabilities and none were "
        ++ "found.")
       genericDocument (Some "penetrationTestingResults"));
    ("X.1.1.1",
     RequirementPrompt "E45"
       ("Products with digital elements shall be designed, developed "
        ++ "and produced in such a way that they ensure an appropriate "
        ++ "level of cybersecurity based on the risks")
       (EmptyString)
       genericDocument (Some "cybersecurityRiskManagement"));
    ("X.1.1.10",
     RequirementPrompt "E87"
       ("Products with digital elements shall minimise the negative "
        ++ "impact by the products themselves or connected devices on "
        ++ "the availability of services provided by other devices or "
        ++ "networks;")
       ("Impact minimization measures described: technical and "
        ++ "organizational strategies to reduce the negative impact of "
        ++ "the product or connected devices on the availability of "
        ++ "services provided by other devices or networks.")
       genericDocument (Some "impactMinimizationMeasures"));
    ("X.1.1.11",
     RequirementPrompt "E3"
       ("Products with digital elements shall be designed, developed "
        ++ "and produced to limit attack surfaces, including external "
        ++ "interfaces;")
       ("Security baseline established: defining minimum security "
        ++ "requirements and configurations to limit attack surfaces, "
        ++ "including external interfaces.")
       genericDocument (Some "securityBaseline"));
    ("X.1.1.12.1",
     RequirementPrompt "E93"
       ("Products with digital elements shall be designed, developed "
        ++ "and produced to reduce the impact of an incident using "
        ++ "appropriate exploitation mitigation mechanisms and "
        ++ "techniques;")
       ("Regular data backups performed: ensuring that data can be "
        ++ "restored in the event of a security incident, minimizing "
        ++ "impact and downtime.")
       genericDocument (Some "dataBackups"));
    ("X.1.1.12.2",
     RequirementPrompt "E91"
       ("Products with digital elements shall be designed, developed "
        ++ "and produced to reduce the impact of an incident using "
        ++ "appropriate exploitation mitigation mechanisms and "
        ++ "techniques;")
       ("Data Leakage Prevention (DLP) mechanisms described: "
        ++ "technical controls implemented to prevent unauthorized data "
        ++ "exfiltration and minimize the impact of security incidents.")
       genericDocument (Some "dataLeakagePrevention"));
    ("X.1.1.12.3",
     RequirementPrompt "E92"
       ("Products with digital elements shall be designed, developed "
        ++ "and produced to reduce the impact of an incident using "
        ++ "appropriate exploitation mitigation mechanisms and "
        ++ "techniques;")
       ("Segregation of duties implemented: organizational measures "
        ++ "to separate critical functions and responsibilities, "
        ++ "reducing the risk and impact of security incidents.")
       genericDocument (Some "segregationOfDuties"));
    ("X.1.1.13",
     RequirementPrompt "E99"
       ("Products with digital elements shall provide security "
        ++ "related information by recording and monitoring relevant "
        ++ "internal activity, including the access to or modification "
        ++ "of data, services or functions, with an opt-out mechanism "
        ++ "for the user;")
       ("Contains log data and monitoring information: showing that "
        ++ "the product records and monitors relevant internal activity, "
        ++ "including access to or modification of data, services, or "
        ++ "functions.")
       data (Some "securityLoggingAndMonitoring"));
    ("X.1.1.14",
     RequirementPrompt "E101"
       ("Products with digital elements shall provide the possibility "
        ++ "for users to securely and easily remove on a permanent basis "
        ++ "all data and settings and, where such data can be "
        ++ "transferred to other products or systems, ensure that this "
        ++ "is done in a secure manner.")
       ("Secure data removal mechanisms described: providing users "
        ++ "with the ability to permanently delete all data and settings "
        ++ "from the product.")
       genericDocument (Some "secureDataRemoval"));
    ("X.1.1.14.2",
     RequirementPrompt "E102"
       ("Products with digital elements shall provide the possibility "
        ++ "for users to securely and easily remove on a permanent basis "
        ++ "all data and settings and, where such data can be "
        ++ "transferred to other products or systems, ensure that this "
        ++ "is done in a secure manner.")
       ("Secure data transfer mechanisms described: ensuring that "
        ++ "data is transferred to other products or systems in a secure "
        ++ "manner.")
       genericDocument (Some "secureDataTransfer")) ].

(** [REQUIREMENTS.get(requirement_id)] *)
Fixpoint table_get (table : list (string * requirement)) (k : string)
  : option requirement :=
  match table with
  | [] => None
  | (k', r) :: rest => if String.eqb k k' then Some r else table_get rest k
  end.

Definition get_requirement (requirement_id : string) : option requirement :=
  table_get REQUIREMENTS requirement_id.

(** [list(REQUIREMENTS.values())] *)
Definition list_requirements : list requirement := map snd REQUIREMENTS.

End requirements.

(* ================================================================== *)
(** ** prompts.py *)

Module prompts.
Import requirements.

Record message : Type := {
  role : string;
  content : string
}.

(** What a module-level name is bound to. *)
Inductive binding : Type :=
| BStr (s : string)
| BFunction
| BTypingAlias
| BFeature.

(** The names the module body of prompts.py binds, in order: the
    [__future__] import, the two names from [typing] and the two
    functions.  No other statement of the package assigns into this
    module, and [builtins] has no name in capitals with an underscore. *)
Definition prompts_globals : list (string * binding) :=
  [ ("annotations", BFeature);
    ("List", BTypingAlias);
    ("Dict", BTypingAlias);
    ("build_messages", BFunction);
    ("build_requirement_messages", BFunction) ].

(** Reading a global name inside a function of the module. *)
Fixpoint load_global (globals : list (string * binding)) (x : string)
  : result binding :=
  match globals with
  | [] => Raise (NameError x)
  | (y, b) :: rest => if String.eqb x y then Ok b else load_global rest x
  end.

(** [source_name or "document"] *)
Definition context_name_of (source_name : option string) : string :=
  match source_name with
  | Some s => if PyStr.is_empty s then "document" else s
  | None => "document"
  end.

Section Prompts.
Context {B : Builtins}.
Import PyStr.

(** The string literal assigned to the local [system_prompt] in
    [build_messages] before it is overwritten. *)
Definition system_prompt_literal : string :=
  nl ++
  "    You are Document-Analyser, a careful assistant that extracts compliance evidence from unstructured documents" ++ nl ++
  "    such as source code, security policies, and reports. Work step by step, focus on verifiable statements, and" ++ nl ++
  "    prefer quoting the original phrasing where possible." ++ nl ++
  nl ++
  "    Produce a compact JSON object with these keys:" ++ nl ++
  "    - document_summary: 2 sentence overview of the document content and purpose." ++ nl ++
  "    - evidence: list of up to {max_items} evidence objects. Each evidence object must contain:" ++ nl ++
  "    - title: short label for the requirement, control, or claim." ++ nl ++
  "    - evidence: concise statement derived from the document." ++ nl ++
  "    - snippet: verbatim quote or text excerpt used to support the evidence (keep it short)." ++ nl ++
  "    - citation: page number hint for the snippet, e.g., " ++ dq ++ "Page 3" ++ dq ++ ". Leave empty if unknown." ++ nl ++
  "    - confidence: one of [" ++ dq ++ "high" ++ dq ++ ", " ++ dq ++ "medium" ++ dq ++ ", " ++ dq ++ "low" ++ dq ++ "] describing certainty." ++ nl ++
  "    - gaps: list of missing information or unresolved questions, may be empty." ++ nl ++
  nl ++
  "    Keep the JSON machine-readable and avoid markdown." ++ nl ++
  "    ".

(** [obj.format(max_items=max_items)] on what a name is bound to. *)
Definition format_binding (b : binding) (kwargs : list (string * value))
  : result string :=
  match b with
  | BStr template => str_format template kwargs
  | BFunction => Raise (AttributeError "function" "format")
  | BTypingAlias => Raise (AttributeError "_GenericAlias" "format")
  | BFeature => Raise (AttributeError "_Feature" "format")
  end.

Definition build_messages (document_text : string)
    (source_name : option string) (focus : option string)
    (max_items : Z) : result (list message) :=
  let context_name := context_name_of source_name in
  let user_instructions := "Source: " ++ context_name ++ "." ++ nl ++ nl in
  let user_instructions :=
    match focus with
    | Some f =>
        if is_empty f then user_instructions
        else user_instructions
             ++ "Focus areas provided by user: " ++ f ++ nl ++ nl
    | None => user_instructions
    end in
  let user_instructions :=
    user_instructions
    ++ "Extract evidence and return the JSON object described in the system message." ++ nl
    ++ "Only include claims supported by the text." in
  let system_prompt := system_prompt_literal in
  template <- load_global prompts_globals "SYSTEM_PROMPT" ;;
  system_prompt <- format_binding template [("max_items", VInt max_items)] ;;
  Ok [ {| role := "system"; content := system_prompt |};
       {| role := "user";
          content := user_instructions ++ nl ++ nl ++ document_text |} ].

(** The default of [schema_hint], a dictionary display whose second
    key is the requirement's field name. *)
Definition default_schema (requirement_id field_name : string) : value :=
  VDict (dict_display
    [ ("requirementId", VStr requirement_id);
      (field_name, VBool true);
      ("snippet", VStr "Verbatim quote or text excerpt proving the requirement");
      ("citation", VStr "Page number, e.g., 'Page 3' (empty if unknown)");
      ("confidence", VStr "high|medium|low") ]).

Definition build_requirement_messages (document_text : string)
    (r : requirement) (source_name : option string)
    : result (list message) :=
  let context_name := context_name_of source_name in
  let field_name := field_name_of r in
  schema_hint <-
    (match response_schema r with
     | Some v =>
         if truthy v then Ok v
         else (i <- attr (id r) "id" ;; Ok (default_schema i field_name))
     | None => i <- attr (id r) "id" ;; Ok (default_schema i field_name)
     end) ;;
  let system_prompt :=
    "You are Document-Analyser. Check if the document contains the required information." ++ nl
    ++ "Return a JSON object (not an array) with these fields:" ++ nl
    ++ py_str schema_hint ++ nl
    ++ "Use camelCase keys. Do not include markdown. Set the boolean field to true if the document contains the required information, otherwise false. "
    ++ "Snippet must be the quote/excerpt you used. "
    ++ "Citation must be the page number (e.g., " ++ dq ++ "Page 2" ++ dq ++ ") if available, otherwise empty. "
    ++ "If no evidence exists, set the boolean field to false, snippet and citation to empty strings, and confidence to " ++ dq ++ "low" ++ dq ++ "." in
  i <- attr (id r) "id" ;;
  let shown_name := match name r with Some n => n | None => i end in
  p <- attr (prompt r) "prompt" ;;
  let user_prompt :=
    "Source: " ++ context_name ++ "." ++ nl
    ++ "Requirement: " ++ shown_name ++ " (" ++ i ++ ")." ++ nl
    ++ "Instruction: " ++ p ++ nl ++ nl
    ++ "Return only the JSON object." in
  Ok [ {| role := "system"; content := system_prompt |};
       {| role := "user";
          content := user_prompt ++ nl ++ nl ++ document_text |} ].

End Prompts.

End prompts.

(* ================================================================== *)
(** ** llm.py *)

Module llm.

(** [LLMClient.chat(messages, response_format)]: the reply of the
    provider to the n-th call of a run, or the exception the call ends
    in.  The reply is a [str] ([message.content or ""]). *)
Definition LLMClient : Type :=
  nat -> list prompts.message -> option string -> result string.

End llm.

(* ================================================================== *)
(** ** extractor.py *)

Module extractor.
Import loaders requirements prompts llm.

Record AnalysisResult : Type := {
  data : value;
  raw_response : string;
  sources : list string
}.

(** The local function [_parse_bool] of [analyse_requirements]: it
    returns [True], [False] or [None]. *)
Definition _parse_bool (v : value) : value :=
  match v with
  | VBool b => VBool b
  | VStr s =>
      let normalized := PyStr.lower (PyStr.strip s) in
      if PyStr.mem normalized ["true"; "yes"; "y"; "1"; "fulfilled"]
      then VBool true
      else if PyStr.mem normalized
                ["false"; "no"; "n"; "0"; "unfulfilled"; "not fulfilled"]
      then VBool false
      else VNone
  | _ => VNone
  end.

(** The dictionary that replaces a reply that is not JSON in [analyse]. *)
Definition parse_error_data : value :=
  VDict [ ("document_summary", VStr EmptyString);
          ("evidence", VList []);
          ("gaps", VList []);
          ("parse_error", VStr "Response was not valid JSON.") ].

Section Extractor.
Context {B : Builtins}.

(** [", ".join(doc.name for doc in documents)] *)
Definition source_name_of (documents : list Document) : string :=
  PyStr.join ", " (map loaders.name documents).

(** The part of [analyse] after the reply has arrived. *)
Definition analyse_reply (documents : list Document)
    (raw_response : string) : AnalysisResult :=
  let parsed :=
    match json_loads raw_response with
    | Some v => v
    | None => parse_error_data
    end in
  let sources := map (fun doc => path_str (path doc)) documents in
  {| data := parsed; raw_response := raw_response; sources := sources |}.

Definition analyse (llm : LLMClient) (documents : list Document)
    (focus : option string) (max_items : Z) : result AnalysisResult :=
  match documents with
  | [] => Raise (ValueError "No documents provided for analysis.")
  | _ :: _ =>
      let merged_text := concatenate_documents documents in
      let source_name := source_name_of documents in
      messages <-
        build_messages merged_text (Some source_name) focus max_items ;;
      raw_response <- llm 0 messages (Some "json") ;;
      Ok (analyse_reply documents raw_response)
  end.

(** The verdict of one reply: the two calls of [_parse_bool] joined
    by [or], then [None] replaced by [False]. *)
Definition verdict (parsed : value) (field_name : string) : result value :=
  fulfilled <-
    ((v <- py_get parsed field_name ;; Ok (_parse_bool v))
     <|> (v <- py_get parsed "fulfilled" ;; Ok (_parse_bool v))) ;;
  Ok (match fulfilled with
      | VNone => VBool false
      | _ => fulfilled
      end).

(** The evidence item appended for one requirement, from its reply. *)
Definition evidence_item (r : requirement) (raw_response : string)
    : result value :=
  let parsed :=
    match json_loads raw_response with
    | Some v => v
    | None => VDict []
    end in
  let field_name := field_name_of r in
  fulfilled <- verdict parsed field_name ;;
  title <- attr (requirements.name r) "name" ;;
  evidence <-
    (py_get parsed "statement" <|> py_get parsed "evidence"
     <|> Ok (VStr EmptyString)) ;;
  snippet <- (py_get parsed "snippet" <|> Ok (VStr EmptyString)) ;;
  citation <- (py_get parsed "citation" <|> Ok (VStr EmptyString)) ;;
  confidence <- (py_get parsed "confidence" <|> Ok (VStr "low")) ;;
  requirement_id <- attr (id r) "id" ;;
  rtype <- attr (resource_type r) "resource_type" ;;
  Ok (VDict [ ("title", VStr title);
              ("evidence", evidence);
              ("snippet", snippet);
              ("citation", citation);
              ("fulfilled", fulfilled);
              ("responseField", VStr field_name);
              ("confidence", confidence);
              ("requirementId", VStr requirement_id);
              ("resourceType", VStr (resource_type_str rtype)) ]).

(** The [for] loop of [analyse_requirements]: [n] counts the calls of
    the gateway made so far, [evidence_items] is the list being
    appended to. *)
Fixpoint requirements_loop (llm : LLMClient) (merged_text : string)
    (source_name : string) (n : nat) (rs : list requirement)
    (evidence_items : list value) : result (list value) :=
  match rs with
  | [] => Ok evidence_items
  | r :: rest =>
      messages <-
        build_requirement_messages merged_text r (Some source_name) ;;
      raw_response <- llm n messages (Some "json") ;;
      item <- evidence_item r raw_response ;;
      requirements_loop llm merged_text source_name (S n) rest
        (evidence_items ++ [item])%list
  end.

Definition analyse_requirements (llm : LLMClient)
    (documents : list Document) (rs : list requirement)
    : result (list value) :=
  match documents with
  | [] => Raise (ValueError "No documents provided for analysis.")
  | _ :: _ =>
      let merged_text := concatenate_documents documents in
      let source_name := source_name_of documents in
      requirements_loop llm merged_text source_name 0 rs []
  end.

End Extractor.

End extractor.

(* ================================================================== *)
(** ** evidence_store.py *)

Module evidence_store.
Import loaders extractor.

Record EvidenceStoreConfig : Type := {
  base_url : string;
  token_endpoint : string;
  client_id : string;
  client_secret : string;
  tool_id : string;
  target_of_evaluation_id : string;
  evidence_path : string
}.

Definition evidence_url (config : EvidenceStoreConfig) : string :=
  PyStr.rstrip_char "/" (base_url config) ++ evidence_path config.

(** The environment of the process: [os.getenv(name)] is [env name]. *)
Definition Environ : Type := string -> option string.

(** [os.getenv(name, default)] *)
Definition getenv_default (env : Environ) (name default : string) : string :=
  match env name with
  | Some v => v
  | None => default
  end.

(** [EvidenceStoreConfig.from_env] *)
Definition from_env (env : Environ) : EvidenceStoreConfig :=
  let base_url :=
    match env "EVIDENCE_STORE_BASE" with
    | Some v =>
        if PyStr.is_empty v
        then getenv_default env "CONFIRMATE_API_BASE" "http://localhost:8080"
        else v
    | None =>
        getenv_default env "CONFIRMATE_API_BASE" "http://localhost:8080"
    end in
  let token_endpoint :=
    getenv_default env "AUTH_TOKEN_ENDPOINT"
      (PyStr.rstrip_char "/" base_url ++ "/v1/auth/token") in
  let client_id := getenv_default env "AUTH_CLIENT_ID" "clouditor" in
  let client_secret := getenv_default env "AUTH_CLIENT_SECRET" "clouditor" in
  let tool_id := getenv_default env "EVIDENCE_TOOL_ID" "document-analyser" in
  let target_of_evaluation_id :=
    getenv_default env "TARGET_OF_EVALUATION_ID"
      "00000000-0000-0000-0000-000000000000" in
  let evidence_path :=
    getenv_default env "EVIDENCE_PATH" "/v1/evidence_store/evidence" in
  {| base_url := base_url;
     token_endpoint := token_endpoint;
     client_id := client_id;
     client_secret := client_secret;
     tool_id := tool_id;
     target_of_evaluation_id := target_of_evaluation_id;
     evidence_path := evidence_path |}.

(** [v in (None, {}, [])] *)
Definition is_blank (v : value) : bool :=
  match v with
  | VNone | VDict [] | VList [] => true
  | _ => false
  end.

(** The dictionary comprehension of [_strip_none]: it tests the member
    it is given and recurses into the ones it keeps. *)
Definition dict_comprehension (strip : value -> value)
  : list (string * value) -> list (string * value) :=
  fix members (d : list (string * value)) :=
    match d with
    | [] => []
    | (k, v) :: rest =>
        if is_blank v then members rest else (k, strip v) :: members rest
    end.

(** The list comprehension of [_strip_none]: it recurses first and
    tests what comes back. *)
Definition list_comprehension (strip : value -> value)
  : list value -> list value :=
  fix elements (l : list value) :=
    match l with
    | [] => []
    | v :: rest =>
        let v' := strip v in
        if is_blank v' then elements rest else v' :: elements rest
    end.

(** [_strip_none].  The recursion is structural here.  The depth to
    which the interpreter lets a recursion go is not modelled: on a
    value nested deeper than that the Python function ends in
    [RecursionError], and nothing proved of this function says that
    it returns there. *)
Fixpoint _strip_none (obj : value) : value :=
  match obj with
  | VDict d => VDict (dict_comprehension _strip_none d)
  | VList l => VList (list_comprehension _strip_none l)
  | _ => obj
  end.

(** A payload is fully pruned when no member of a dictionary and no
    element of a list in it, at any depth, is [None], [{}] or [[]]. *)
Fixpoint fully_pruned (v : value) : bool :=
  match v with
  | VDict d =>
      forallb (fun kv => negb (is_blank (snd kv)) && fully_pruned (snd kv)) d
  | VList l =>
      forallb (fun x => negb (is_blank x) && fully_pruned x) l
  | _ => true
  end.

Section Payloads.
Context {B : Builtins}.
Import PyStr.

(** [documents[idx % len(documents)]] *)
Definition document_at (documents : list Document) (idx : nat)
  : result Document :=
  match List.length documents with
  | 0 => Raise ZeroDivisionError
  | S _ as len =>
      match nth_error documents (idx mod len) with
      | Some doc => Ok doc
      | None => Raise IndexError
      end
  end.

(** The value stored under [raw]. *)
Definition raw_of (snippet citation : value) : value :=
  if truthy citation then
    if truthy snippet
    then VStr (py_str snippet ++ nl ++ "Citation: " ++ py_str citation)
    else VStr ("Citation: " ++ py_str citation)
  else snippet.

(** The body of the loop of [build_evidence_payloads] up to the
    dictionary [evidence_body]. *)
Definition evidence_body (config : EvidenceStoreConfig) (idx : nat)
    (doc : Document) (item : value) : result value :=
  response_field <-
    (py_get item "responseField" <|> Ok (VStr "requirementMet")) ;;
  fulfilled <- py_get item "fulfilled" ;;
  snippet <-
    (py_get item "snippet" <|> py_get item "citation"
     <|> py_get item "evidence" <|> py_get item "statement"
     <|> Ok (VStr EmptyString)) ;;
  citation <- (py_get item "citation" <|> Ok (VStr EmptyString)) ;;
  let raw := raw_of snippet citation in
  description <- (py_get item "title" <|> Ok (VStr "Document evidence")) ;;
  field_key <- as_key response_field ;;
  Ok (VDict
    [ ("id", VStr (uuid4 idx));
      ("timestamp", VStr (utc_now_iso idx));
      ("targetOfEvaluationId", VStr (target_of_evaluation_id config));
      ("toolId", VStr (tool_id config));
      ("resource", VDict
        [ ("genericDocument", VDict (dict_display
            [ ("id", VStr (tool_id config ++ ":document:" ++ of_nat idx));
              ("name", VStr (loaders.name doc));
              ("description", description);
              ("filetype",
                 VStr (lstrip_char "." (path_suffix (path doc))));
              ("dataLocation", VDict
                 [ ("localDataLocation", VDict
                      [ ("path", VStr (path_str (path doc))) ]) ]);
              (field_key, fulfilled);
              ("raw", raw) ])) ]);
      ("experimentalRelatedResourceIds", VList []) ]).

(** The [for] loop over [enumerate(evidence_items)]. *)
Fixpoint payloads_loop (config : EvidenceStoreConfig)
    (documents : list Document) (idx : nat) (items : list value)
    (payloads : list value) : result (list value) :=
  match items with
  | [] => Ok payloads
  | item :: rest =>
      doc <- document_at documents idx ;;
      body <- evidence_body config idx doc item ;;
      payloads_loop config documents (S idx) rest
        (payloads ++ [_strip_none body])%list
  end.

Definition build_evidence_payloads (result_ : AnalysisResult)
    (documents : list Document) (config : EvidenceStoreConfig)
    : result (list value) :=
  evidence_items <-
    (py_get (data result_) "evidence" <|> Ok (VList [])) ;;
  match evidence_items with
  | VList items => payloads_loop config documents 0 items []
  | _ => Ok []
  end.

Definition build_test_evidence_payload (config : EvidenceStoreConfig)
  : value :=
  let evidence_body :=
    VDict
      [ ("id", VStr (uuid4 0));
        ("timestamp", VStr (utc_now_iso 0));
        ("targetOfEvaluationId", VStr (target_of_evaluation_id config));
        ("toolId", VStr (tool_id config));
        ("resource", VDict
          [ ("genericDocument", VDict
              [ ("id", VStr (tool_id config ++ ":test-resource"));
                ("name", VStr "evidence-store-ping");
                ("description", VStr "Connectivity test payload");
                ("dataLocation", VDict
                   [ ("localDataLocation", VDict [ ("path", VStr "N/A") ]) ]);
                ("raw", VStr "ping") ]) ]);
        ("experimentalRelatedResourceIds", VList []) ] in
  _strip_none evidence_body.

End Payloads.

(** *** The store client *)

(** One call of [httpx.Client.post]: the URL and the keyword arguments
    [data], [json], [auth] and [headers]. *)
Record request : Type := {
  url : string;
  form_data : list (string * string);
  json_body : option value;
  basic_auth : option (string * string);
  headers : list (string * string)
}.

Record response : Type := {
  status_code : Z;
  text : string
}.

(** The network behind the [httpx.Client]: what a request gets, given
    the requests made before it.  [Raise (HTTPError _)] is a transport
    failure. *)
Definition Transport : Type := list request -> request -> result response.

(** The state of an [EvidenceStoreClient]: its configuration, the
    cached token ([None] at first) and the requests its [httpx.Client]
    has been asked to make, oldest first. *)
Record EvidenceStoreClient : Type := {
  config : EvidenceStoreConfig;
  _token : value;
  posted : list request
}.

Definition new_client (cfg : EvidenceStoreConfig) : EvidenceStoreClient :=
  {| config := cfg; _token := VNone; posted := [] |}.

(** A method of the client: it ends in a value or an exception, and
    leaves the client in a new state either way. *)
Definition Method (A : Type) : Type :=
  EvidenceStoreClient -> result A * EvidenceStoreClient.

Definition ret {A} (a : A) : Method A := fun self => (Ok a, self).
Definition raise {A} (e : exn) : Method A := fun self => (Raise e, self).
Definition lift {A} (r : result A) : Method A := fun self => (r, self).
Definition this : Method EvidenceStoreClient := fun self => (Ok self, self).

Definition and_then {A C} (m : Method A) (k : A -> Method C) : Method C :=
  fun self =>
    match m self with
    | (Ok a, self') => k a self'
    | (Raise e, self') => (Raise e, self')
    end.

Notation "x <~ m ;; k" := (and_then m (fun x => k))
  (at level 61, m at next level, right associativity).

(** [self._client.post(...)] *)
Definition post (net : Transport) (req : request) : Method response :=
  fun self =>
    (net (posted self) req,
     {| config := config self; _token := _token self;
        posted := (posted self ++ [req])%list |}).

(** [self._token = token] *)
Definition set_token (token : value) : Method unit :=
  fun self =>
    (Ok tt,
     {| config := config self; _token := token; posted := posted self |}).

(** [try: ... except httpx.HTTPError as exc: raise EvidenceStoreError(...)] *)
Definition except_http {A} (m : Method A) (msg : string -> string)
  : Method A :=
  fun self =>
    match m self with
    | (Raise (HTTPError exc), self') =>
        (Raise (EvidenceStoreError (msg exc)), self')
    | other => other
    end.

(** The failures of the token request: every message of [_get_token]
    starts with these words, and no message of the submission does. *)
Definition is_auth_error (e : exn) : bool :=
  match e with
  | EvidenceStoreError msg => String.prefix "OAuth token " msg
  | _ => false
  end.

(** A request that submits evidence: it carries a JSON body. *)
Definition is_submission (req : request) : bool :=
  match json_body req with
  | Some _ => true
  | None => false
  end.

Section Client.
Context {B : Builtins}.
Import PyStr.

(** [response.json()] *)
Definition response_json (r : response) : result value :=
  match json_loads (text r) with
  | Some v => Ok v
  | None => Raise JSONDecodeError
  end.

Definition token_request (cfg : EvidenceStoreConfig) : request :=
  {| url := token_endpoint cfg;
     form_data := [("grant_type", "client_credentials")];
     json_body := None;
     basic_auth := Some (client_id cfg, client_secret cfg);
     headers := [] |}.

Definition evidence_request (cfg : EvidenceStoreConfig)
    (payload token : value) : request :=
  {| url := evidence_url cfg;
     form_data := [];
     json_body := Some payload;
     basic_auth := None;
     headers := [("Authorization", "Bearer " ++ py_str token)] |}.

Definition _get_token (net : Transport) : Method value :=
  self <~ this ;;
  if truthy (_token self) then ret (_token self)
  else
    response <~
      except_http (post net (token_request (config self)))
        (fun exc => "OAuth token request failed: " ++ exc) ;;
    if (400 <=? status_code response)%Z then
      raise (EvidenceStoreError
               ("OAuth token request failed: "
                ++ of_Z (status_code response) ++ " " ++ text response))
    else
      payload <~ lift (response_json response) ;;
      token <~ lift (py_get payload "access_token") ;;
      if negb (truthy token) then
        raise (EvidenceStoreError
                 "OAuth token response missing access_token.")
      else
        _ <~ set_token token ;;
        ret token.

Definition send_evidence (net : Transport) (payload : value)
    : Method value :=
  token <~ _get_token net ;;
  self <~ this ;;
  let target := evidence_url (config self) in
  response <~
    except_http (post net (evidence_request (config self) payload token))
      (fun exc => "Failed to send evidence to " ++ target ++ ": " ++ exc) ;;
  if (400 <=? status_code response)%Z then
    raise (EvidenceStoreError
             ("Evidence store rejected payload ("
              ++ of_Z (status_code response) ++ ") at " ++ target
              ++ ": " ++ text response))
  else if (status_code response =? 204)%Z then ret (VDict [])
  else lift (response_json response).

Fixpoint send_batch_loop (net : Transport) (payloads : list value)
    (results : list value) : Method (list value) :=
  match payloads with
  | [] => ret results
  | payload :: rest =>
      r <~ send_evidence net payload ;;
      send_batch_loop net rest (results ++ [r])%list
  end.

Definition send_batch (net : Transport) (payloads : list value)
    : Method (list value) :=
  send_batch_loop net payloads [].

End Client.

End evidence_store.

(* ================================================================== *)
(** ** pipeline.py *)

Module pipeline.
Import loaders requirements llm extractor evidence_store.

(** [DocumentLoader.load]: the loop that appends the loaded documents. *)
Fixpoint load_loop (fs : FileSystem) (encoding : string)
    (paths : list Path) (documents : list Document)
    : outcome (list Document) :=
  match paths with
  | [] => Done documents
  | p :: rest =>
      doc <-- load_any_document fs p encoding ;;
      load_loop fs encoding rest (documents ++ [doc])%list
  end.

Definition load (fs : FileSystem) (encoding : string) (paths : list Path)
  : outcome (list Document) :=
  load_loop fs encoding paths [].

Section Pipeline.
Context {B : Builtins}.

(** [EvidenceExtractor.extract]: [requirements] is [None], or a
    sequence, which is falsy when empty. *)
Definition extract (llm : LLMClient) (documents : list Document)
    (focus : option string) (max_items : Z)
    (requirements : option (list requirement)) : result AnalysisResult :=
  match requirements with
  | Some (r :: rs) =>
      evidence_items <- analyse_requirements llm documents (r :: rs) ;;
      let data :=
        VDict [ ("document_summary", VStr EmptyString);
                ("evidence", VList evidence_items);
                ("gaps", VList []) ] in
      let sources := map (fun doc => path_str (path doc)) documents in
      Ok {| data := data; raw_response := EmptyString; sources := sources |}
  | Some [] | None => analyse llm documents focus max_items
  end.

(** [EvidencePublisher.push]: the count it returns or the exception it
    ends in, and the requests made through the client it opened (none
    when no client was opened). *)
Definition push (net : Transport) (config : EvidenceStoreConfig)
    (result_ : AnalysisResult) (documents : list Document)
    : result nat * list request :=
  match build_evidence_payloads result_ documents config with
  | Raise e => (Raise e, [])
  | Ok [] => (Ok 0, [])
  | Ok payloads =>
      match send_batch net payloads (new_client config) with
      | (Ok _, client) => (Ok (List.length payloads), posted client)
      | (Raise e, client) => (Raise e, posted client)
      end
  end.

(** [DocumentAnalysisPipeline.run]: [publisher] is the configuration
    of the [EvidencePublisher], or [None]. *)
Definition run (fs : FileSystem) (encoding : string) (llm : LLMClient)
    (publisher : option EvidenceStoreConfig) (net : Transport)
    (paths : list Path) (focus : option string) (max_items : Z)
    (requirements : option (list requirement)) (push_ : bool)
    : outcome (AnalysisResult * nat) * list request :=
  match load fs encoding paths with
  | Failed e => (Failed e, [])
  | Done documents =>
      match extract llm documents focus max_items requirements with
      | Raise e => (Failed (Python e), [])
      | Ok result_ =>
          match push_, publisher with
          | true, Some config =>
              match push net config result_ documents with
              | (Ok pushed, requests) => (Done (result_, pushed), requests)
              | (Raise e, requests) => (Failed (Python e), requests)
              end
          | _, _ => (Done (result_, 0), [])
          end
      end
  end.

End Pipeline.

End pipeline.

(* ================================================================== *)
(** ** config.py *)

Module config.
Import evidence_store.

Record ModelConfig : Type := {
  api_key : string;
  model : string;
  temperature : value;
  max_tokens : Z;
  base_url : option string
}.

(** [float(s)] and [int(s)] on a string of the environment: the number,
    or the exception the conversion ends in. *)
Record Conversions : Type := {
  to_float : string -> result value;
  to_int : string -> result Z
}.

(** [os.getenv(a) or os.getenv(b)] *)
Definition getenv_or (env : Environ) (a b : string) : option string :=
  match env a with
  | Some v => if PyStr.is_empty v then env b else Some v
  | None => env b
  end.

(** [not v] for a value of the environment *)
Definition unset (v : option string) : bool :=
  match v with
  | Some s => PyStr.is_empty s
  | None => true
  end.

Definition missing_key_message : string :=
  "API key missing. Set OPENAI_API_KEY (or DOC_ANALYSER_API_KEY) or provide a DOC_ANALYSER_BASE_URL/OPENAI_BASE_URL for a local model.".

(** [ModelConfig.from_env] *)
Definition from_env (conv : Conversions) (env : Environ)
  : outcome ModelConfig :=
  let api_key := getenv_or env "DOC_ANALYSER_API_KEY" "OPENAI_API_KEY" in
  let base_url := getenv_or env "DOC_ANALYSER_BASE_URL" "OPENAI_BASE_URL" in
  if unset api_key && unset base_url then
    Failed (ConfigError missing_key_message)
  else
    let api_key :=
      match api_key with
      | Some k => if PyStr.is_empty k then "not-set" else k
      | None => "not-set"
      end in
    let model := getenv_default env "DOC_ANALYSER_MODEL" "gpt-4o-mini" in
    temperature <--
      (match env "DOC_ANALYSER_TEMPERATURE" with
       | Some t =>
           match to_float conv t with
           | Ok f => Done f
           | Raise e => Failed (Python e)
           end
       | None => Done (VFloat 0 0)
       end) ;;
    max_tokens <--
      (match env "DOC_ANALYSER_MAX_TOKENS" with
       | Some t =>
           match to_int conv t with
           | Ok n => Done n
           | Raise e => Failed (Python e)
           end
       | None => Done 800%Z
       end) ;;
    Done {| api_key := api_key;
            model := model;
            temperature := temperature;
            max_tokens := max_tokens;
            base_url := base_url |}.

End config.

(* ================================================================== *)
(** ** cli.py *)

Module cli.
Import loaders requirements llm extractor evidence_store pipeline.

(** What [parse_args] returns; an option that was not given is [None]. *)
Record Namespace : Type := {
  files : list string;
  focus : option string;
  model_arg : option string;
  base_url_arg : option string;
  api_key_arg : option string;
  max_items : Z;
  push_evidence : bool;
  evidence_url_arg : option string;
  evidence_auth : option string;
  evidence_target_id : option string;
  evidence_tool_id : option string;
  test_evidence : bool;
  test_requirement : option string;
  all_requirements : bool
}.

(** [s.split(":", 1)] for an [s] that contains the separator: the text
    before the first separator and the text after it.  [None] when the
    separator is not in [s]. *)
Fixpoint split_once (sep : ascii) (s : string) : option (string * string) :=
  match s with
  | EmptyString => None
  | String c rest =>
      if Ascii.eqb c sep then Some (EmptyString, rest)
      else
        match split_once sep rest with
        | Some (before, after) => Some (String c before, after)
        | None => None
        end
  end.

(** An argument that was given and is not empty. *)
Definition given (a : option string) : option string :=
  match a with
  | Some s => if PyStr.is_empty s then None else Some s
  | None => None
  end.

Definition build_evidence_config (env : Environ) (args : Namespace)
  : outcome EvidenceStoreConfig :=
  let config := from_env env in
  let config :=
    match given (evidence_url_arg args) with
    | Some u =>
        {| base_url := u;
           token_endpoint := token_endpoint config;
           client_id := client_id config;
           client_secret := client_secret config;
           tool_id := tool_id config;
           target_of_evaluation_id := target_of_evaluation_id config;
           evidence_path := evidence_path config |}
    | None => config
    end in
  config <--
    (match given (evidence_auth args) with
     | Some auth =>
         match split_once ":" auth with
         | None =>
             Failed (ConfigError
               "Evidence auth must be in client_id:client_secret format.")
         | Some (id_, secret) =>
             Done {| base_url := base_url config;
                     token_endpoint := token_endpoint config;
                     client_id := id_;
                     client_secret := secret;
                     tool_id := tool_id config;
                     target_of_evaluation_id :=
                       target_of_evaluation_id config;
                     evidence_path := evidence_path config |}
         end
     | None => Done config
     end) ;;
  let config :=
    match given (evidence_target_id args) with
    | Some t =>
        {| base_url := base_url config;
           token_endpoint := token_endpoint config;
           client_id := client_id config;
           client_secret := client_secret config;
           tool_id := tool_id config;
           target_of_evaluation_id := t;
           evidence_path := evidence_path config |}
    | None => config
    end in
  let config :=
    match given (evidence_tool_id args) with
    | Some t =>
        {| base_url := base_url config;
           token_endpoint := token_endpoint config;
           client_id := client_id config;
           client_secret := client_secret config;
           tool_id := t;
           target_of_evaluation_id := target_of_evaluation_id config;
           evidence_path := evidence_path config |}
    | None => config
    end in
  Done config.

Definition build_config (conv : config.Conversions) (env : Environ)
    (args : Namespace) : outcome config.ModelConfig :=
  cfg <-- config.from_env conv env ;;
  let cfg :=
    match given (model_arg args) with
    | Some m =>
        {| config.api_key := config.api_key cfg;
           config.model := m;
           config.temperature := config.temperature cfg;
           config.max_tokens := config.max_tokens cfg;
           config.base_url := config.base_url cfg |}
    | None => cfg
    end in
  let cfg :=
    match given (base_url_arg args) with
    | Some u =>
        {| config.api_key := config.api_key cfg;
           config.model := config.model cfg;
           config.temperature := config.temperature cfg;
           config.max_tokens := config.max_tokens cfg;
           config.base_url := Some u |}
    | None => cfg
    end in
  let cfg :=
    match given (api_key_arg args) with
    | Some k =>
        {| config.api_key := k;
           config.model := config.model cfg;
           config.temperature := config.temperature cfg;
           config.max_tokens := config.max_tokens cfg;
           config.base_url := config.base_url cfg |}
    | None => cfg
    end in
  Done cfg.

(** What [main] works with besides its arguments: the environment, the
    file system, [Path(...)] on a text, [target.exists()] as [main]
    calls it (its answer, or the exception it ends in), the
    construction [LLMClient(config)] of the gateway (the gateway, or
    the exception the constructor ends in), the network, the
    conversions of numbers, [result.to_json()] and [str(exc)]. *)
Record Host : Type := {
  environ : Environ;
  disk : FileSystem;
  make_path : string -> Path;
  path_exists : Path -> outcome bool;
  connect : config.ModelConfig -> outcome LLMClient;
  network : Transport;
  conversions : config.Conversions;
  to_json : AnalysisResult -> string;
  describe : failure -> string
}.

(** What a call of [main] leaves behind: the exit code it returns (or
    the exception that escapes it), the texts written to standard
    error and printed to standard output, and the requests made to the
    store.  The writes themselves are taken to succeed. *)
Record Ran : Type := {
  code : outcome Z;
  stderr : list string;
  stdout : list string;
  requests : list request
}.

(** The loop of [main] over [args.files]: the paths, or the first one
    that does not exist; it ends in the exception of [target.exists()]
    when that call raises. *)
Fixpoint check_files (h : Host) (names : list string)
    (doc_paths : list Path) : outcome (list Path + Path) :=
  match names with
  | [] => Done (inl doc_paths)
  | name :: rest =>
      let target := make_path h name in
      found <-- path_exists h target ;;
      if negb found then Done (inr target)
      else check_files h rest (doc_paths ++ [target])%list
  end.

(** Whether [EVIDENCE_AUTO_PUSH], lowercased, is one of [1], [true],
    [yes] and [on]; an unset variable counts as empty. *)
Definition auto_push (env : Environ) : bool :=
  PyStr.mem (PyStr.lower (getenv_default env "EVIDENCE_AUTO_PUSH" EmptyString))
    ["1"; "true"; "yes"; "on"].

Section Main.
Context {B : Builtins}.

(** The branch of [main] for [--test-evidence]. *)
Definition send_test_evidence (h : Host) (args : Namespace) : Ran :=
  match build_evidence_config (environ h) args with
  | Failed e =>
      {| code := Done 1%Z;
         stderr := [ "Unexpected error during test evidence send: "
                     ++ describe h e ++ PyStr.nl ];
         stdout := [];
         requests := [] |}
  | Done evidence_config =>
      let payload := build_test_evidence_payload evidence_config in
      let printed := [ "payload: " ++ py_str payload ] in
      match send_evidence (network h) payload (new_client evidence_config)
      with
      | (Ok _, client) =>
          {| code := Done 0%Z;
             stderr := [ "Test evidence sent successfully." ++ PyStr.nl ];
             stdout := printed;
             requests := posted client |}
      | (Raise (EvidenceStoreError msg), client) =>
          {| code := Done 1%Z;
             stderr := [ "Evidence store error during test: "
                         ++ describe h (Python (EvidenceStoreError msg))
                         ++ PyStr.nl ];
             stdout := printed;
             requests := posted client |}
      | (Raise e, client) =>
          {| code := Done 1%Z;
             stderr := [ "Unexpected error during test evidence send: "
                         ++ describe h (Python e) ++ PyStr.nl ];
             stdout := printed;
             requests := posted client |}
      end
  end.

(** The part of [main] from the call of [pipeline.run] on. *)
Definition analyse_and_report (h : Host) (args : Namespace)
    (llm : LLMClient) (doc_paths : list Path)
    (push_enabled : bool) (publisher : option EvidenceStoreConfig)
    (requirements : list requirement) : Ran :=
  match run (disk h) "utf-8" llm publisher (network h)
          doc_paths (focus args) (max_items args) (Some requirements)
          push_enabled
  with
  | (Done (result_, pushed), reqs) =>
      {| code := Done 0%Z;
         stderr :=
           if push_enabled then
             if (0 <? pushed)%nat then
               [ "Pushed " ++ PyStr.of_nat pushed
                 ++ " evidence item(s) to the evidence store." ++ PyStr.nl ]
             else
               [ "No evidence items produced; skipping evidence store push."
                 ++ PyStr.nl ]
           else [];
         stdout := [ to_json h result_ ];
         requests := reqs |}
  | (Failed (Python (EvidenceStoreError msg)), reqs) =>
      {| code := Done 1%Z;
         stderr := [ "Evidence store error: "
                     ++ describe h (Python (EvidenceStoreError msg))
                     ++ PyStr.nl ];
         stdout := [];
         requests := reqs |}
  | (Failed (FileNotFoundError msg), reqs) =>
      {| code := Done 1%Z;
         stderr := [ describe h (FileNotFoundError msg) ++ PyStr.nl ];
         stdout := [];
         requests := reqs |}
  | (Failed e, reqs) =>
      {| code := Done 1%Z;
         stderr := [ "Unexpected error during analysis: "
                     ++ describe h e ++ PyStr.nl ];
         stdout := [];
         requests := reqs |}
  end.

(** [main], from the parsed arguments on. *)
Definition main (h : Host) (args : Namespace) : Ran :=
  if negb (test_evidence args)
     && match files args with [] => true | _ => false end
  then
    {| code := Done 2%Z;
       stderr := [ "No files provided. Specify one or more files, or use --test-evidence."
                   ++ PyStr.nl ];
       stdout := [];
       requests := [] |}
  else
    match build_config (conversions h) (environ h) args with
    | Failed (ConfigError msg) =>
        {| code := Done 1%Z;
           stderr := [ "Configuration error: "
                       ++ describe h (ConfigError msg) ++ PyStr.nl ];
           stdout := [];
           requests := [] |}
    | Failed e =>
        {| code := Failed e; stderr := []; stdout := []; requests := [] |}
    | Done cfg =>
        if test_evidence args then send_test_evidence h args
        else
          match check_files h (files args) [] with
          | Failed e =>
              {| code := Failed e; stderr := []; stdout := [];
                 requests := [] |}
          | Done (inr target) =>
              {| code := Done 1%Z;
                 stderr := [ "Document not found: " ++ path_str target
                             ++ PyStr.nl ];
                 stdout := [];
                 requests := [] |}
          | Done (inl doc_paths) =>
              match connect h cfg with
              | Failed e =>
                  {| code := Failed e; stderr := []; stdout := [];
                     requests := [] |}
              | Done llm =>
                  let push_enabled :=
                    push_evidence args || auto_push (environ h) in
                  match
                    (if push_enabled then
                       match build_evidence_config (environ h) args with
                       | Done c => Done (Some c)
                       | Failed e => Failed e
                       end
                     else Done None)
                  with
                  | Failed e =>
                      {| code := Failed e; stderr := []; stdout := [];
                         requests := [] |}
                  | Done publisher =>
                      match given (test_requirement args) with
                      | Some requirement_id =>
                          match get_requirement requirement_id with
                          | None =>
                              {| code := Done 1%Z;
                                 stderr := [ "Unknown requirement ID: "
                                             ++ requirement_id ++ PyStr.nl ];
                                 stdout := [];
                                 requests := [] |}
                          | Some requirement =>
                              analyse_and_report h args llm doc_paths
                                push_enabled publisher [requirement]
                          end
                      | None =>
                          analyse_and_report h args llm doc_paths
                            push_enabled publisher list_requirements
                      end
                  end
              end
          end
    end.

End Main.

End cli.

(* ================================================================== *)
(** ** The merge rule of the specification *)

Module spec.

(** The rule for [raw] in the words of the specification: the snippet
    alone if there is no citation, the citation line alone if there is
    no snippet, both on two lines when both are present, and the empty
    string if neither is. *)
Definition raw_rule (snippet citation : string) : string :=
  if PyStr.is_empty citation then snippet
  else if PyStr.is_empty snippet then "Citation: " ++ citation
  else snippet ++ PyStr.nl ++ "Citation: " ++ citation.

(** The text an evidence item holds under a key: absent, [None] and
    the empty string all count as no text. *)
Definition text_of (v : value) : option string :=
  match v with
  | VNone => Some EmptyString
  | VStr s => Some s
  | _ => None
  end.

Definition field (item : value) (k : string) : string :=
  match item with
  | VDict d =>
      match dict_get d k with
      | VStr s => s
      | _ => EmptyString
      end
  | _ => EmptyString
  end.

(** [raw] as the rule gives it from the item's snippet and citation. *)
Definition raw_as_specified (item : value) : value :=
  VStr (raw_rule (field item "snippet") (field item "citation")).

(** Where a payload holds [raw]. *)
Definition raw_path : list string := ["resource"; "genericDocument"; "raw"].

(** An element of the evidence list that is an evidence item: a
    mapping whose [responseField], if it has one, can be a key (it is
    not a non-empty list or mapping). *)
Definition evidence_item_like (item : value) : bool :=
  match item with
  | VDict d =>
      match dict_get d "responseField" with
      | VList (_ :: _) | VDict (_ :: _) => false
      | _ => true
      end
  | _ => false
  end.

(** A requirement that has the attributes every [RequirementPrompt]
    has: [id], [name], [prompt] and [resource_type]. *)
Definition complete (r : requirements.requirement) : bool :=
  match requirements.id r, requirements.name r, requirements.prompt r,
        requirements.resource_type r with
  | Some _, Some _, Some _, Some _ => true
  | _, _, _, _ => false
  end.

(** A gateway call that returns, with a reply that is either not JSON
    or a JSON object. *)
Definition usable_reply {B : Builtins} (reply : result string) : bool :=
  match reply with
  | Ok raw =>
      match json_loads raw with
      | None | Some (VDict _) => true
      | Some _ => false
      end
  | Raise _ => false
  end.

(** What [json.loads] hands to the loop body of
    [analyse_requirements], with the fallback for a reply that is not
    JSON. *)
Definition parsed_of {B : Builtins} (raw : string) : value :=
  match json_loads raw with
  | Some v => v
  | None => VDict []
  end.

(** An item that comes from one of the requirements and one reply, and
    holds a boolean under [fulfilled]: [False] when the reply is not
    JSON, and when neither field of the reply reads as a verdict. *)
Definition boolean_verdict {B : Builtins}
    (rs : list requirements.requirement) (item : value) : Prop :=
  exists r raw b,
    In r rs
    /\ extractor.evidence_item r raw = Ok item
    /\ lookup_path item ["fulfilled"] = Some (VBool b)
    /\ (json_loads raw = None -> b = false)
    /\ (forall d,
           json_loads raw = Some (VDict d) ->
           extractor._parse_bool (dict_get d (requirements.field_name_of r))
           = VNone ->
           extractor._parse_bool (dict_get d "fulfilled") = VNone ->
           b = false).

(** The answers to the token request on which no token is obtained: a
    transport failure, a status of 400 or more, or a JSON object
    without a usable [access_token]. *)
Definition token_refused {B : Builtins}
    (answer : result evidence_store.response) : bool :=
  match answer with
  | Raise (HTTPError _) => true
  | Raise _ => false
  | Ok resp =>
      if (400 <=? evidence_store.status_code resp)%Z then true
      else
        match json_loads (evidence_store.text resp) with
        | Some (VDict d) => negb (truthy (dict_get d "access_token"))
        | _ => false
        end
  end.

(** The token a successful answer to the token request carries. *)
Definition token_granted {B : Builtins}
    (answer : result evidence_store.response) : option value :=
  match answer with
  | Ok resp =>
      if (400 <=? evidence_store.status_code resp)%Z then None
      else
        match json_loads (evidence_store.text resp) with
        | Some (VDict d) =>
            if truthy (dict_get d "access_token")
            then Some (dict_get d "access_token") else None
        | _ => None
        end
  | Raise _ => None
  end.

(** The submissions of the first [k] payloads of a batch, in order. *)
Definition submissions {B : Builtins}
    (config : evidence_store.EvidenceStoreConfig) (token : value)
    (k : nat) (payloads : list value) : list evidence_store.request :=
  map (fun p => evidence_store.evidence_request config p token)
    (firstn k payloads).

(** The client after it has made further requests, with a given token. *)
Definition client_after (self : evidence_store.EvidenceStoreClient)
    (token : value) (requests : list evidence_store.request)
  : evidence_store.EvidenceStoreClient :=
  {| evidence_store.config := evidence_store.config self;
     evidence_store._token := token;
     evidence_store.posted := (evidence_store.posted self ++ requests)%list |}.

(** A value holds an emptied member when, somewhere in it, a member of
    a mapping is not [None], [{}] or [[]] as it stands but is one of
    them once pruned. *)
Fixpoint emptied_member (v : value) : bool :=
  match v with
  | VDict d =>
      existsb (fun kv =>
                 (negb (evidence_store.is_blank (snd kv))
                  && evidence_store.is_blank
                       (evidence_store._strip_none (snd kv)))
                 || emptied_member (snd kv)) d
  | VList l => existsb emptied_member l
  | _ => false
  end.

(** A member that pruning handles well: it is dropped as it stands,
    or its pruned form is kept and is fully pruned. *)
Definition tidy (x : value) : Prop :=
  evidence_store.is_blank x = true
  \/ (evidence_store.is_blank (evidence_store._strip_none x) = false
      /\ evidence_store.fully_pruned (evidence_store._strip_none x) = true).

(** A page of a PDF that gives no text: extraction raised, returned
    nothing, or returned only white space. *)
Definition blank_page (p : loaders.page) : bool :=
  match p with
  | loaders.Extracted (Some t) => PyStr.is_empty (PyStr.strip t)
  | loaders.Extracted None => true
  | loaders.ExtractionFailed => true
  end.

(** [c in s] for a character. *)
Fixpoint contains (c : ascii) (s : string) : bool :=
  match s with
  | EmptyString => false
  | String a rest => Ascii.eqb a c || contains c rest
  end.

(** Whether a value reads as true: what [_parse_bool] makes of it,
    with [None] taken as false. *)
Definition reads_true (v : value) : bool :=
  match extractor._parse_bool v with
  | VBool true => true
  | _ => false
  end.

(** Whether the strings of a list are pairwise distinct. *)
Fixpoint distinct (l : list string) : bool :=
  match l with
  | [] => true
  | x :: rest => negb (PyStr.mem x rest) && distinct rest
  end.

(** A value that is neither a list nor a mapping. *)
Definition scalar (v : value) : bool :=
  match v with
  | VList _ | VDict _ => false
  | _ => true
  end.

(** An evidence item whose fields hold no list and no mapping. *)
Definition scalar_item (item : value) : bool :=
  match item with
  | VDict d =>
      forallb (fun k => scalar (dict_get d k))
        ["responseField"; "fulfilled"; "snippet"; "citation"; "evidence";
         "statement"; "title"]
  | _ => false
  end.

(** The first non-empty string of a list, or the empty string. *)
Fixpoint first_nonempty (l : list string) : string :=
  match l with
  | [] => EmptyString
  | s :: rest => if PyStr.is_empty s then first_nonempty rest else s
  end.

(** Where a payload holds the name of its document, the path of its
    document and the title of its item. *)
Definition name_path : list string :=
  ["resource"; "genericDocument"; "name"].
Definition location_path : list string :=
  ["resource"; "genericDocument"; "dataLocation"; "localDataLocation";
   "path"].
Definition description_path : list string :=
  ["resource"; "genericDocument"; "description"].

(** The key under which the payload of an item holds the verdict: the
    item's [responseField], or [requirementMet] when the item has
    none. *)
Definition verdict_key {B : Builtins} (item : value) : option string :=
  match item with
  | VDict d =>
      match as_key (py_or (dict_get d "responseField")
                      (VStr "requirementMet")) with
      | Ok k => Some k
      | Raise _ => None
      end
  | _ => None
  end.

(** The text of a variable or option that may be absent. *)
Definition or_empty (o : option string) : string :=
  match o with
  | Some s => s
  | None => EmptyString
  end.

End spec.

(* ================================================================== *)
(** ** Concrete inputs *)

Module samples.
Import loaders requirements prompts llm extractor evidence_store.
Import PyStr.

(** A JSON string literal. *)
Definition q (s : string) : string := dq ++ s ++ dq.

(** Replies of the model and bodies of HTTP responses. *)
Definition reply_false_then_true : string :=
  "{" ++ q "businessContinuityPolicy" ++ ": false, "
      ++ q "fulfilled" ++ ": true}".
Definition reply_array : string := "[]".
Definition reply_yes : string :=
  "{" ++ q "businessContinuityPolicy" ++ ": " ++ q "Yes" ++ ", "
      ++ q "snippet" ++ ": " ++ q "Backups run nightly." ++ "}".
Definition body_token : string :=
  "{" ++ q "access_token" ++ ": " ++ q "tok-1" ++ "}".
Definition body_no_token : string :=
  "{" ++ q "error" ++ ": " ++ q "invalid_client" ++ "}".
Definition body_stored : string :=
  "{" ++ q "status" ++ ": " ++ q "stored" ++ "}".

(** [json.loads] on the texts above; any other text of these examples
    is prose, which [json.loads] rejects. *)
Definition loads (s : string) : option value :=
  if String.eqb s reply_false_then_true then
    Some (VDict [ ("businessContinuityPolicy", VBool false);
                  ("fulfilled", VBool true) ])
  else if String.eqb s reply_array then Some (VList [])
  else if String.eqb s reply_yes then
    Some (VDict [ ("businessContinuityPolicy", VStr "Yes");
                  ("snippet", VStr "Backups run nightly.") ])
  else if String.eqb s body_token then
    Some (VDict [ ("access_token", VStr "tok-1") ])
  else if String.eqb s body_no_token then
    Some (VDict [ ("error", VStr "invalid_client") ])
  else if String.eqb s body_stored then
    Some (VDict [ ("status", VStr "stored") ])
  else None.

Definition builtins : Builtins :=
  {| json_loads := loads;
     py_repr := fun _ => "<repr>";
     str_format := fun template _ => Ok template;
     uuid4 := fun n => "00000000-0000-4000-8000-00000000000" ++ of_nat n;
     utc_now_iso := fun _ => "2025-01-01T00:00:00+00:00" |}.

Definition policy_txt : Document :=
  {| path := {| path_str := "docs/policy.txt"; path_name := "policy.txt";
                path_suffix := ".txt" |};
     loaders.content := "Backups run nightly." |}.

Definition report_pdf : Document :=
  {| path := {| path_str := "docs/report.pdf"; path_name := "report.pdf";
                path_suffix := ".pdf" |};
     loaders.content := "[Page 1]" ++ nl ++ "Incident report." |}.

Definition E83 : requirement :=
  RequirementPrompt "E83" "Availability of essential functions"
    "Business continuity policy created." genericDocument
    (Some "businessContinuityPolicy").

Definition E81 : requirement :=
  RequirementPrompt "E81" "Mitigation of denial-of-service attacks"
    "Describes strategies to protect availability." genericDocument
    (Some "availabilityProtection").

Definition E79 : requirement :=
  RequirementPrompt "E79" "Data minimisation"
    "Data minimization policy created." requirements.data None.

(** A requirement object without a [name] attribute. *)
Definition nameless : requirement :=
  {| id := Some "E83"; name := None;
     prompt := Some "Business continuity policy created.";
     resource_type := Some genericDocument;
     response_field_name := None; response_schema := None |}.

(** A gateway that gives the same reply to every call. *)
Definition always (reply : string) : LLMClient := fun _ _ _ => Ok reply.

(** A gateway whose calls end in an exception of the provider. *)
Definition unreachable : LLMClient :=
  fun _ _ _ => Raise (GatewayError "Connection error.").

Definition store : EvidenceStoreConfig :=
  {| base_url := "http://localhost:8080/";
     token_endpoint := "http://localhost:8080/v1/auth/token";
     client_id := "clouditor";
     client_secret := "clouditor";
     tool_id := "document-analyser";
     target_of_evaluation_id := "00000000-0000-0000-0000-000000000000";
     evidence_path := "/v1/evidence_store/evidence" |}.

Definition in_result (evidence : list value) : AnalysisResult :=
  {| data := VDict [ ("document_summary", VStr EmptyString);
                     ("evidence", VList evidence);
                     ("gaps", VList []) ];
     raw_response := EmptyString;
     sources := ["docs/policy.txt"] |}.

(** An evidence item whose snippet is an object with a null member. *)
Definition item_nested_null : value :=
  VDict [ ("title", VStr "Backup policy");
          ("snippet", VDict [ ("quote", VNone) ]) ].

(** An evidence item with a statement but no snippet and no citation. *)
Definition item_statement_only : value :=
  VDict [ ("title", VStr "Backup policy");
          ("evidence", VStr "Backups run nightly.");
          ("snippet", VStr EmptyString);
          ("citation", VStr EmptyString) ].

(** An evidence item with a citation but no snippet. *)
Definition item_citation_only : value :=
  VDict [ ("title", VStr "Backup policy");
          ("citation", VStr "Page 3") ].

Definition item_both : value :=
  VDict [ ("title", VStr "Backup policy");
          ("snippet", VStr "Backups run nightly.");
          ("citation", VStr "Page 3");
          ("fulfilled", VBool true);
          ("responseField", VStr "businessContinuityPolicy") ].

(** The item [analyse_requirements] builds for [E83] from [reply_yes]. *)
Definition item_yes : value :=
  VDict
    [ ("title", VStr "Availability of essential functions");
      ("evidence", VStr EmptyString);
      ("snippet", VStr "Backups run nightly.");
      ("citation", VStr EmptyString);
      ("fulfilled", VBool true);
      ("responseField", VStr "businessContinuityPolicy");
      ("confidence", VStr "low");
      ("requirementId", VStr "E83");
      ("resourceType", VStr "genericDocument") ].

Definition three_items : list value :=
  [ item_statement_only; item_citation_only; item_both ].

(** A disk that holds the two documents and nothing else. *)
Definition disk : FileSystem :=
  {| file_exists := fun p =>
       String.eqb (path_str p) "docs/policy.txt"
       || String.eqb (path_str p) "docs/report.pdf";
     read_text := fun _ _ => Done "Backups run nightly.";
     read_text_ignore := fun _ _ => Done "Backups run nightly.";
     pdf_pages := fun _ => Done [ Extracted (Some "Incident report.") ] |}.

Definition missing_txt : Path :=
  {| path_str := "docs/missing.txt"; path_name := "missing.txt";
     path_suffix := ".txt" |}.

(** The options of a command line with [--evidence-url] and
    [--evidence-auth]. *)
Definition args_with_auth : cli.Namespace :=
  {| cli.files := ["docs/policy.txt"];
     cli.focus := None;
     cli.model_arg := None;
     cli.base_url_arg := None;
     cli.api_key_arg := Some "sk-test";
     cli.max_items := 8;
     cli.push_evidence := true;
     cli.evidence_url_arg := Some "http://store:9000";
     cli.evidence_auth := Some "collector:s3cr:et";
     cli.evidence_target_id := None;
     cli.evidence_tool_id := None;
     cli.test_evidence := false;
     cli.test_requirement := None;
     cli.all_requirements := false |}.

Definition empty_env : Environ := fun _ => None.

(** Networks: the token endpoint answers 401; or it grants a token and
    the evidence endpoint answers 204. *)
Definition net_401 : Transport :=
  fun _ _ => Ok {| status_code := 401; text := "unauthorized" |}.

(** A client that already holds a token. *)
Definition authenticated : EvidenceStoreClient :=
  {| config := store; _token := VStr "tok-0"; posted := [] |}.

(** Networks whose token endpoint answers 200 with a login page, or
    with a JSON array. *)
Definition net_login_page : Transport :=
  fun _ _ => Ok {| status_code := 200; text := "<html>login</html>" |}.

Definition net_array : Transport :=
  fun _ _ => Ok {| status_code := 200; text := reply_array |}.

Definition net_granting : Transport :=
  fun _ req =>
    if is_submission req
    then Ok {| status_code := 204; text := EmptyString |}
    else Ok {| status_code := 200; text := body_token |}.

(** An environment that holds the key of the provider and nothing
    else. *)
Definition env_with_key : Environ :=
  fun k => if String.eqb k "OPENAI_API_KEY" then Some "sk-env" else None.

(** [Path(name)] for the names of these examples. *)
Definition as_path (s : string) : Path :=
  if String.eqb s "docs/policy.txt" then path policy_txt
  else if String.eqb s "docs/report.pdf" then path report_pdf
  else {| path_str := s; path_name := s; path_suffix := EmptyString |}.

(** [float] and [int] on the texts of these examples. *)
Definition numbers : config.Conversions :=
  {| config.to_float := fun s =>
       if String.eqb s "0.5" then Ok (VFloat 5 (-1))
       else Raise (ValueError ("could not convert string to float: " ++ s));
     config.to_int := fun s =>
       if String.eqb s "800" then Ok 800%Z
       else Raise (ValueError
                     ("invalid literal for int() with base 10: " ++ s)) |}.

(** A machine with the two documents on disk, a gateway that always
    answers [reply_yes] and a store that accepts everything. *)
Definition host : cli.Host :=
  {| cli.environ := env_with_key;
     cli.disk := disk;
     cli.make_path := as_path;
     cli.path_exists := fun p => Done (file_exists disk p);
     cli.connect := fun _ => Done (always reply_yes);
     cli.network := net_granting;
     cli.conversions := numbers;
     cli.to_json := fun _ => "{...}";
     cli.describe := fun e =>
       match e with
       | ConfigError msg | FileNotFoundError msg | OSError msg => msg
       | _ => "error"
       end |}.

(** The same machine with a temperature that is not a number. *)
Definition env_warm : Environ :=
  fun k =>
    if String.eqb k "OPENAI_API_KEY" then Some "sk-env"
    else if String.eqb k "DOC_ANALYSER_TEMPERATURE" then Some "warm"
    else None.

Definition host_warm : cli.Host :=
  {| cli.environ := env_warm;
     cli.disk := cli.disk host;
     cli.make_path := cli.make_path host;
     cli.path_exists := cli.path_exists host;
     cli.connect := cli.connect host;
     cli.network := cli.network host;
     cli.conversions := cli.conversions host;
     cli.to_json := cli.to_json host;
     cli.describe := cli.describe host |}.

(** The same command line with an [--evidence-auth] that has no colon,
    and the one of [--test-evidence]. *)
Definition args_bad_auth : cli.Namespace :=
  {| cli.files := ["docs/policy.txt"];
     cli.focus := None;
     cli.model_arg := None;
     cli.base_url_arg := None;
     cli.api_key_arg := None;
     cli.max_items := 8;
     cli.push_evidence := true;
     cli.evidence_url_arg := None;
     cli.evidence_auth := Some "collector";
     cli.evidence_target_id := None;
     cli.evidence_tool_id := None;
     cli.test_evidence := false;
     cli.test_requirement := None;
     cli.all_requirements := false |}.


End samples.

(* ================================================================== *)
(** * Properties *)

Module properties.
Import loaders requirements prompts llm extractor evidence_store.

(** ** Small facts about values and dictionaries *)

Lemma py_get_dict (d : dict) (k : string) :
  py_get (VDict d) k = Ok (dict_get d k).
Proof. reflexivity. Qed.

Lemma or_else_ok (v : value) (b : result value) :
  (Ok v <|> b) = if truthy v then Ok v else b.
Proof. reflexivity. Qed.

Lemma or_else_default (v w : value) :
  (Ok v <|> Ok w) = Ok (py_or v w).
Proof. unfold or_else, py_or; cbn. destruct (truthy v); reflexivity. Qed.

Lemma parse_bool_range (v : value) :
  _parse_bool v = VNone \/ exists b, _parse_bool v = VBool b.
Proof.
  destruct v; cbn [_parse_bool]; eauto.
  repeat match goal with
         | |- context [if ?c then _ else _] => destruct c
         end; eauto.
Qed.

(** ** The prompt builders *)

Section PromptFacts.
Context {B : Builtins}.

(** C1. [build_messages] raises on every call: the name [SYSTEM_PROMPT]
    it formats is bound neither in the module nor in the builtins, so
    no document text, source name, focus or [max_items] gets the
    two-message exchange the contract promises. *)
Theorem build_messages_always_raises :
  forall (document_text : string) (source_name focus : option string)
         (max_items : Z),
    build_messages document_text source_name focus max_items
    = Raise (NameError "SYSTEM_PROMPT").
Proof. intros; reflexivity. Qed.

(** The other builder keeps the contract for every object that has
    an [id] and a [prompt]: two messages, system then user. *)
Lemma build_requirement_messages_returns :
  forall (document_text : string) (r : requirement)
         (source_name : option string) (i p : string),
    id r = Some i -> prompt r = Some p ->
    exists system_prompt user_prompt,
      build_requirement_messages document_text r source_name
      = Ok [ {| role := "system"; content := system_prompt |};
             {| role := "user"; content := user_prompt |} ].
Proof.
  intros document_text r source_name i p Hid Hprompt.
  unfold build_requirement_messages.
  rewrite Hid, Hprompt; cbn.
  destruct (response_schema r) as [v|]; [destruct (truthy v)|];
    cbn; eauto.
Qed.

(** When the object has no [name], the user prompt shows the id in
    its place. *)
Lemma build_requirement_messages_name_fallback :
  forall (document_text : string) (r : requirement)
         (source_name : option string) (i p : string),
    id r = Some i -> prompt r = Some p -> name r = None ->
    exists system_prompt,
      build_requirement_messages document_text r source_name
      = Ok [ {| role := "system"; content := system_prompt |};
             {| role := "user";
                content :=
                  ("Source: " ++ context_name_of source_name ++ "."
                   ++ PyStr.nl
                   ++ "Requirement: " ++ i ++ " (" ++ i ++ ")." ++ PyStr.nl
                   ++ "Instruction: " ++ p ++ PyStr.nl ++ PyStr.nl
                   ++ "Return only the JSON object.")
                  ++ PyStr.nl ++ PyStr.nl ++ document_text |} ].
Proof.
  intros document_text r source_name i p Hid Hprompt Hname.
  unfold build_requirement_messages.
  rewrite Hid, Hprompt, Hname; cbn.
  destruct (response_schema r) as [v|]; [destruct (truthy v)|];
    cbn; eauto.
Qed.

End PromptFacts.

(** ** The analyser, general mode *)

Section AnalyseFacts.
Context {B : Builtins}.

(** C7. [analyse] raises for every non-empty document sequence,
    whatever the model would reply: it calls [build_messages] before
    the gateway, and that call raises [NameError].  The degraded
    result for a reply that is not JSON is never reached. *)
Theorem analyse_always_raises :
  forall (llm : LLMClient) (doc : Document) (docs : list Document)
         (focus : option string) (max_items : Z),
    analyse llm (doc :: docs) focus max_items
    = Raise (NameError "SYSTEM_PROMPT").
Proof. intros; reflexivity. Qed.

(** The handler itself does what the contract says: from a reply
    that is not JSON it builds a result with no evidence, no gaps, a
    parse-error marker and the reply untouched. *)
Lemma analyse_reply_degraded :
  forall (documents : list Document) (raw : string),
    json_loads raw = None ->
    let r := analyse_reply documents raw in
    raw_response r = raw
    /\ lookup_path (data r) ["evidence"] = Some (VList [])
    /\ lookup_path (data r) ["gaps"] = Some (VList [])
    /\ lookup_path (data r) ["parse_error"]
       = Some (VStr "Response was not valid JSON.")
    /\ sources r = map (fun d => path_str (path d)) documents.
Proof.
  intros documents raw Hraw; unfold analyse_reply; rewrite Hraw; cbn.
  repeat split.
Qed.

End AnalyseFacts.

(** ** Verdict coercion *)

Example parse_bool_yes : _parse_bool (VStr "Yes") = VBool true.
Proof. reflexivity. Qed.

Example parse_bool_not_fulfilled :
  _parse_bool (VStr "NOT FULFILLED") = VBool false.
Proof. reflexivity. Qed.

Example parse_bool_number : _parse_bool (VInt 42) = VNone.
Proof. reflexivity. Qed.

Example parse_bool_padded : _parse_bool (VStr "  Unfulfilled ") = VBool false.
Proof. reflexivity. Qed.

Section VerdictFacts.
Context {B : Builtins}.

(** What [verdict] computes on an object: [True] as soon as either
    field reads as true, otherwise [False]. *)
Lemma verdict_on_object (d : dict) (field_name : string) :
  verdict (VDict d) field_name
  = Ok (VBool
          (match _parse_bool (dict_get d field_name) with
           | VBool true => true
           | _ =>
               match _parse_bool (dict_get d "fulfilled") with
               | VBool b => b
               | _ => false
               end
           end)).
Proof.
  unfold verdict, or_else; cbn.
  destruct (parse_bool_range (dict_get d field_name)) as [-> | [[|] ->]];
    cbn; try reflexivity;
    destruct (parse_bool_range (dict_get d "fulfilled"))
      as [-> | [b ->]]; reflexivity.
Qed.

(** An explicit [false] under the configured field does not stand
    when the generic field says [true]. *)
Lemma verdict_false_then_true (d : dict) (field_name : string) :
  dict_get d field_name = VBool false ->
  dict_get d "fulfilled" = VBool true ->
  verdict (VDict d) field_name = Ok (VBool true).
Proof.
  intros H1 H2. rewrite verdict_on_object, H1, H2. reflexivity.
Qed.

End VerdictFacts.

(** C2. The configured field is read first and the generic field is
    the fallback, but joined by [or]: for the reply
    [{"businessContinuityPolicy": false, "fulfilled": true}] to a
    requirement whose configured field is [businessContinuityPolicy],
    the item comes out with [fulfilled] true, not false. *)
Theorem configured_false_is_overridden :
  exists item,
    @analyse_requirements samples.builtins
      (samples.always samples.reply_false_then_true)
      [samples.policy_txt] [samples.E83] = Ok [item]
    /\ lookup_path item ["responseField"]
       = Some (VStr "businessContinuityPolicy")
    /\ lookup_path item ["fulfilled"] = Some (VBool true).
Proof. eexists; repeat split; vm_compute; reflexivity. Qed.

(** ** Pruning *)

Example strip_none_dict_member :
  _strip_none (VDict [ ("a", VDict [ ("b", VNone) ]) ])
  = VDict [ ("a", VDict []) ].
Proof. reflexivity. Qed.

Example strip_none_list_element :
  _strip_none (VList [ VDict [ ("b", VNone) ] ]) = VList [].
Proof. reflexivity. Qed.

(** C3. A payload can keep an empty mapping: for an evidence item whose
    snippet is the object [{"quote": null}], the payload that
    [build_evidence_payloads] returns has [raw] equal to [{}], a
    mapping that became empty when its own member was pruned. *)
Theorem payload_keeps_emptied_mapping :
  exists payload,
    @build_evidence_payloads samples.builtins
      (samples.in_result [samples.item_nested_null])
      [samples.policy_txt] samples.store = Ok [payload]
    /\ lookup_path payload ["resource"; "genericDocument"; "raw"]
       = Some (VDict [])
    /\ fully_pruned payload = false.
Proof. eexists; repeat split; vm_compute; reflexivity. Qed.

(** ** Looking into a pruned payload *)

Lemma lookup_dict_set_same (d : dict) (k : string) (v : value) :
  lookup (dict_set d k v) k = Some v.
Proof.
  induction d as [|[k' v'] r IH]; cbn.
  - now rewrite String.eqb_refl.
  - destruct (String.eqb k k') eqn:E; cbn; rewrite E; auto.
Qed.

Lemma lookup_dict_set_other (d : dict) (k k' : string) (v : value) :
  k <> k' -> lookup (dict_set d k' v) k = lookup d k.
Proof.
  intros Hne. induction d as [|[k0 v0] r IH]; cbn.
  - destruct (String.eqb_spec k k'); [contradiction|reflexivity].
  - destruct (String.eqb_spec k' k0) as [<-|Hk0]; cbn.
    + now destruct (String.eqb_spec k k').
    + destruct (String.eqb k k0); auto.
Qed.

Lemma dict_display_snoc (entries : list (string * value)) (k : string)
    (v : value) :
  dict_display (entries ++ [(k, v)]) = dict_set (dict_display entries) k v.
Proof. unfold dict_display. now rewrite fold_left_app. Qed.

Lemma lookup_comprehension (d : dict) (k : string) (v : value) :
  lookup d k = Some v -> is_blank v = false ->
  lookup (dict_comprehension _strip_none d) k = Some (_strip_none v).
Proof.
  induction d as [|[k' v'] r IH]; cbn; [discriminate|].
  intros Hk Hv. destruct (String.eqb k k') eqn:E.
  - injection Hk as ->. rewrite Hv; cbn. now rewrite E.
  - destruct (is_blank v'); cbn; [|rewrite E]; auto.
Qed.

Lemma lookup_path_not_blank (path : list string) (v x : value) :
  lookup_path v path = Some x -> is_blank x = false -> is_blank v = false.
Proof.
  destruct path as [|k rest]; cbn.
  - now intros [= ->].
  - destruct v; try discriminate. destruct d; [discriminate|reflexivity].
Qed.

Lemma lookup_path_strip (path : list string) :
  forall v x,
    lookup_path v path = Some x -> is_blank x = false ->
    lookup_path (_strip_none v) path = Some (_strip_none x).
Proof.
  induction path as [|k rest IH]; intros v x Hp Hx.
  - cbn in *. now injection Hp as ->.
  - destruct v; try discriminate. cbn in Hp.
    destruct (lookup d k) as [v'|] eqn:E; [|discriminate].
    cbn [_strip_none lookup_path].
    rewrite (lookup_comprehension d k v' E
               (lookup_path_not_blank rest v' x Hp Hx)).
    now apply IH.
Qed.

(** ** The payload builder *)

Section PayloadFacts.
Context {B : Builtins}.
Import spec.

Lemma document_at_some (documents : list Document) (idx : nat) :
  documents <> [] ->
  exists doc,
    nth_error documents (idx mod List.length documents) = Some doc
    /\ document_at documents idx = Ok doc.
Proof.
  intros Hne. unfold document_at.
  destruct (List.length documents) as [|n] eqn:Hlen.
  - destruct documents; [congruence|discriminate].
  - destruct (nth_error documents (idx mod S n)) as [doc|] eqn:E; eauto.
    apply nth_error_None in E.
    pose proof (Nat.mod_upper_bound idx (S n)); lia.
Qed.

Lemma as_key_response_field (d : dict) :
  evidence_item_like (VDict d) = true ->
  exists field_key,
    as_key (py_or (dict_get d "responseField") (VStr "requirementMet"))
    = Ok field_key.
Proof.
  unfold evidence_item_like, py_or.
  destruct (dict_get d "responseField") as [| [|] | z | m e | s | l | l];
    cbn; eauto.
  - destruct (negb (z =? 0)%Z); cbn; eauto.
  - destruct (negb (m =? 0)%Z); cbn; eauto.
  - destruct (negb (PyStr.is_empty s)); cbn; eauto.
  - destruct l; [cbn; eauto|discriminate].
  - destruct l; [cbn; eauto|discriminate].
Qed.

(** The dictionary built for an evidence item, with its [raw]. *)
Lemma evidence_body_returns (config : EvidenceStoreConfig) (idx : nat)
    (doc : Document) (d : dict) :
  evidence_item_like (VDict d) = true ->
  exists body,
    evidence_body config idx doc (VDict d) = Ok body
    /\ lookup_path body raw_path
       = Some (raw_of
                 (py_or (dict_get d "snippet")
                    (py_or (dict_get d "citation")
                       (py_or (dict_get d "evidence")
                          (py_or (dict_get d "statement")
                             (VStr EmptyString)))))
                 (py_or (dict_get d "citation") (VStr EmptyString))).
Proof.
  intros Hitem. destruct (as_key_response_field d Hitem) as [key Hkey].
  unfold evidence_body. rewrite !py_get_dict, !or_else_default.
  cbn [bind]. rewrite Hkey. cbn [bind].
  eexists; split; [reflexivity|].
  unfold raw_path, dict_display.
  cbn [lookup_path lookup fold_left fst snd String.eqb Ascii.eqb
       Bool.eqb dict_set].
  now rewrite lookup_dict_set_same.
Qed.

(** What the dictionary built for an item holds of the document and
    of the item, wherever the verdict does not take the key. *)
Lemma evidence_body_carries (config : EvidenceStoreConfig) (idx : nat)
    (doc : Document) (d : dict) (body : value) :
  evidence_body config idx doc (VDict d) = Ok body ->
  exists key,
    verdict_key (VDict d) = Some key
    /\ (key <> "name" ->
        lookup_path body name_path = Some (VStr (loaders.name doc)))
    /\ (key <> "dataLocation" ->
        lookup_path body location_path
        = Some (VStr (path_str (path doc))))
    /\ (forall title,
           key <> "description" ->
           lookup_path (VDict d) ["title"] = Some (VStr title) ->
           title <> EmptyString ->
           lookup_path body description_path = Some (VStr title)).
Proof.
  unfold evidence_body, verdict_key.
  rewrite !py_get_dict, !or_else_default. cbn [bind].
  destruct (as_key (py_or (dict_get d "responseField")
                      (VStr "requirementMet"))) as [key|e];
    cbn [bind]; [|discriminate].
  intros [= <-]. exists key. split; [reflexivity|].
  unfold name_path, location_path, description_path.
  cbn [lookup_path lookup String.eqb Ascii.eqb Bool.eqb].
  match goal with
  | |- context [lookup (dict_display [?a; ?e; ?c; ?f; ?g; ?h; ?j]) _] =>
      change (dict_display [a; e; c; f; g; h; j])
        with (dict_display (([a; e; c; f; g] ++ [h]) ++ [j]))
  end.
  rewrite !dict_display_snoc.
  split; [|split].
  - intros Hkey.
    rewrite (lookup_dict_set_other _ "name" "raw") by discriminate.
    rewrite (lookup_dict_set_other _ "name" key) by congruence.
    reflexivity.
  - intros Hkey.
    rewrite (lookup_dict_set_other _ "dataLocation" "raw") by discriminate.
    rewrite (lookup_dict_set_other _ "dataLocation" key) by congruence.
    reflexivity.
  - intros title Hkey Htitle Hne.
    rewrite (lookup_dict_set_other _ "description" "raw") by discriminate.
    rewrite (lookup_dict_set_other _ "description" key) by congruence.
    unfold dict_get.
    destruct (lookup d "title") as [v|]; [|discriminate].
    injection Htitle as ->. unfold py_or. cbn [truthy].
    destruct title; [congruence|reflexivity].
Qed.

End PayloadFacts.

Section PayloadClaims.
Context {B : Builtins}.
Import spec.

Lemma py_or_text (v w : value) (s : string) :
  text_of v = Some s ->
  py_or v w = if PyStr.is_empty s then w else VStr s.
Proof.
  unfold py_or. destruct v; cbn; try discriminate; intros [= <-]; cbn.
  - reflexivity.
  - now destruct s0.
Qed.

Lemma payloads_loop_spec (config : EvidenceStoreConfig)
    (documents : list Document) :
  documents <> [] ->
  forall (items : list value) (idx : nat) (payloads : list value),
    Forall (fun item => evidence_item_like item = true) items ->
    exists new,
      payloads_loop config documents idx items payloads
      = Ok (payloads ++ new)%list
      /\ List.length new = List.length items
      /\ forall i item,
           nth_error items i = Some item ->
           exists doc body,
             nth_error documents ((idx + i) mod List.length documents)
             = Some doc
             /\ evidence_body config (idx + i) doc item = Ok body
             /\ nth_error new i = Some (_strip_none body).
Proof.
  intros Hne. induction items as [|item rest IH]; intros idx payloads Hall.
  - exists []. cbn. rewrite app_nil_r. repeat split.
    intros [|i] item; discriminate.
  - inversion Hall as [|? ? Hitem Hrest]; subst.
    destruct (document_at_some documents idx Hne) as (doc & Hnth & Hdoc).
    destruct item as [| | | | | |d]; try discriminate.
    destruct (evidence_body_returns config idx doc d Hitem)
      as (body & Hbody & _).
    destruct (IH (S idx) (payloads ++ [_strip_none body])%list Hrest)
      as (new & Hloop & Hlen & Hith).
    exists (_strip_none body :: new). cbn [payloads_loop].
    rewrite Hdoc; cbn [bind]. rewrite Hbody; cbn [bind].
    rewrite Hloop, <- app_assoc. cbn [app List.length].
    repeat split; [congruence|].
    intros [|i] item Hi; cbn in Hi.
    + injection Hi as <-. rewrite Nat.add_0_r. eauto.
    + rewrite Nat.add_succ_r. now apply Hith.
Qed.

Lemma build_evidence_payloads_loop (r : AnalysisResult)
    (documents : list Document) (config : EvidenceStoreConfig)
    (d : dict) (items : list value) :
  data r = VDict d ->
  dict_get d "evidence" = VList items ->
  build_evidence_payloads r documents config
  = payloads_loop config documents 0 items [].
Proof.
  intros Hdata Hev. unfold build_evidence_payloads.
  rewrite Hdata, py_get_dict, Hev, or_else_ok.
  destruct items; reflexivity.
Qed.

(** C8. For an analysis result whose evidence list holds [n] evidence
    items and a non-empty document sequence of length [d],
    [build_evidence_payloads] returns [n] payloads, and the payload
    at index [i] is the pruned body built from the item at index [i]
    and the document at index [i mod d]: it carries the name and the
    path of that document and, as its description, the title of that
    item, wherever the key of the verdict does not take their
    place. *)
Theorem evidence_wraps_around_documents :
  forall (r : AnalysisResult) (documents : list Document)
         (config : EvidenceStoreConfig) (d : dict) (items : list value),
    documents <> [] ->
    data r = VDict d ->
    dict_get d "evidence" = VList items ->
    Forall (fun item => evidence_item_like item = true) items ->
    exists payloads,
      build_evidence_payloads r documents config = Ok payloads
      /\ List.length payloads = List.length items
      /\ forall i item,
           nth_error items i = Some item ->
           exists doc body payload key,
             nth_error documents (i mod List.length documents) = Some doc
             /\ evidence_body config i doc item = Ok body
             /\ nth_error payloads i = Some payload
             /\ payload = _strip_none body
             /\ verdict_key item = Some key
             /\ (key <> "name" ->
                 lookup_path payload name_path
                 = Some (VStr (loaders.name doc)))
             /\ (key <> "dataLocation" ->
                 lookup_path payload location_path
                 = Some (VStr (path_str (path doc))))
             /\ (forall title,
                    key <> "description" ->
                    lookup_path item ["title"] = Some (VStr title) ->
                    title <> EmptyString ->
                    lookup_path payload description_path
                    = Some (VStr title)).
Proof.
  intros r documents config d items Hne Hdata Hev Hall.
  destruct (payloads_loop_spec config documents Hne items 0 [] Hall)
    as (new & Hloop & Hlen & Hith).
  exists new.
  rewrite (build_evidence_payloads_loop r documents config d items
             Hdata Hev), Hloop.
  split; [reflexivity|]. split; [exact Hlen|].
  intros i item Hi.
  destruct (Hith i item Hi) as (doc & body & Hdoc & Hbody & Hpayload).
  cbn [Nat.add] in Hdoc, Hbody.
  assert (Hlike : evidence_item_like item = true).
  { apply nth_error_In in Hi.
    now apply (proj1 (Forall_forall _ _) Hall) in Hi. }
  destruct item as [| | | | | |entries]; try discriminate.
  destruct (evidence_body_carries config i doc entries body Hbody)
    as (key & Hkey & Hname & Hpath & Htitle).
  exists doc, body, (_strip_none body), key.
  split; [exact Hdoc|]. split; [exact Hbody|].
  split; [exact Hpayload|]. split; [reflexivity|].
  split; [exact Hkey|]. split; [|split].
  - intros Hk.
    now apply (lookup_path_strip name_path body _ (Hname Hk)).
  - intros Hk.
    now apply (lookup_path_strip location_path body _ (Hpath Hk)).
  - intros title Hk Ht Hnonempty.
    now apply (lookup_path_strip description_path body _
                 (Htitle title Hk Ht Hnonempty)).
Qed.

(** C10. For an analysis result with at least one evidence item,
    [build_evidence_payloads] called with an empty document sequence
    raises [ZeroDivisionError] and returns no payload list. *)
Theorem no_documents_raises :
  forall (r : AnalysisResult) (config : EvidenceStoreConfig) (d : dict)
         (item : value) (items : list value),
    data r = VDict d ->
    dict_get d "evidence" = VList (item :: items) ->
    build_evidence_payloads r [] config = Raise ZeroDivisionError.
Proof.
  intros r config d item items Hdata Hev.
  unfold build_evidence_payloads.
  rewrite Hdata, py_get_dict, Hev. reflexivity.
Qed.

(** C4, as amended. For an evidence item whose snippet, citation,
    evidence and statement are text (or absent), the payload's [raw]
    is, when there is no citation, the snippet, or failing that the
    evidence text, or failing that the statement text (so the empty
    string only when all three are absent); and when snippet and
    citation are both present it is the snippet, a line feed, and
    the citation after the words [Citation: ]. *)
Theorem raw_merges_snippet_and_citation :
  forall (r : AnalysisResult) (documents : list Document)
         (config : EvidenceStoreConfig) (d : dict) (items : list value)
         (i : nat) (item : dict) (snippet citation evidence statement : string),
    documents <> [] ->
    data r = VDict d ->
    dict_get d "evidence" = VList items ->
    Forall (fun item => evidence_item_like item = true) items ->
    nth_error items i = Some (VDict item) ->
    text_of (dict_get item "snippet") = Some snippet ->
    text_of (dict_get item "citation") = Some citation ->
    text_of (dict_get item "evidence") = Some evidence ->
    text_of (dict_get item "statement") = Some statement ->
    exists payloads payload,
      build_evidence_payloads r documents config = Ok payloads
      /\ nth_error payloads i = Some payload
      /\ (citation = EmptyString ->
          lookup_path payload raw_path
          = Some (VStr (first_nonempty [snippet; evidence; statement])))
      /\ (snippet <> EmptyString -> citation <> EmptyString ->
          lookup_path payload raw_path
          = Some (VStr (snippet ++ PyStr.nl ++ "Citation: " ++ citation))).
Proof.
  intros r documents config d items i item snippet citation evidence
         statement Hne Hdata Hev Hall Hi Hs Hc He Hst.
  destruct (payloads_loop_spec config documents Hne items 0 [] Hall)
    as (payloads & Hbuild & _ & Hith).
  cbn [app] in Hbuild.
  rewrite <- (build_evidence_payloads_loop r documents config d items
                Hdata Hev) in Hbuild.
  destruct (Hith i (VDict item) Hi) as (doc & body & _ & Hbody & Hpayload).
  cbn [Nat.add] in Hbody.
  assert (Hlike : evidence_item_like (VDict item) = true).
  { apply nth_error_In in Hi.
    now apply (proj1 (Forall_forall _ _) Hall) in Hi. }
  destruct (evidence_body_returns config i doc item Hlike)
    as (body' & Hbody' & Hraw).
  rewrite Hbody in Hbody'. injection Hbody' as <-.
  exists payloads, (_strip_none body).
  repeat split; auto.
  - intros ->.
    rewrite (py_or_text _ _ _ Hs), !(py_or_text _ _ _ Hc),
      (py_or_text _ _ _ He), (py_or_text _ _ _ Hst) in Hraw.
    cbn [PyStr.is_empty] in Hraw. unfold raw_of in Hraw.
    cbn [truthy PyStr.is_empty negb] in Hraw.
    cbn [first_nonempty].
    destruct (PyStr.is_empty snippet), (PyStr.is_empty evidence),
      (PyStr.is_empty statement);
      apply (lookup_path_strip raw_path _ _ Hraw); reflexivity.
  - intros Hsn Hcn.
    rewrite (py_or_text _ _ _ Hs), !(py_or_text _ _ _ Hc) in Hraw.
    destruct snippet as [|a s]; [congruence|].
    destruct citation as [|b c]; [congruence|].
    cbn [PyStr.is_empty] in Hraw. unfold raw_of in Hraw.
    cbn [truthy PyStr.is_empty negb py_str] in Hraw.
    apply (lookup_path_strip raw_path _ _ Hraw); reflexivity.
Qed.

End PayloadClaims.

(** The scenario of the specification: two documents, three items. *)
Example wrap_around_scenario :
  exists p0 p1 p2,
    @build_evidence_payloads samples.builtins
      (samples.in_result samples.three_items)
      [samples.policy_txt; samples.report_pdf] samples.store
    = Ok [p0; p1; p2]
    /\ lookup_path p0 ["resource"; "genericDocument"; "name"]
       = Some (VStr "policy.txt")
    /\ lookup_path p1 ["resource"; "genericDocument"; "name"]
       = Some (VStr "report.pdf")
    /\ lookup_path p2 ["resource"; "genericDocument"; "name"]
       = Some (VStr "policy.txt").
Proof. do 3 eexists; repeat split; vm_compute; reflexivity. Qed.

Lemma evidence_wraps_around_documents_witness :
  exists payloads,
    @build_evidence_payloads samples.builtins
      (samples.in_result samples.three_items)
      [samples.policy_txt; samples.report_pdf] samples.store
    = Ok payloads
    /\ List.length payloads = 3
    /\ forall i item,
         nth_error samples.three_items i = Some item ->
         exists doc body payload key,
           nth_error [samples.policy_txt; samples.report_pdf] (i mod 2)
           = Some doc
           /\ @evidence_body samples.builtins samples.store i doc item
              = Ok body
           /\ nth_error payloads i = Some payload
           /\ payload = _strip_none body
           /\ @spec.verdict_key samples.builtins item = Some key
           /\ (key <> "name" ->
               lookup_path payload spec.name_path
               = Some (VStr (loaders.name doc)))
           /\ (key <> "dataLocation" ->
               lookup_path payload spec.location_path
               = Some (VStr (path_str (path doc))))
           /\ (forall title,
                  key <> "description" ->
                  lookup_path item ["title"] = Some (VStr title) ->
                  title <> EmptyString ->
                  lookup_path payload spec.description_path
                  = Some (VStr title)).
Proof.
  eapply (@evidence_wraps_around_documents samples.builtins
           (samples.in_result samples.three_items)
           [samples.policy_txt; samples.report_pdf] samples.store
           _ samples.three_items).
  - discriminate.
  - reflexivity.
  - reflexivity.
  - repeat constructor.
Defined.

Lemma no_documents_raises_witness :
  @build_evidence_payloads samples.builtins
    (samples.in_result [samples.item_both]) [] samples.store
  = Raise ZeroDivisionError.
Proof.
  eapply (@no_documents_raises samples.builtins
           (samples.in_result [samples.item_both]) samples.store
           _ samples.item_both []).
  - reflexivity.
  - reflexivity.
Defined.

Lemma raw_merges_snippet_and_citation_witness :
  exists payloads payload,
    @build_evidence_payloads samples.builtins
      (samples.in_result samples.three_items)
      [samples.policy_txt; samples.report_pdf] samples.store
    = Ok payloads
    /\ nth_error payloads 2 = Some payload
    /\ ("Page 3" = EmptyString ->
        lookup_path payload spec.raw_path
        = Some (VStr (spec.first_nonempty
                        ["Backups run nightly."; EmptyString; EmptyString])))
    /\ ("Backups run nightly." <> EmptyString -> "Page 3" <> EmptyString ->
        lookup_path payload spec.raw_path
        = Some (VStr ("Backups run nightly." ++ PyStr.nl
                      ++ "Citation: " ++ "Page 3"))).
Proof.
  eapply (@raw_merges_snippet_and_citation samples.builtins
           (samples.in_result samples.three_items)
           [samples.policy_txt; samples.report_pdf] samples.store
           _ samples.three_items 2
           [ ("title", VStr "Backup policy");
             ("snippet", VStr "Backups run nightly.");
             ("citation", VStr "Page 3");
             ("fulfilled", VBool true);
             ("responseField", VStr "businessContinuityPolicy") ]).
  - discriminate.
  - reflexivity.
  - reflexivity.
  - repeat constructor.
  - reflexivity.
  - reflexivity.
  - reflexivity.
  - reflexivity.
  - reflexivity.
Defined.

(** The rule as the specification words it fails on an item that has
    a statement but neither snippet nor citation: [raw] is the
    statement, not the empty string. *)
Lemma raw_rule_fails_on_statement_only :
  exists payload,
    @build_evidence_payloads samples.builtins
      (samples.in_result [samples.item_statement_only])
      [samples.policy_txt] samples.store = Ok [payload]
    /\ lookup_path payload spec.raw_path
       = Some (VStr "Backups run nightly.")
    /\ spec.raw_as_specified samples.item_statement_only = VStr EmptyString
    /\ lookup_path payload spec.raw_path
       <> Some (spec.raw_as_specified samples.item_statement_only).
Proof.
  eexists; repeat split; try (vm_compute; reflexivity).
  vm_compute; discriminate.
Qed.

(** With a citation and no snippet the citation stands in for the
    snippet, so it appears twice; the branch of [raw_of] that writes
    the citation line alone is not reached from [evidence_body]. *)
Example citation_only_repeats_citation :
  exists payload,
    @build_evidence_payloads samples.builtins
      (samples.in_result [samples.item_citation_only])
      [samples.policy_txt] samples.store = Ok [payload]
    /\ lookup_path payload spec.raw_path
       = Some (VStr ("Page 3" ++ PyStr.nl ++ "Citation: Page 3"))
    /\ spec.raw_as_specified samples.item_citation_only
       = VStr "Citation: Page 3".
Proof. eexists; repeat split; vm_compute; reflexivity. Qed.

(** ** The analyser, requirement mode *)

Section RequirementFacts.
Context {B : Builtins}.
Import spec.

(** An item comes only from an object, and its verdict is the one
    [verdict_on_object] describes. *)
Lemma evidence_item_inv (r : requirement) (raw : string) (item : value) :
  evidence_item r raw = Ok item ->
  exists d b,
    parsed_of raw = VDict d
    /\ verdict (VDict d) (field_name_of r) = Ok (VBool b)
    /\ lookup_path item ["fulfilled"] = Some (VBool b)
    /\ lookup_path item ["requirementId"] = option_map VStr (id r)
    /\ lookup_path item ["title"] = option_map VStr (requirements.name r).
Proof.
  unfold evidence_item. fold (parsed_of raw).
  destruct (parsed_of raw) as [| | | | | |d];
    try (cbn; discriminate).
  rewrite verdict_on_object. cbn [bind].
  rewrite !py_get_dict, !or_else_default.
  destruct (requirements.name r) as [n|]; [|cbn; discriminate].
  destruct (id r) as [i|]; [|cbn; discriminate].
  destruct (resource_type r) as [t|]; [|cbn; discriminate].
  cbn [bind attr]. intros [= <-].
  exists d. eexists. split; [reflexivity|].
  split; [apply verdict_on_object|]. repeat split.
Qed.

Lemma evidence_item_returns (r : requirement) (raw : string) :
  complete r = true ->
  usable_reply (Ok raw) = true ->
  exists item, evidence_item r raw = Ok item.
Proof.
  unfold complete, usable_reply, evidence_item.
  destruct (id r) as [i|]; [|discriminate].
  destruct (requirements.name r) as [n|]; [|discriminate].
  destruct (prompt r) as [p|]; [|discriminate].
  destruct (resource_type r) as [t|]; [|discriminate].
  intros _ Hreply.
  destruct (json_loads raw) as [[| | | | | |d]|]; try discriminate;
    rewrite verdict_on_object; cbn [bind];
    rewrite !py_get_dict, !or_else_default; cbn; eauto.
Qed.

Lemma complete_has_id_and_prompt (r : requirement) :
  complete r = true -> exists i p, id r = Some i /\ prompt r = Some p.
Proof.
  unfold complete.
  destruct (id r), (requirements.name r), (prompt r), (resource_type r);
    try discriminate; eauto.
Qed.

Lemma requirements_loop_returns (llm : LLMClient)
    (merged_text source_name : string) :
  forall (rs : list requirement) (n : nat) (evidence_items : list value),
    Forall (fun r => complete r = true) rs ->
    (forall k messages,
        n <= k < n + List.length rs ->
        usable_reply (llm k messages (Some "json")) = true) ->
    exists new,
      requirements_loop llm merged_text source_name n rs evidence_items
      = Ok (evidence_items ++ new)%list
      /\ List.length new = List.length rs
      /\ forall i r,
           nth_error rs i = Some r ->
           exists item,
             nth_error new i = Some item
             /\ lookup_path item ["requirementId"]
                = option_map VStr (id r)
             /\ lookup_path item ["title"]
                = option_map VStr (requirements.name r).
Proof.
  induction rs as [|r rest IH]; intros n acc Hall Hllm.
  - exists []. cbn. rewrite app_nil_r. repeat split.
    intros [|i] r; discriminate.
  - inversion Hall as [|? ? Hr Hrest]; subst.
    destruct (complete_has_id_and_prompt r Hr) as (i & p & Hid & Hp).
    destruct (build_requirement_messages_returns merged_text r
                (Some source_name) i p Hid Hp) as (sp & up & Hmsgs).
    cbn [requirements_loop]. rewrite Hmsgs. cbn [bind].
    specialize (Hllm n) as Hn.
    specialize (Hn [ {| role := "system"; content := sp |};
                     {| role := "user"; content := up |} ]).
    assert (Hrange : n <= n < n + List.length (r :: rest))
      by (cbn; lia).
    specialize (Hn Hrange).
    destruct (llm n _ (Some "json")) as [raw|e] eqn:Hcall;
      [|discriminate].
    destruct (evidence_item_returns r raw Hr Hn) as (item & Hitem).
    cbn [bind]. rewrite Hitem. cbn [bind].
    destruct (IH (S n) (acc ++ [item])%list Hrest) as (new & Hloop & Hlen & Hith).
    { intros k messages Hk. apply Hllm. cbn. lia. }
    exists (item :: new). rewrite Hloop, <- app_assoc.
    cbn [app List.length]. repeat split; [congruence|].
    intros [|j] r' Hj; cbn in Hj.
    + injection Hj as <-. exists item. cbn [nth_error].
      destruct (evidence_item_inv r raw item Hitem)
        as (d & b & _ & _ & _ & Hrid & Htitle).
      auto.
    + now apply Hith.
Qed.

Lemma evidence_item_boolean (r : requirement) (raw : string)
    (item : value) :
  evidence_item r raw = Ok item -> boolean_verdict [r] item.
Proof.
  intros Hitem.
  destruct (evidence_item_inv r raw item Hitem)
    as (d & b & Hparsed & Hverdict & Hful & _).
  exists r, raw, b. repeat split; auto.
  - now left.
  - intros Hraw. unfold parsed_of in Hparsed. rewrite Hraw in Hparsed.
    injection Hparsed as <-.
    rewrite verdict_on_object in Hverdict. cbn in Hverdict.
    now injection Hverdict as <-.
  - intros d' Hraw H1 H2. unfold parsed_of in Hparsed.
    rewrite Hraw in Hparsed. injection Hparsed as <-.
    rewrite verdict_on_object, H1, H2 in Hverdict.
    now injection Hverdict as <-.
Qed.

Lemma boolean_verdict_weaken (rs rs' : list requirement) (item : value) :
  incl rs rs' -> boolean_verdict rs item -> boolean_verdict rs' item.
Proof.
  intros Hincl (r & raw & b & Hin & H). exists r, raw, b. split; auto.
Qed.

Lemma requirements_loop_boolean (llm : LLMClient)
    (merged_text source_name : string) :
  forall (rs : list requirement) (n : nat) (acc out : list value),
    requirements_loop llm merged_text source_name n rs acc = Ok out ->
    exists new,
      out = (acc ++ new)%list /\ Forall (boolean_verdict rs) new.
Proof.
  induction rs as [|r rest IH]; intros n acc out Hloop.
  - cbn in Hloop. injection Hloop as <-. exists [].
    now rewrite app_nil_r.
  - cbn [requirements_loop] in Hloop.
    destruct (build_requirement_messages merged_text r (Some source_name))
      as [messages|e]; [|discriminate].
    cbn [bind] in Hloop.
    destruct (llm n messages (Some "json")) as [raw|e]; [|discriminate].
    cbn [bind] in Hloop.
    destruct (evidence_item r raw) as [item|e] eqn:Hitem; [|discriminate].
    cbn [bind] in Hloop.
    destruct (IH _ _ _ Hloop) as (new & -> & Hnew).
    exists (item :: new). rewrite <- app_assoc. split; [reflexivity|].
    constructor.
    + apply (boolean_verdict_weaken [r]).
      * intros x [<-|[]]. now left.
      * exact (evidence_item_boolean r raw item Hitem).
    + eapply Forall_impl; [|exact Hnew].
      intros x. apply boolean_verdict_weaken. intros y Hy. now right.
Qed.

End RequirementFacts.

Section RequirementClaims.
Context {B : Builtins}.
Import spec.

(** An empty requirement sequence gives an empty evidence list. *)
Lemma no_requirements_no_items (llm : LLMClient) (doc : Document)
    (docs : list Document) :
  analyse_requirements llm (doc :: docs) [] = Ok [].
Proof. reflexivity. Qed.

(** C5, as amended. For every non-empty document sequence and every
    sequence of requirements, if each gateway call returns a reply
    that is either not JSON or a JSON object, [analyse_requirements]
    returns exactly one evidence item per requirement, in the order
    of the requirements: the item at index [i] carries the id and
    the name of the requirement at index [i]. *)
Theorem one_item_per_requirement :
  forall (llm : LLMClient) (documents : list Document)
         (rs : list requirement),
    documents <> [] ->
    Forall (fun r => complete r = true) rs ->
    (forall k messages,
        k < List.length rs ->
        usable_reply (llm k messages (Some "json")) = true) ->
    exists items,
      analyse_requirements llm documents rs = Ok items
      /\ List.length items = List.length rs
      /\ forall i r,
           nth_error rs i = Some r ->
           exists item,
             nth_error items i = Some item
             /\ lookup_path item ["requirementId"]
                = option_map VStr (id r)
             /\ lookup_path item ["title"]
                = option_map VStr (requirements.name r).
Proof.
  intros llm documents rs Hne Hall Hllm.
  destruct documents as [|doc docs]; [congruence|].
  destruct (requirements_loop_returns llm
              (concatenate_documents (doc :: docs))
              (source_name_of (doc :: docs)) rs 0 [] Hall)
    as (new & Hloop & Hlen & Hith).
  { intros k messages Hk. apply Hllm. lia. }
  exists new. unfold analyse_requirements. rewrite Hloop.
  repeat split; auto.
Qed.


End RequirementClaims.

Lemma one_item_per_requirement_witness :
  exists items,
    @analyse_requirements samples.builtins
      (samples.always samples.reply_yes) [samples.policy_txt]
      [samples.E83; samples.E81; samples.E79] = Ok items
    /\ List.length items = 3
    /\ forall i r,
         nth_error [samples.E83; samples.E81; samples.E79] i = Some r ->
         exists item,
           nth_error items i = Some item
           /\ lookup_path item ["requirementId"] = option_map VStr (id r)
           /\ lookup_path item ["title"]
              = option_map VStr (requirements.name r).
Proof.
  apply (@one_item_per_requirement samples.builtins
           (samples.always samples.reply_yes) [samples.policy_txt]
           [samples.E83; samples.E81; samples.E79]).
  - discriminate.
  - repeat constructor.
  - intros k messages _. reflexivity.
Defined.

(** Two runs with one document and one requirement that return no
    item: a gateway call that raises ends the run, and so does a reply
    that is valid JSON but not an object (the array [[]] has no
    [get]). *)
Lemma gateway_can_end_the_run :
  @analyse_requirements samples.builtins
    samples.unreachable [samples.policy_txt] [samples.E83]
  = Raise (GatewayError "Connection error.")
  /\ @analyse_requirements samples.builtins
       (samples.always samples.reply_array) [samples.policy_txt]
       [samples.E83]
     = Raise (AttributeError "list" "get").
Proof. split; vm_compute; reflexivity. Qed.


(** ** The store client *)

Section ClientFacts.
Context {B : Builtins}.
Import spec.

Lemma client_after_nil (self : EvidenceStoreClient) :
  client_after self (_token self) [] = self.
Proof.
  destruct self; unfold client_after; cbn. now rewrite app_nil_r.
Qed.

Lemma get_token_cached (net : Transport) (self : EvidenceStoreClient) :
  truthy (_token self) = true ->
  _get_token net self = (Ok (_token self), self).
Proof.
  intros H. unfold _get_token, and_then, this. now rewrite H.
Qed.

Lemma get_token_refused (net : Transport) (self : EvidenceStoreClient) :
  truthy (_token self) = false ->
  token_refused (net (posted self) (token_request (config self))) = true ->
  exists e,
    _get_token net self
    = (Raise e,
       client_after self (_token self) [token_request (config self)])
    /\ is_auth_error e = true.
Proof.
  intros Hnone Hrefused.
  unfold _get_token, and_then, this, except_http, post. rewrite Hnone.
  unfold token_refused in Hrefused.
  destruct (net (posted self) (token_request (config self)))
    as [resp|e]; cbn [fst snd].
  - destruct (400 <=? status_code resp)%Z.
    + eexists; split; reflexivity.
    + unfold lift, response_json.
      destruct (json_loads (text resp)) as [[| | | | | |d]|];
        try discriminate.
      rewrite py_get_dict.
      destruct (truthy (dict_get d "access_token")); [discriminate|].
      eexists; split; reflexivity.
  - destruct e; try discriminate. eexists; split; reflexivity.
Qed.

Lemma get_token_granted (net : Transport) (self : EvidenceStoreClient)
    (token : value) :
  truthy (_token self) = false ->
  token_granted (net (posted self) (token_request (config self)))
  = Some token ->
  _get_token net self
  = (Ok token, client_after self token [token_request (config self)]).
Proof.
  intros Hnone Hgranted.
  unfold _get_token, and_then, this, except_http, post. rewrite Hnone.
  unfold token_granted in Hgranted.
  destruct (net (posted self) (token_request (config self)))
    as [resp|e]; [|discriminate].
  destruct (400 <=? status_code resp)%Z; [discriminate|].
  unfold lift, response_json.
  destruct (json_loads (text resp)) as [[| | | | | |d]|];
    try discriminate.
  rewrite py_get_dict.
  destruct (truthy (dict_get d "access_token")); [|discriminate].
  injection Hgranted as <-. reflexivity.
Qed.

Lemma get_token_not_granted (net : Transport) (self : EvidenceStoreClient) :
  truthy (_token self) = false ->
  token_granted (net (posted self) (token_request (config self))) = None ->
  exists e,
    _get_token net self
    = (Raise e,
       client_after self (_token self) [token_request (config self)]).
Proof.
  intros Hnone Hgranted.
  unfold _get_token, and_then, this, except_http, post. rewrite Hnone.
  unfold token_granted in Hgranted.
  destruct (net (posted self) (token_request (config self)))
    as [resp|e]; cbn [fst snd].
  - destruct (400 <=? status_code resp)%Z; [eexists; reflexivity|].
    unfold lift, response_json.
    destruct (json_loads (text resp)) as [[| | | | | |d]|];
      try (eexists; reflexivity).
    rewrite py_get_dict.
    destruct (truthy (dict_get d "access_token")); [discriminate|].
    eexists; reflexivity.
  - destruct e; eexists; reflexivity.
Qed.

Lemma send_evidence_without_token (net : Transport) (payload : value)
    (self self1 : EvidenceStoreClient) (e : exn) :
  _get_token net self = (Raise e, self1) ->
  send_evidence net payload self = (Raise e, self1).
Proof.
  intros H. unfold send_evidence. unfold and_then at 1. now rewrite H.
Qed.

(** After the token is in hand, [send_evidence] makes exactly one
    more request, the submission, and leaves the token alone. *)
Lemma send_evidence_with_token (net : Transport) (payload token : value)
    (self self1 : EvidenceStoreClient) :
  _get_token net self = (Ok token, self1) ->
  exists outcome,
    send_evidence net payload self
    = (outcome,
       client_after self1 (_token self1)
         [evidence_request (config self1) payload token]).
Proof.
  intros H. unfold send_evidence. unfold and_then at 1. rewrite H.
  unfold and_then, ret, this, except_http, post, raise, lift, client_after.
  destruct (net (posted self1)
              (evidence_request (config self1) payload token))
    as [resp|e]; cbn.
  - destruct (400 <=? status_code resp)%Z; [eauto|].
    destruct (status_code resp =? 204)%Z; eauto.
  - destruct e; eauto.
Qed.

(** C9, as amended. A client without a cached token asks for one
    first.  If the token endpoint answers with a status of 400 or more
    (401, say), or the transport fails, or the answer is a JSON object
    without an access token, [send_evidence] fails with an
    authentication error and the token request is the only request
    made: no evidence is submitted.  Whenever no token is obtained,
    [send_evidence] fails and the token request is the only request
    made.  If the token request succeeds, the client holds the token
    afterwards, whatever becomes of the submission, and the second
    request is the POST of the payload to the evidence URL with the
    header [Authorization: Bearer <token>].  A client that holds a
    token makes the submission only and keeps its token. *)
Theorem send_evidence_authenticates_first :
  forall (net : Transport) (payload : value) (self : EvidenceStoreClient),
    (truthy (_token self) = false ->
     token_refused (net (posted self) (token_request (config self)))
     = true ->
     exists e,
       send_evidence net payload self
       = (Raise e,
          client_after self (_token self) [token_request (config self)])
       /\ is_auth_error e = true
       /\ is_submission (token_request (config self)) = false)
    /\ (truthy (_token self) = false ->
        token_granted (net (posted self) (token_request (config self)))
        = None ->
        exists e,
          send_evidence net payload self
          = (Raise e,
             client_after self (_token self)
               [token_request (config self)]))
    /\ (forall token,
           truthy (_token self) = false ->
           token_granted (net (posted self) (token_request (config self)))
           = Some token ->
           exists outcome submission,
             send_evidence net payload self
             = (outcome,
                client_after self token
                  [token_request (config self); submission])
             /\ url submission = evidence_url (config self)
             /\ json_body submission = Some payload
             /\ headers submission
                = [("Authorization", "Bearer " ++ py_str token)])
    /\ (truthy (_token self) = true ->
        exists outcome submission,
          send_evidence net payload self
          = (outcome, client_after self (_token self) [submission])
          /\ url submission = evidence_url (config self)
          /\ json_body submission = Some payload
          /\ headers submission
             = [("Authorization", "Bearer " ++ py_str (_token self))]).
Proof.
  intros net payload self. split; [|split; [|split]].
  - intros Hnone Hrefused.
    destruct (get_token_refused net self Hnone Hrefused) as (e & Hget & He).
    exists e. repeat split; auto.
    now apply send_evidence_without_token.
  - intros Hnone Hgranted.
    destruct (get_token_not_granted net self Hnone Hgranted) as (e & Hget).
    exists e. now apply send_evidence_without_token.
  - intros token Hnone Hgranted.
    pose proof (get_token_granted net self token Hnone Hgranted) as Hget.
    destruct (send_evidence_with_token net payload token _ _ Hget)
      as (outcome & Hsend).
    exists outcome, (evidence_request (config self) payload token).
    rewrite Hsend. unfold client_after; cbn. rewrite <- app_assoc.
    repeat split.
  - intros Hcached.
    pose proof (get_token_cached net self Hcached) as Hget.
    destruct (send_evidence_with_token net payload _ _ _ Hget)
      as (outcome & Hsend).
    exists outcome, (evidence_request (config self) payload (_token self)).
    rewrite Hsend. repeat split.
Qed.

End ClientFacts.

Lemma send_evidence_authenticates_first_witness :
  (exists e,
      @send_evidence samples.builtins samples.net_401 (VDict [])
        (new_client samples.store)
      = (Raise e,
         spec.client_after (new_client samples.store) VNone
           [@token_request samples.store])
      /\ is_auth_error e = true
      /\ is_submission (token_request samples.store) = false)
  /\ (exists e,
         @send_evidence samples.builtins samples.net_login_page (VDict [])
           (new_client samples.store)
         = (Raise e,
            spec.client_after (new_client samples.store) VNone
              [@token_request samples.store]))
  /\ (exists outcome submission,
         @send_evidence samples.builtins samples.net_granting (VDict [])
           (new_client samples.store)
         = (outcome,
            spec.client_after (new_client samples.store) (VStr "tok-1")
              [token_request samples.store; submission])
         /\ url submission = evidence_url samples.store
         /\ json_body submission = Some (VDict [])
         /\ headers submission = [("Authorization", "Bearer tok-1")])
  /\ (exists outcome submission,
         @send_evidence samples.builtins samples.net_granting (VDict [])
           samples.authenticated
         = (outcome,
            spec.client_after samples.authenticated (VStr "tok-0")
              [submission])
         /\ url submission = evidence_url samples.store
         /\ json_body submission = Some (VDict [])
         /\ headers submission = [("Authorization", "Bearer tok-0")]).
Proof.
  split; [|split; [|split]].
  - apply (proj1 (@send_evidence_authenticates_first samples.builtins
                    samples.net_401 (VDict []) (new_client samples.store)));
      reflexivity.
  - apply (proj1 (proj2 (@send_evidence_authenticates_first
                           samples.builtins samples.net_login_page
                           (VDict []) (new_client samples.store))));
      reflexivity.
  - apply (proj1 (proj2 (proj2 (@send_evidence_authenticates_first
                                  samples.builtins samples.net_granting
                                  (VDict []) (new_client samples.store))))
             (VStr "tok-1")); reflexivity.
  - apply (proj2 (proj2 (proj2 (@send_evidence_authenticates_first
                                  samples.builtins samples.net_granting
                                  (VDict []) samples.authenticated))));
      reflexivity.
Defined.

(** A token endpoint that answers 200 with a body that has no access
    token because it is not a JSON object at all: [send_evidence]
    fails, and makes no submission, but the failure is the one of
    [response.json()] or of [payload.get], not an authentication
    error. *)
Lemma token_answer_without_object :
  @send_evidence samples.builtins samples.net_login_page
    (VDict [ ("id", VStr "x") ]) (new_client samples.store)
  = (Raise JSONDecodeError,
     {| config := samples.store; _token := VNone;
        posted := [token_request samples.store] |})
  /\ is_auth_error JSONDecodeError = false
  /\ @send_evidence samples.builtins samples.net_array
       (VDict [ ("id", VStr "x") ]) (new_client samples.store)
     = (Raise (AttributeError "list" "get"),
        {| config := samples.store; _token := VNone;
           posted := [token_request samples.store] |})
  /\ is_auth_error (AttributeError "list" "get") = false.
Proof. repeat split. Qed.

(** The scenario of the specification: no cached token, the token
    endpoint answers 401. *)
Example token_endpoint_401 :
  @send_evidence samples.builtins samples.net_401
    (VDict [ ("id", VStr "x") ]) (new_client samples.store)
  = (Raise (EvidenceStoreError "OAuth token request failed: 401 unauthorized"),
     {| config := samples.store; _token := VNone;
        posted := [token_request samples.store] |}).
Proof. vm_compute; reflexivity. Qed.

End properties.

(* ================================================================== *)
(** * Further properties of the code *)

Module extras.
Import loaders requirements prompts llm extractor evidence_store.
Import properties spec.

(** ** Induction on values *)

Lemma value_nested_ind (P : value -> Prop) :
  P VNone ->
  (forall b, P (VBool b)) ->
  (forall z, P (VInt z)) ->
  (forall m e, P (VFloat m e)) ->
  (forall s, P (VStr s)) ->
  (forall l, Forall P l -> P (VList l)) ->
  (forall d, Forall (fun kv => P (snd kv)) d -> P (VDict d)) ->
  forall v, P v.
Proof.
  intros HN HB HI HF HS HL HD.
  fix IH 1.
  intros [| b | z | m e | s | l | d];
    [exact HN | apply HB | apply HI | apply HF | apply HS | | ].
  - apply HL.
    exact ((fix go (l : list value) : Forall P l :=
              match l with
              | [] => Forall_nil P
              | x :: r => Forall_cons x (IH x) (go r)
              end) l).
  - apply HD.
    exact ((fix go (d : list (string * value))
              : Forall (fun kv => P (snd kv)) d :=
              match d with
              | [] => Forall_nil _
              | (k, x) :: r =>
                  Forall_cons (P := fun kv => P (snd kv)) (k, x) (IH x) (go r)
              end) d).
Qed.

(** ** Pruning *)

Lemma blank_is_pruned (v : value) :
  is_blank v = true -> fully_pruned v = true /\ emptied_member v = false.
Proof.
  destruct v as [| | | | |[|x l]|[|kv d]]; cbn; try discriminate; auto.
Qed.

Lemma strip_blank (v : value) :
  is_blank v = true -> _strip_none v = v.
Proof.
  destruct v as [| | | | |[|x l]|[|kv d]]; cbn; try discriminate; auto.
Qed.

(** X1. A value that is already fully pruned is left as it is. *)
Theorem strip_none_keeps_pruned_values :
  forall v, fully_pruned v = true -> _strip_none v = v.
Proof.
  induction v as [| | | | | l IH | d IH] using value_nested_ind;
    intros Hp; try reflexivity.
  - cbn [_strip_none]. f_equal. cbn [fully_pruned] in Hp.
    induction IH as [|x r Hx _ IHr]; [reflexivity|].
    cbn in Hp. apply andb_prop in Hp as [Hhead Hrest].
    apply andb_prop in Hhead as [Hnb Hfp].
    cbn [list_comprehension]. rewrite (Hx Hfp).
    apply negb_true_iff in Hnb. rewrite Hnb. f_equal. now apply IHr.
  - cbn [_strip_none]. f_equal. cbn [fully_pruned] in Hp.
    induction IH as [|[k x] r Hx _ IHr]; [reflexivity|].
    cbn in Hp. apply andb_prop in Hp as [Hhead Hrest].
    apply andb_prop in Hhead as [Hnb Hfp].
    cbn [dict_comprehension]. cbn [snd] in Hx. rewrite (Hx Hfp).
    apply negb_true_iff in Hnb. rewrite Hnb. f_equal. now apply IHr.
Qed.

(** X2. The pruned form of a value is fully pruned exactly when the
    value holds no emptied member: the one way [_strip_none] leaves an
    empty placeholder behind is a member of a mapping that becomes
    empty by its own pruning. *)
Theorem strip_none_prunes_fully_iff :
  forall v, fully_pruned (_strip_none v) = negb (emptied_member v).
Proof.
  induction v as [| | | | | l IH | d IH] using value_nested_ind;
    try reflexivity.
  - cbn [_strip_none fully_pruned emptied_member].
    induction IH as [|x r Hx _ IHr]; [reflexivity|].
    cbn [list_comprehension existsb]. rewrite negb_orb, <- IHr, <- Hx.
    destruct (is_blank (_strip_none x)) eqn:Hb.
    + now rewrite (proj1 (blank_is_pruned _ Hb)).
    + cbn [forallb]. now rewrite Hb.
  - cbn [_strip_none fully_pruned emptied_member].
    induction IH as [|[k x] r Hx _ IHr]; [reflexivity|].
    cbn [dict_comprehension existsb snd] in *.
    rewrite !negb_orb, <- IHr, <- Hx.
    destruct (is_blank x) eqn:Hb.
    + rewrite (strip_blank x Hb), (proj1 (blank_is_pruned _ Hb)).
      reflexivity.
    + cbn [forallb snd negb andb].
      destruct (is_blank (_strip_none x)); reflexivity.
Qed.

(** X3. The pruned form of a list is a list, and none of its elements
    is [None], [{}] or [[]]. *)
Theorem strip_none_list_has_no_blank :
  forall (l : list value),
    exists pruned,
      _strip_none (VList l) = VList pruned
      /\ Forall (fun x => is_blank x = false) pruned.
Proof.
  intros l. exists (list_comprehension _strip_none l).
  split; [reflexivity|].
  induction l as [|x r IH]; cbn [list_comprehension]; [constructor|].
  destruct (is_blank (_strip_none x)) eqn:Hb; [exact IH|].
  now constructor.
Qed.

Lemma strip_none_keeps_pruned_values_witness :
  _strip_none (VDict [ ("raw", VStr "ping"); ("tags", VList [VInt 1]) ])
  = VDict [ ("raw", VStr "ping"); ("tags", VList [VInt 1]) ].
Proof.
  apply strip_none_keeps_pruned_values. reflexivity.
Defined.

(** ** Payloads of items with plain fields *)

Lemma pruned_dict (d : dict) :
  Forall (fun kv => tidy (snd kv)) d ->
  fully_pruned (_strip_none (VDict d)) = true.
Proof.
  cbn [_strip_none fully_pruned].
  induction 1 as [|[k x] r Hx _ IH]; [reflexivity|].
  cbn [dict_comprehension snd] in *.
  destruct Hx as [Hb | [Hnb Hfp]].
  - now rewrite Hb.
  - destruct (is_blank x) eqn:Hbx.
    + exact IH.
    + cbn [forallb snd]. now rewrite Hnb, Hfp, IH.
Qed.

Lemma scalar_tidy (x : value) : scalar x = true -> tidy x.
Proof. unfold tidy. destruct x; cbn; try discriminate; auto. Qed.

Lemma scalar_py_or (a b : value) :
  scalar a = true -> scalar b = true -> scalar (py_or a b) = true.
Proof. unfold py_or. now destruct (truthy a). Qed.

Lemma py_or_not_blank (a b : value) :
  scalar a = true -> is_blank b = false -> is_blank (py_or a b) = false.
Proof.
  unfold py_or. destruct a; cbn; try discriminate; auto;
    intros _ Hb; match goal with
                 | |- context [if ?c then _ else _] => destruct c
                 end; auto.
Qed.

Lemma dict_set_Forall (T : value -> Prop) (d : dict) (k : string)
    (v : value) :
  Forall (fun kv => T (snd kv)) d -> T v ->
  Forall (fun kv => T (snd kv)) (dict_set d k v).
Proof.
  intros Hd Hv.
  induction Hd as [|[k' v'] r Hx Hr IH]; cbn [dict_set].
  - constructor; [exact Hv|constructor].
  - destruct (String.eqb k k').
    + constructor; [exact Hv|exact Hr].
    + constructor; [exact Hx|exact IH].
Qed.

Lemma dict_display_Forall (T : value -> Prop)
    (entries : list (string * value)) :
  Forall (fun kv => T (snd kv)) entries ->
  Forall (fun kv => T (snd kv)) (dict_display entries).
Proof.
  intros He. unfold dict_display.
  assert (Hfold : forall acc,
             Forall (fun kv : string * value => T (snd kv)) acc ->
             Forall (fun kv : string * value => T (snd kv))
               (fold_left (fun d kv => dict_set d (fst kv) (snd kv))
                  entries acc)).
  { induction He as [|[k v] r Hx _ IH]; intros acc Hacc; cbn [fold_left].
    - exact Hacc.
    - apply IH. now apply dict_set_Forall. }
  apply Hfold. constructor.
Qed.

Lemma dict_with_member_survives (d : dict) (k : string) (v : value) :
  lookup d k = Some v -> is_blank v = false ->
  is_blank (_strip_none (VDict d)) = false.
Proof.
  intros Hk Hv. pose proof (lookup_comprehension d k v Hk Hv) as H.
  cbn [_strip_none]. now destruct (dict_comprehension _strip_none d).
Qed.

Lemma singleton_tidy (k : string) (x : value) :
  is_blank x = false ->
  is_blank (_strip_none x) = false ->
  fully_pruned (_strip_none x) = true ->
  tidy (VDict [ (k, x) ]).
Proof.
  intros Hx Hkept Hpruned. right.
  cbn [_strip_none dict_comprehension]. rewrite Hx.
  split; [reflexivity|].
  cbn [fully_pruned forallb snd]. now rewrite Hkept, Hpruned.
Qed.

(** One goal for each member of a dictionary written out in full. *)
Ltac each_member :=
  repeat (apply Forall_cons; [cbn [snd]|]); try apply Forall_nil.

Section PlainItems.
Context {B : Builtins}.

Lemma raw_of_scalar (snippet citation : value) :
  scalar snippet = true -> is_blank snippet = false ->
  scalar (raw_of snippet citation) = true
  /\ is_blank (raw_of snippet citation) = false.
Proof.
  intros Hs Hb. unfold raw_of.
  destruct (truthy citation); [destruct (truthy snippet)|]; auto.
Qed.

Lemma evidence_body_pruned (config : EvidenceStoreConfig) (idx : nat)
    (doc : Document) (item body : value) :
  scalar_item item = true ->
  evidence_body config idx doc item = Ok body ->
  fully_pruned (_strip_none body) = true.
Proof.
  destruct item as [| | | | | |d]; try discriminate.
  unfold scalar_item. cbn [forallb]. rewrite !andb_true_iff.
  intros (Hrf & Hful & Hsn & Hci & Hev & Hst & Hti & _).
  unfold evidence_body. rewrite !py_get_dict, !or_else_default.
  cbn [bind].
  destruct (as_key (py_or (dict_get d "responseField")
                      (VStr "requirementMet"))) as [key|e];
    [|discriminate].
  cbn [bind]. intros [= <-].
  set (snippet := py_or (dict_get d "snippet") _).
  set (citation := py_or (dict_get d "citation") (VStr EmptyString)).
  assert (Hsnippet : scalar snippet = true /\ is_blank snippet = false).
  { subst snippet. split.
    - repeat apply scalar_py_or; auto.
    - repeat (apply py_or_not_blank; auto). }
  destruct (raw_of_scalar snippet citation (proj1 Hsnippet) (proj2 Hsnippet))
    as [Hraw_scalar Hraw_kept].
  set (G := dict_display _).
  assert (HG : Forall (fun kv => tidy (snd kv)) G).
  { subst G. apply dict_display_Forall. each_member;
      try (right; split; reflexivity);
      apply scalar_tidy; auto using scalar_py_or. }
  assert (HGraw : lookup G "raw" = Some (raw_of snippet citation)).
  { subst G.
    match goal with
    | |- lookup (dict_display [?a; ?b; ?c; ?e; ?f; ?g; ?h]) _ = _ =>
        change (dict_display [a; b; c; e; f; g; h])
          with (dict_display ([a; b; c; e; f; g] ++ [h]))
    end.
    rewrite dict_display_snoc. apply lookup_dict_set_same. }
  pose proof (dict_with_member_survives G "raw" _ HGraw Hraw_kept) as HGkept.
  pose proof (pruned_dict G HG) as HGpruned.
  apply pruned_dict. each_member; try (right; split; reflexivity).
  - apply singleton_tidy; auto.
    destruct G; [discriminate|reflexivity].
  - now left.
Qed.

End PlainItems.

Lemma scalar_item_is_item (item : value) :
  scalar_item item = true -> evidence_item_like item = true.
Proof.
  destruct item as [| | | | | |d]; try discriminate.
  unfold scalar_item, evidence_item_like. cbn [forallb].
  intros H. apply andb_prop in H as [H _].
  now destruct (dict_get d "responseField").
Qed.

Lemma nth_error_same_length {A C} (l : list A) (l' : list C) (i : nat)
    (y : C) :
  List.length l' = List.length l -> nth_error l' i = Some y ->
  exists x, nth_error l i = Some x.
Proof.
  intros Hlen Hy. destruct (nth_error l i) as [x|] eqn:E; eauto.
  apply nth_error_None in E.
  assert (i < List.length l') by (apply nth_error_Some; congruence). lia.
Qed.

Section PlainPayloads.
Context {B : Builtins}.

(** X4. When no field of the evidence items holds a list or a
    mapping, every payload [build_evidence_payloads] returns is fully
    pruned. *)
Theorem plain_items_give_pruned_payloads :
  forall (r : AnalysisResult) (documents : list Document)
         (config : EvidenceStoreConfig) (d : dict) (items : list value),
    documents <> [] ->
    data r = VDict d ->
    dict_get d "evidence" = VList items ->
    Forall (fun item => scalar_item item = true) items ->
    exists payloads,
      build_evidence_payloads r documents config = Ok payloads
      /\ Forall (fun p => fully_pruned p = true) payloads.
Proof.
  intros r documents config d items Hne Hdata Hev Hplain.
  assert (Hall : Forall (fun item => evidence_item_like item = true) items).
  { eapply Forall_impl; [|exact Hplain]. apply scalar_item_is_item. }
  destruct (payloads_loop_spec config documents Hne items 0 [] Hall)
    as (new & Hloop & Hlen & Hith).
  exists new.
  rewrite (build_evidence_payloads_loop r documents config d items Hdata Hev).
  split; [exact Hloop|].
  apply Forall_forall. intros p Hp.
  apply In_nth_error in Hp as [i Hi].
  destruct (nth_error_same_length items new i p Hlen Hi) as [item Hitem].
  destruct (Hith i item Hitem) as (doc & body & _ & Hbody & Hnew).
  rewrite Hi in Hnew. injection Hnew as ->.
  apply (evidence_body_pruned config (0 + i) doc item body); auto.
  apply nth_error_In in Hitem.
  now apply (proj1 (Forall_forall _ _) Hplain).
Qed.

End PlainPayloads.

Lemma plain_items_give_pruned_payloads_witness :
  exists payloads,
    @build_evidence_payloads samples.builtins
      (samples.in_result samples.three_items)
      [samples.policy_txt; samples.report_pdf] samples.store = Ok payloads
    /\ Forall (fun p => fully_pruned p = true) payloads.
Proof.
  eapply (@plain_items_give_pruned_payloads samples.builtins
            (samples.in_result samples.three_items)
            [samples.policy_txt; samples.report_pdf] samples.store).
  - discriminate.
  - reflexivity.
  - reflexivity.
  - repeat constructor.
Defined.

(** ** From the reply to the wire *)

Lemma field_name_not_empty (r : requirement) :
  PyStr.is_empty (field_name_of r) = false.
Proof.
  unfold field_name_of. destruct (response_field_name r) as [[|c s]|];
    reflexivity.
Qed.

Section ReplyToWire.
Context {B : Builtins}.

Lemma evidence_item_shape (r : requirement) (raw : string) (item : value) :
  evidence_item r raw = Ok item ->
  exists d b n i t,
    parsed_of raw = VDict d
    /\ item
       = VDict
           [ ("title", VStr n);
             ("evidence",
              py_or (dict_get d "statement")
                (py_or (dict_get d "evidence") (VStr EmptyString)));
             ("snippet", py_or (dict_get d "snippet") (VStr EmptyString));
             ("citation", py_or (dict_get d "citation") (VStr EmptyString));
             ("fulfilled", VBool b);
             ("responseField", VStr (field_name_of r));
             ("confidence", py_or (dict_get d "confidence") (VStr "low"));
             ("requirementId", VStr i);
             ("resourceType", VStr (resource_type_str t)) ].
Proof.
  unfold evidence_item. fold (parsed_of raw).
  destruct (parsed_of raw) as [| | | | | |d];
    try (cbn; discriminate).
  rewrite verdict_on_object. cbn [bind].
  rewrite !py_get_dict, !or_else_default.
  destruct (requirements.name r) as [n|]; [|cbn; discriminate].
  destruct (id r) as [i|]; [|cbn; discriminate].
  destruct (resource_type r) as [t|]; [|cbn; discriminate].
  cbn [bind attr]. intros [= <-].
  exists d. do 4 eexists. split; reflexivity.
Qed.

(** X5. The verdict reaches the wire under the requirement's field
    name: for an item that [analyse_requirements] builds from a reply,
    the payload built from it holds the item's boolean [fulfilled]
    under [resource.genericDocument.<field name>], provided the field
    name is not [raw] (the key the snippet is stored under). *)
Theorem verdict_reaches_the_wire :
  forall (r : requirement) (raw : string) (item : value)
         (config : EvidenceStoreConfig) (idx : nat) (doc : Document),
    evidence_item r raw = Ok item ->
    field_name_of r <> "raw" ->
    exists body b,
      evidence_body config idx doc item = Ok body
      /\ lookup_path item ["fulfilled"] = Some (VBool b)
      /\ lookup_path (_strip_none body)
           ["resource"; "genericDocument"; field_name_of r]
         = Some (VBool b).
Proof.
  intros r raw item config idx doc Hitem Hfield.
  destruct (evidence_item_shape r raw item Hitem)
    as (d & b & n & i & t & _ & ->).
  unfold evidence_body. rewrite !py_get_dict, !or_else_default.
  unfold dict_get.
  cbn [lookup String.eqb Ascii.eqb Bool.eqb].
  unfold py_or at 1. cbn [truthy]. rewrite field_name_not_empty.
  cbn [negb bind as_key].
  eexists. exists b. split; [reflexivity|]. split; [reflexivity|].
  apply (lookup_path_strip _ _ (VBool b)); [|reflexivity].
  cbn [lookup_path lookup String.eqb Ascii.eqb Bool.eqb].
  match goal with
  | |- context [lookup (dict_display [?a; ?e; ?c; ?f; ?g; ?h; ?j]) _] =>
      change (dict_display [a; e; c; f; g; h; j])
        with (dict_display (([a; e; c; f; g] ++ [h]) ++ [j]))
  end.
  rewrite !dict_display_snoc.
  rewrite (lookup_dict_set_other _ _ _ _ Hfield), lookup_dict_set_same.
  reflexivity.
Qed.

End ReplyToWire.

Lemma verdict_reaches_the_wire_witness :
  exists body b,
    @evidence_body samples.builtins samples.store 0 samples.policy_txt
      samples.item_yes = Ok body
    /\ lookup_path samples.item_yes ["fulfilled"] = Some (VBool b)
    /\ lookup_path (_strip_none body)
         ["resource"; "genericDocument"; field_name_of samples.E83]
       = Some (VBool b).
Proof.
  apply (@verdict_reaches_the_wire samples.builtins samples.E83
           samples.reply_yes samples.item_yes samples.store 0
           samples.policy_txt).
  - reflexivity.
  - discriminate.
Defined.

(** ** The store client over a batch *)

Lemma client_after_after (self : EvidenceStoreClient) (t t' : value)
    (l l' : list request) :
  client_after (client_after self t l) t' l' = client_after self t' (l ++ l').
Proof. unfold client_after; cbn. now rewrite app_assoc. Qed.

Section BatchFacts.
Context {B : Builtins}.

Lemma get_token_effect (net : Transport) (self : EvidenceStoreClient) :
  truthy (_token self) = false ->
  (exists e,
      _get_token net self
      = (Raise e,
         client_after self (_token self) [token_request (config self)]))
  \/ (exists token,
         truthy token = true
         /\ _get_token net self
            = (Ok token,
               client_after self token [token_request (config self)])).
Proof.
  intros Hnone.
  unfold _get_token, and_then, this, except_http, post. rewrite Hnone.
  destruct (net (posted self) (token_request (config self))) as [resp|e].
  - destruct (400 <=? status_code resp)%Z; [left; eexists; reflexivity|].
    unfold lift, response_json.
    destruct (json_loads (text resp)) as [payload|];
      [|left; eexists; reflexivity].
    destruct (py_get payload "access_token") as [token|e];
      [|left; eexists; reflexivity].
    destruct (truthy token) eqn:Htoken.
    + right. exists token. split; [exact Htoken|reflexivity].
    + left; eexists; reflexivity.
  - left. destruct e; eexists; reflexivity.
Qed.

(** What one call of [send_evidence] does to the client. *)
Lemma send_evidence_effect (net : Transport) (payload : value)
    (self : EvidenceStoreClient) :
  (truthy (_token self) = true
   /\ exists outcome,
        send_evidence net payload self
        = (outcome,
           client_after self (_token self)
             [evidence_request (config self) payload (_token self)]))
  \/ (truthy (_token self) = false
      /\ exists e,
           send_evidence net payload self
           = (Raise e,
              client_after self (_token self)
                [token_request (config self)]))
  \/ (truthy (_token self) = false
      /\ exists token outcome,
           truthy token = true
           /\ send_evidence net payload self
              = (outcome,
                 client_after self token
                   [token_request (config self);
                    evidence_request (config self) payload token])).
Proof.
  destruct (truthy (_token self)) eqn:Htoken.
  - left. split; [reflexivity|].
    pose proof (get_token_cached net self Htoken) as Hget.
    destruct (send_evidence_with_token net payload _ _ _ Hget)
      as (outcome & Hsend).
    exists outcome. exact Hsend.
  - right. destruct (get_token_effect net self Htoken)
      as [(e & Hget) | (token & Htruthy & Hget)].
    + left. split; [reflexivity|]. exists e.
      now apply send_evidence_without_token.
    + right. split; [reflexivity|].
      destruct (send_evidence_with_token net payload _ _ _ Hget)
        as (outcome & Hsend).
      exists token, outcome. split; [exact Htruthy|].
      rewrite Hsend. cbn [client_after _token config].
      unfold client_after; cbn. now rewrite <- app_assoc.
Qed.

Lemma batch_with_token (net : Transport) :
  forall (payloads results : list value) (self : EvidenceStoreClient),
    truthy (_token self) = true ->
    exists outcome k,
      k <= List.length payloads
      /\ send_batch_loop net payloads results self
         = (outcome,
            client_after self (_token self)
              (submissions (config self) (_token self) k payloads))
      /\ (forall out,
             outcome = Ok out ->
             k = List.length payloads
             /\ exists new,
                  out = (results ++ new)%list
                  /\ List.length new = List.length payloads).
Proof.
  induction payloads as [|p rest IH]; intros results self Htoken.
  - exists (Ok results), 0. cbn. rewrite client_after_nil.
    split; [lia|]. split; [reflexivity|].
    intros out [= <-]. split; [reflexivity|].
    exists []. now rewrite app_nil_r.
  - cbn [send_batch_loop]. unfold and_then at 1.
    destruct (send_evidence_effect net p self)
      as [(_ & outcome & Hsend) | [(Hf & _) | (Hf & _)]];
      try congruence.
    rewrite Hsend. destruct outcome as [v|e].
    + set (self1 := client_after self (_token self) _).
      destruct (IH (results ++ [v])%list self1 Htoken)
        as (outcome & k & Hk & Hloop & Hok).
      exists outcome, (S k). split; [cbn; lia|]. split.
      * rewrite Hloop. subst self1.
        rewrite client_after_after. reflexivity.
      * intros out Hout.
        destruct (Hok out Hout) as (Hk' & new & Hnew & Hlen). subst.
        split; [reflexivity|]. exists (v :: new).
        rewrite <- app_assoc. cbn. split; congruence.
    + exists (Raise e), 1. split; [cbn; lia|]. split; [reflexivity|].
      discriminate.
Qed.

(** What [send_batch] does to the client: at most one token request,
    made first, then the submissions of a prefix of the payloads, in
    order and with one token; on success the prefix is the whole
    batch and there is one result for each payload. *)
Lemma send_batch_effect (net : Transport) (payloads : list value)
    (self : EvidenceStoreClient) :
  exists outcome token token_requests k,
    send_batch net payloads self
    = (outcome,
       client_after self token
         (token_requests ++ submissions (config self) token k payloads))
    /\ k <= List.length payloads
    /\ (if truthy (_token self)
        then token = _token self /\ token_requests = []
        else
          (token = _token self \/ truthy token = true)
          /\ token_requests
             = match payloads with
               | [] => []
               | _ :: _ => [token_request (config self)]
               end)
    /\ (forall results,
           outcome = Ok results ->
           k = List.length payloads
           /\ List.length results = List.length payloads
           /\ (payloads <> [] -> truthy token = true)).
Proof.
  unfold send_batch.
  destruct (truthy (_token self)) eqn:Htoken.
  - destruct (batch_with_token net payloads [] self Htoken)
      as (outcome & k & Hk & Hloop & Hok).
    exists outcome, (_token self), [], k. cbn [app].
    split; [exact Hloop|]. split; [exact Hk|]. split; [now split|].
    intros results Hres.
    destruct (Hok results Hres) as (Hk' & new & Hnew & Hlen).
    split; [exact Hk'|]. subst results. split; [exact Hlen|]. auto.
  - destruct payloads as [|p rest].
    + exists (Ok []), (_token self), [], 0. cbn.
      rewrite client_after_nil.
      split; [reflexivity|]. split; [lia|].
      split; [split; [now left|reflexivity]|].
      intros results [= <-]. repeat split. congruence.
    + cbn [send_batch_loop]. unfold and_then at 1.
      destruct (send_evidence_effect net p self)
        as [(Ht & _) | [(_ & e & Hsend)
                       | (_ & token & outcome & Htruthy & Hsend)]];
        try congruence.
      * exists (Raise e), (_token self), [token_request (config self)], 0.
        rewrite Hsend. cbn [app firstn submissions map].
        split; [reflexivity|]. split; [lia|].
        split; [split; [now left|reflexivity]|]. discriminate.
      * rewrite Hsend. destruct outcome as [v|e].
        -- set (self1 := client_after self token _).
           destruct (batch_with_token net rest ([] ++ [v])%list self1 Htruthy)
             as (outcome & k & Hk & Hloop & Hok).
           exists outcome, token, [token_request (config self)], (S k).
           rewrite Hloop. subst self1. rewrite client_after_after.
           split; [reflexivity|]. split; [cbn; lia|].
           split; [split; [now right|reflexivity]|].
           intros results Hres.
           destruct (Hok results Hres) as (Hk' & new & Hnew & Hlen).
           split; [cbn; congruence|]. subst results.
           split; [cbn; congruence|]. auto.
        -- exists (Raise e), token, [token_request (config self)], 1.
           split; [reflexivity|]. split; [cbn; lia|].
           split; [split; [now right|reflexivity]|]. discriminate.
Qed.

(** X6. [send_batch] asks for a token at most once and only before
    the first submission (never when the client holds one), then
    submits the payloads in order, without gaps, under one token; when
    it returns, every payload was submitted and has one result. *)
Theorem send_batch_submits_in_order :
  forall (net : Transport) (payloads : list value)
         (self : EvidenceStoreClient),
    exists outcome self' token_requests k,
      send_batch net payloads self = (outcome, self')
      /\ posted self'
         = (posted self ++ token_requests
            ++ submissions (config self) (_token self') k payloads)%list
      /\ k <= List.length payloads
      /\ (token_requests = []
          \/ (token_requests = [token_request (config self)]
              /\ truthy (_token self) = false))
      /\ (forall results,
             outcome = Ok results ->
             k = List.length payloads
             /\ List.length results = List.length payloads).
Proof.
  intros net payloads self.
  destruct (send_batch_effect net payloads self)
    as (outcome & token & token_requests & k & Hsend & Hk & Htok & Hok).
  exists outcome, (client_after self token
                     (token_requests
                      ++ submissions (config self) token k payloads)),
    token_requests, k.
  split; [exact Hsend|]. split; [reflexivity|]. split; [exact Hk|].
  split.
  - destruct (truthy (_token self)).
    + left. apply Htok.
    + destruct Htok as [_ ->]. destruct payloads; auto.
  - intros results Hres. destruct (Hok results Hres) as (H1 & H2 & _).
    now split.
Qed.

(** X7. A batch never changes the client's configuration, never
    replaces or clears a token the client holds, and leaves a client
    that had none either without one or with a usable one. *)
Theorem send_batch_keeps_the_client :
  forall (net : Transport) (payloads : list value)
         (self : EvidenceStoreClient),
    exists outcome self',
      send_batch net payloads self = (outcome, self')
      /\ config self' = config self
      /\ (truthy (_token self) = true -> _token self' = _token self)
      /\ (_token self' = _token self \/ truthy (_token self') = true).
Proof.
  intros net payloads self.
  destruct (send_batch_effect net payloads self)
    as (outcome & token & token_requests & k & Hsend & Hk & Htok & Hok).
  exists outcome, (client_after self token
                     (token_requests
                      ++ submissions (config self) token k payloads)).
  split; [exact Hsend|]. split; [reflexivity|]. cbn [client_after _token].
  destruct (truthy (_token self)).
  - destruct Htok as [-> _]. split; auto.
  - destruct Htok as [Ht _]. split; [discriminate|exact Ht].
Qed.

(** X8. With a token in hand, [send_evidence] makes the submission
    and nothing else; a 204 gives the empty result whatever the body,
    and a status of 400 or more, like a transport failure, gives an
    [EvidenceStoreError] that is not an authentication error. *)
Theorem submission_outcomes :
  forall (net : Transport) (payload : value) (self : EvidenceStoreClient),
    truthy (_token self) = true ->
    exists outcome,
      send_evidence net payload self
      = (outcome,
         client_after self (_token self)
           [evidence_request (config self) payload (_token self)])
      /\ (forall resp,
             net (posted self)
               (evidence_request (config self) payload (_token self))
             = Ok resp ->
             (status_code resp = 204%Z -> outcome = Ok (VDict []))
             /\ ((400 <= status_code resp)%Z ->
                 exists msg,
                   outcome = Raise (EvidenceStoreError msg)
                   /\ is_auth_error (EvidenceStoreError msg) = false))
      /\ (forall exc,
             net (posted self)
               (evidence_request (config self) payload (_token self))
             = Raise (HTTPError exc) ->
             exists msg,
               outcome = Raise (EvidenceStoreError msg)
               /\ is_auth_error (EvidenceStoreError msg) = false).
Proof.
  intros net payload self Htoken.
  unfold send_evidence. unfold and_then at 1.
  rewrite (get_token_cached net self Htoken).
  unfold and_then, ret, this, except_http, post, raise, lift.
  fold (client_after self (_token self)
          [evidence_request (config self) payload (_token self)]).
  destruct (net (posted self)
              (evidence_request (config self) payload (_token self)))
    as [resp|e].
  - cbn [fst snd].
    destruct (400 <=? status_code resp)%Z eqn:H400.
    + eexists. split; [reflexivity|]. split.
      * intros resp' [= <-]. split.
        -- intros H204. rewrite H204 in H400. discriminate.
        -- intros _. eexists. split; reflexivity.
      * discriminate.
    + destruct (status_code resp =? 204)%Z eqn:H204.
      * eexists. split; [reflexivity|]. split; [|discriminate].
        intros resp' [= <-]. split; [reflexivity|].
        intros Hge. apply Z.leb_gt in H400. lia.
      * eexists. split; [reflexivity|]. split; [|discriminate].
        intros resp' [= <-]. split.
        -- intros Heq. rewrite Heq in H204. discriminate.
        -- intros Hge. apply Z.leb_gt in H400. lia.
  - destruct e; eexists; (split; [reflexivity|]);
      (split; [discriminate|]); intros exc [= <-].
    eexists. split; reflexivity.
Qed.

End BatchFacts.

Lemma submission_outcomes_witness :
  exists outcome,
    @send_evidence samples.builtins samples.net_granting (VDict [])
      samples.authenticated
    = (outcome,
       client_after samples.authenticated (VStr "tok-0")
         [@evidence_request samples.builtins samples.store (VDict [])
            (VStr "tok-0")])
    /\ (forall resp,
           samples.net_granting []
             (@evidence_request samples.builtins samples.store (VDict [])
                (VStr "tok-0"))
           = Ok resp ->
           (status_code resp = 204%Z -> outcome = Ok (VDict []))
           /\ ((400 <= status_code resp)%Z ->
               exists msg,
                 outcome = Raise (EvidenceStoreError msg)
                 /\ is_auth_error (EvidenceStoreError msg) = false))
    /\ (forall exc,
           samples.net_granting []
             (@evidence_request samples.builtins samples.store (VDict [])
                (VStr "tok-0"))
           = Raise (HTTPError exc) ->
           exists msg,
             outcome = Raise (EvidenceStoreError msg)
             /\ is_auth_error (EvidenceStoreError msg) = false).
Proof.
  apply (@submission_outcomes samples.builtins samples.net_granting
           (VDict []) samples.authenticated).
  reflexivity.
Defined.

(** ** The pipeline *)

Import pipeline.

Lemma load_any_document_path (fs : FileSystem) (target : Path)
    (encoding : string) (doc : Document) :
  load_any_document fs target encoding = Done doc -> path doc = target.
Proof.
  unfold load_any_document, load_pdf_document, load_text_document.
  destruct (String.eqb _ ".pdf"); destruct (negb (file_exists fs target));
    try discriminate.
  - destruct (pdf_pages fs target); cbn; [|discriminate].
    now intros [= <-].
  - destruct (read_text fs target encoding) as [text|[]]; cbn;
      try discriminate; try (now intros [= <-]).
    destruct (read_text_ignore fs target encoding); cbn; [|discriminate].
    now intros [= <-].
Qed.

Lemma load_loop_paths (fs : FileSystem) (encoding : string) :
  forall (paths : list Path) (acc docs : list Document),
    load_loop fs encoding paths acc = Done docs ->
    map path docs = (map path acc ++ paths)%list.
Proof.
  induction paths as [|p rest IH]; intros acc docs; cbn [load_loop].
  - intros [= <-]. now rewrite app_nil_r.
  - destruct (load_any_document fs p encoding) as [doc|e] eqn:Hdoc;
      cbn [and_so]; [|discriminate].
    intros Hloop. rewrite (IH _ _ Hloop), map_app. cbn [map].
    rewrite (load_any_document_path fs p encoding doc Hdoc).
    now rewrite <- app_assoc.
Qed.

(** X9. [DocumentLoader.load] returns one document for each path, in
    the order of the paths, each carrying the path it was loaded
    from. *)
Theorem load_keeps_the_paths :
  forall (fs : FileSystem) (encoding : string) (paths : list Path)
         (docs : list Document),
    load fs encoding paths = Done docs -> map path docs = paths.
Proof.
  intros fs encoding paths docs Hload.
  apply (load_loop_paths fs encoding paths [] docs Hload).
Qed.

Lemma load_loop_missing (fs : FileSystem) (encoding : string)
    (p : Path) (after : list Path) :
  file_exists fs p = false ->
  forall (before : list Path) (acc : list Document),
    Forall (fun q => file_exists fs q = true) before ->
    exists failure_,
      load_loop fs encoding (before ++ p :: after) acc = Failed failure_
      /\ (failure_ = FileNotFoundError ("Document not found: " ++ path_str p)
          \/ exists q, In q before
                       /\ load_any_document fs q encoding = Failed failure_).
Proof.
  intros Hmissing. induction before as [|q rest IH]; intros acc Hall.
  - cbn [app load_loop].
    unfold load_any_document, load_pdf_document, load_text_document.
    rewrite Hmissing. cbn [negb].
    destruct (String.eqb _ ".pdf"); cbn [and_so]; eauto.
  - inversion Hall as [|? ? Hq Hrest]; subst.
    cbn [app load_loop].
    destruct (load_any_document fs q encoding) as [doc|e] eqn:Hdoc;
      cbn [and_so].
    + destruct (IH (acc ++ [doc])%list Hrest) as (f & Hloop & Hf).
      exists f. split; [exact Hloop|].
      destruct Hf as [Hf | (q' & Hin & Hq')]; [now left|].
      right. exists q'. split; [now right|exact Hq'].
    + exists e. split; [reflexivity|]. right. exists q.
      split; [now left|exact Hdoc].
Qed.

(** X10. A path that does not exist makes [DocumentLoader.load] fail:
    with [FileNotFoundError] naming that path, unless a file before it
    already failed to load; no document list is returned. *)
Theorem load_fails_on_a_missing_file :
  forall (fs : FileSystem) (encoding : string) (before : list Path)
         (p : Path) (after : list Path),
    file_exists fs p = false ->
    Forall (fun q => file_exists fs q = true) before ->
    exists failure_,
      load fs encoding (before ++ p :: after) = Failed failure_
      /\ (failure_ = FileNotFoundError ("Document not found: " ++ path_str p)
          \/ exists q, In q before
                       /\ load_any_document fs q encoding = Failed failure_).
Proof.
  intros fs encoding before p after Hmissing Hbefore.
  apply (load_loop_missing fs encoding p after Hmissing before [] Hbefore).
Qed.

Section PipelineFacts.
Context {B : Builtins}.

Lemma requirements_loop_counts (llm : LLMClient)
    (merged_text source_name : string) :
  forall (rs : list requirement) (n : nat) (acc out : list value),
    requirements_loop llm merged_text source_name n rs acc = Ok out ->
    List.length out = List.length acc + List.length rs.
Proof.
  induction rs as [|r rest IH]; intros n acc out; cbn [requirements_loop].
  - intros [= <-]. cbn. lia.
  - destruct (build_requirement_messages merged_text r (Some source_name))
      as [messages|e]; cbn [bind]; [|discriminate].
    destruct (llm n messages (Some "json")) as [raw|e]; cbn [bind];
      [|discriminate].
    destruct (evidence_item r raw) as [item|e]; cbn [bind]; [|discriminate].
    intros Hloop. rewrite (IH _ _ _ Hloop), length_app. cbn. lia.
Qed.

Lemma payloads_loop_counts (config : EvidenceStoreConfig)
    (documents : list Document) :
  forall (items : list value) (idx : nat) (acc out : list value),
    payloads_loop config documents idx items acc = Ok out ->
    List.length out = List.length acc + List.length items.
Proof.
  induction items as [|item rest IH]; intros idx acc out;
    cbn [payloads_loop].
  - intros [= <-]. cbn. lia.
  - destruct (document_at documents idx) as [doc|e]; cbn [bind];
      [|discriminate].
    destruct (evidence_body config idx doc item) as [body|e]; cbn [bind];
      [|discriminate].
    intros Hloop. rewrite (IH _ _ _ Hloop), length_app. cbn. lia.
Qed.

(** What [extract] returns in requirement mode. *)
Lemma extract_requirement_mode (llm : LLMClient)
    (documents : list Document) (focus : option string) (max_items : Z)
    (r : requirement) (rs : list requirement) (res : AnalysisResult) :
  extract llm documents focus max_items (Some (r :: rs)) = Ok res ->
  exists items,
    analyse_requirements llm documents (r :: rs) = Ok items
    /\ List.length items = S (List.length rs)
    /\ res
       = {| data :=
              VDict [ ("document_summary", VStr EmptyString);
                      ("evidence", VList items);
                      ("gaps", VList []) ];
            raw_response := EmptyString;
            sources := map (fun doc => path_str (path doc)) documents |}.
Proof.
  unfold extract.
  destruct (analyse_requirements llm documents (r :: rs)) as [items|e]
    eqn:Hitems; cbn [bind]; [|discriminate].
  intros [= <-]. exists items. split; [reflexivity|]. split; [|reflexivity].
  unfold analyse_requirements in Hitems.
  destruct documents; [discriminate|].
  now rewrite (requirements_loop_counts _ _ _ _ _ _ _ Hitems).
Qed.

(** What [push] has done when it returns a count. *)
Lemma push_returns (net : Transport) (config : EvidenceStoreConfig)
    (res : AnalysisResult) (documents : list Document) (n : nat)
    (requests : list request) :
  push net config res documents = (Ok n, requests) ->
  exists payloads,
    build_evidence_payloads res documents config = Ok payloads
    /\ n = List.length payloads
    /\ ((payloads = [] /\ requests = [])
        \/ (payloads <> []
            /\ exists token,
                 truthy token = true
                 /\ requests
                    = token_request config
                      :: submissions config token n payloads)).
Proof.
  unfold push.
  destruct (build_evidence_payloads res documents config)
    as [[|p rest]|e]; try discriminate.
  - intros [= <- <-]. exists []. repeat split. now left.
  - destruct (send_batch_effect net (p :: rest) (new_client config))
      as (outcome & token & treqs & k & Hsend & Hk & Htok & Hok).
    rewrite Hsend. destruct outcome as [results|e]; [|discriminate].
    intros [= <- <-]. exists (p :: rest). repeat split.
    right. split; [discriminate|].
    destruct (Hok results eq_refl) as (-> & _ & Htruthy).
    cbn [new_client _token truthy evidence_store.config] in Htok.
    destruct Htok as [_ ->].
    exists token. split; [apply Htruthy; discriminate|].
    reflexivity.
Qed.

(** X11. When [EvidencePublisher.push] returns a count, that count is
    the number of payloads built from the result, and the requests it
    made are one token request followed by the submission of every
    payload, in order; with no payload it makes no request. *)
Theorem push_counts_what_it_sends :
  forall (net : Transport) (config : EvidenceStoreConfig)
         (res : AnalysisResult) (documents : list Document) (n : nat)
         (requests : list request),
    push net config res documents = (Ok n, requests) ->
    exists payloads,
      build_evidence_payloads res documents config = Ok payloads
      /\ n = List.length payloads
      /\ ((payloads = [] /\ requests = [])
          \/ (payloads <> []
              /\ exists token,
                   truthy token = true
                   /\ requests
                      = token_request config
                        :: submissions config token n payloads)).
Proof.
  intros net config res documents n requests Hpush.
  destruct (push_returns net config res documents n requests Hpush)
    as (payloads & H). exists payloads. exact H.
Qed.

(** X12. A result whose evidence is missing, empty or not a list is
    pushed without opening a client: [push] returns 0 and makes no
    request, whatever the documents. *)
Theorem push_without_evidence_is_silent :
  forall (net : Transport) (config : EvidenceStoreConfig)
         (res : AnalysisResult) (documents : list Document) (d : dict),
    data res = VDict d ->
    (forall x l, dict_get d "evidence" <> VList (x :: l)) ->
    push net config res documents = (Ok 0, []).
Proof.
  intros net config res documents d Hdata Hnone.
  unfold push, build_evidence_payloads.
  rewrite Hdata, py_get_dict, or_else_ok.
  destruct (dict_get d "evidence") as [| [|] | z | m e | s | [|x l] | d'] eqn:Hev.
  - reflexivity.
  - reflexivity.
  - reflexivity.
  - cbn [truthy]. destruct (negb (z =? 0)%Z); reflexivity.
  - cbn [truthy]. destruct (negb (m =? 0)%Z); reflexivity.
  - cbn [truthy]. destruct (negb (PyStr.is_empty s)); reflexivity.
  - reflexivity.
  - now destruct (Hnone x l).
  - destruct d'; reflexivity.
Qed.

(** The result of a run in requirement mode. *)
Lemma run_result_shape (fs : FileSystem) (encoding : string)
    (llm : LLMClient) (publisher : option EvidenceStoreConfig)
    (net : Transport) (paths : list Path) (focus : option string)
    (max_items : Z) (r : requirement) (rs : list requirement)
    (push_ : bool) (res : AnalysisResult) (pushed : nat)
    (requests : list request) :
  run fs encoding llm publisher net paths focus max_items
    (Some (r :: rs)) push_
  = (Done (res, pushed), requests) ->
  exists documents items,
    load fs encoding paths = Done documents
    /\ extract llm documents focus max_items (Some (r :: rs)) = Ok res
    /\ sources res = map path_str paths
    /\ raw_response res = EmptyString
    /\ data res
       = VDict [ ("document_summary", VStr EmptyString);
                 ("evidence", VList items);
                 ("gaps", VList []) ]
    /\ List.length items = S (List.length rs).
Proof.
  unfold run.
  destruct (load fs encoding paths) as [documents|e] eqn:Hload;
    [|discriminate].
  destruct (extract llm documents focus max_items (Some (r :: rs)))
    as [res'|e] eqn:Hextract; [|discriminate].
  destruct (extract_requirement_mode _ _ _ _ _ _ _ Hextract)
    as (items & _ & Hlen & Hres).
  intros Hrun.
  assert (Hsame : res = res').
  { destruct push_, publisher as [config|];
      try (now injection Hrun as <- _ _).
    destruct (push net config res' documents) as [[n|e] reqs];
      [|discriminate].
    now injection Hrun as <- _ _. }
  rewrite <- Hsame in Hextract, Hres. clear Hrun Hsame res'.
  exists documents, items.
  split; [reflexivity|]. split; [exact Hextract|].
  rewrite Hres. cbn [sources raw_response data].
  split; [|now repeat split].
  pose proof (load_loop_paths fs encoding paths [] documents Hload)
    as Hpaths.
  cbn [map app] in Hpaths. now rewrite <- Hpaths, map_map.
Qed.

(** X13. When [DocumentAnalysisPipeline.run] returns in requirement
    mode, the result lists the given paths in order as its sources,
    has an empty raw response and one evidence item per requirement;
    with [push] set and a publisher configured the published count is
    the number of requirements, and otherwise it is 0 and no request
    was made. *)
Theorem run_in_requirement_mode :
  forall (fs : FileSystem) (encoding : string) (llm : LLMClient)
         (publisher : option EvidenceStoreConfig) (net : Transport)
         (paths : list Path) (focus : option string) (max_items : Z)
         (r : requirement) (rs : list requirement) (push_ : bool)
         (res : AnalysisResult) (pushed : nat) (requests : list request),
    run fs encoding llm publisher net paths focus max_items
      (Some (r :: rs)) push_
    = (Done (res, pushed), requests) ->
    sources res = map path_str paths
    /\ raw_response res = EmptyString
    /\ (exists items,
           lookup_path (data res) ["evidence"] = Some (VList items)
           /\ List.length items = S (List.length rs))
    /\ match push_, publisher with
       | true, Some _ => pushed = S (List.length rs)
       | _, _ => pushed = 0 /\ requests = []
       end.
Proof.
  intros fs encoding llm publisher net paths focus max_items r rs push_
         res pushed requests Hrun.
  destruct (run_result_shape _ _ _ _ _ _ _ _ _ _ _ _ _ _ Hrun)
    as (documents & items & Hload & Hextract & Hsources & Hraw & Hdata
        & Hlen).
  split; [exact Hsources|]. split; [exact Hraw|]. split.
  { exists items. rewrite Hdata. split; [reflexivity|exact Hlen]. }
  unfold run in Hrun. rewrite Hload, Hextract in Hrun.
  destruct push_, publisher as [config|];
    try (inversion Hrun; now split).
  destruct (push net config res documents) as [[n|e] reqs] eqn:Hpush;
    [|discriminate].
  assert (Hn : n = pushed) by now inversion Hrun.
  subst n.
  destruct (push_returns net config res documents pushed reqs Hpush)
    as (payloads & Hbuild & -> & _).
  erewrite (build_evidence_payloads_loop _ documents config _ items)
    in Hbuild; [|exact Hdata|reflexivity].
  rewrite (payloads_loop_counts _ _ _ _ _ _ Hbuild). cbn. exact Hlen.
Qed.

End PipelineFacts.

Section Composition.
Context {B : Builtins}.

Lemma evidence_item_is_item (r : requirement) (raw : string) (item : value) :
  evidence_item r raw = Ok item -> evidence_item_like item = true.
Proof.
  intros Hitem.
  destruct (evidence_item_shape r raw item Hitem)
    as (d & b & n & i & t & _ & ->).
  reflexivity.
Qed.

(** X14. Whatever [extract] returns in requirement mode has the
    shape [build_evidence_payloads] reads: the documents are not
    empty, so that [documents[idx % len(documents)]] is defined at
    every index, and the evidence list holds one mapping for each
    requirement, whose [responseField] can be the key of the
    verdict. *)
Theorem extracted_result_fits_the_payload_builder :
  forall (llm : LLMClient) (documents : list Document)
         (focus : option string) (max_items : Z) (r : requirement)
         (rs : list requirement) (res : AnalysisResult),
    extract llm documents focus max_items (Some (r :: rs)) = Ok res ->
    documents <> []
    /\ exists d items,
         data res = VDict d
         /\ dict_get d "evidence" = VList items
         /\ List.length items = S (List.length rs)
         /\ Forall (fun item => evidence_item_like item = true) items
         /\ forall idx item,
              nth_error items idx = Some item ->
              (exists doc,
                  document_at documents idx = Ok doc
                  /\ nth_error documents (idx mod List.length documents)
                     = Some doc)
              /\ exists key, verdict_key item = Some key.
Proof.
  intros llm documents focus max_items r rs res Hextract.
  destruct (extract_requirement_mode _ _ _ _ _ _ _ Hextract)
    as (items & Hitems & Hlen & ->).
  unfold analyse_requirements in Hitems.
  destruct documents as [|doc docs]; [discriminate|].
  split; [discriminate|].
  destruct (requirements_loop_boolean llm _ _ (r :: rs) 0 [] items Hitems)
    as (new & Hnew & Hall).
  cbn [app] in Hnew. subst new.
  assert (Hlike : Forall (fun item => evidence_item_like item = true) items).
  { eapply Forall_impl; [|exact Hall].
    intros item (r0 & raw & b & _ & Hitem & _).
    exact (evidence_item_is_item r0 raw item Hitem). }
  eexists. exists items.
  split; [reflexivity|]. split; [reflexivity|].
  split; [exact Hlen|]. split; [exact Hlike|].
  intros idx item Hidx. split.
  - destruct (document_at_some (doc :: docs) idx ltac:(discriminate))
      as (doc' & Hnth & Hdoc).
    exists doc'. now split.
  - apply nth_error_In in Hidx.
    apply (proj1 (Forall_forall _ _) Hlike) in Hidx.
    destruct item as [| | | | | |entries]; try discriminate.
    destruct (as_key_response_field entries Hidx) as (key & Hkey).
    exists key. unfold verdict_key. now rewrite Hkey.
Qed.

(** X15. The verdict of an item is symmetric in the two fields of the
    reply: [fulfilled] is true exactly when the configured field or
    the generic [fulfilled] field reads as true. *)
Theorem verdict_is_either_field :
  forall (r : requirement) (raw : string) (item : value),
    evidence_item r raw = Ok item ->
    exists d,
      parsed_of raw = VDict d
      /\ lookup_path item ["fulfilled"]
         = Some (VBool (reads_true (dict_get d (field_name_of r))
                        || reads_true (dict_get d "fulfilled"))).
Proof.
  intros r raw item Hitem.
  destruct (evidence_item_inv r raw item Hitem)
    as (d & b & Hparsed & Hverdict & Hful & _).
  exists d. split; [exact Hparsed|]. rewrite Hful. do 2 f_equal.
  rewrite verdict_on_object in Hverdict. injection Hverdict as <-.
  unfold reads_true.
  destruct (parse_bool_range (dict_get d (field_name_of r)))
    as [-> | [[|] ->]];
    destruct (parse_bool_range (dict_get d "fulfilled"))
      as [-> | [[|] ->]]; reflexivity.
Qed.

End Composition.

Lemma extracted_result_fits_the_payload_builder_witness :
  exists res d items,
    @extract samples.builtins (samples.always samples.reply_yes)
      [samples.policy_txt] None 8%Z (Some [samples.E83; samples.E79])
    = Ok res
    /\ data res = VDict d
    /\ dict_get d "evidence" = VList items
    /\ List.length items = 2
    /\ Forall (fun item => evidence_item_like item = true) items.
Proof.
  eexists.
  match goal with
  | |- exists d items, ?e = Ok ?res /\ _ =>
      assert (H : e = Ok res) by (vm_compute; reflexivity)
  end.
  destruct (@extracted_result_fits_the_payload_builder samples.builtins
              _ _ _ _ _ _ _ H)
    as (_ & d & items & Hdata & Hev & Hlen & Hlike & _).
  exists d, items. now repeat split.
Defined.

Lemma verdict_is_either_field_witness :
  exists d,
    @parsed_of samples.builtins samples.reply_false_then_true = VDict d
    /\ lookup_path
         (VDict
            [ ("title", VStr "Availability of essential functions");
              ("evidence", VStr EmptyString);
              ("snippet", VStr EmptyString);
              ("citation", VStr EmptyString);
              ("fulfilled", VBool true);
              ("responseField", VStr "businessContinuityPolicy");
              ("confidence", VStr "low");
              ("requirementId", VStr "E83");
              ("resourceType", VStr "genericDocument") ]) ["fulfilled"]
       = Some (VBool (reads_true (dict_get d (field_name_of samples.E83))
                      || reads_true (dict_get d "fulfilled"))).
Proof.
  apply (@verdict_is_either_field samples.builtins samples.E83
           samples.reply_false_then_true).
  reflexivity.
Defined.

Lemma load_keeps_the_paths_witness :
  map path [samples.policy_txt; samples.report_pdf]
  = [path samples.policy_txt; path samples.report_pdf].
Proof.
  apply (load_keeps_the_paths samples.disk "utf-8").
  vm_compute; reflexivity.
Defined.

Lemma load_fails_on_a_missing_file_witness :
  exists failure_,
    load samples.disk "utf-8"
      ([path samples.policy_txt] ++ samples.missing_txt
         :: [path samples.report_pdf])
    = Failed failure_
    /\ (failure_
        = FileNotFoundError
            ("Document not found: " ++ path_str samples.missing_txt)
        \/ exists q,
             In q [path samples.policy_txt]
             /\ load_any_document samples.disk q "utf-8" = Failed failure_).
Proof.
  apply (load_fails_on_a_missing_file samples.disk "utf-8"
           [path samples.policy_txt] samples.missing_txt
           [path samples.report_pdf]).
  - reflexivity.
  - repeat constructor.
Defined.

Lemma push_counts_what_it_sends_witness :
  exists payloads,
    @build_evidence_payloads samples.builtins
      (samples.in_result samples.three_items)
      [samples.policy_txt; samples.report_pdf] samples.store = Ok payloads
    /\ 3 = List.length payloads
    /\ ((payloads = []
         /\ snd (@push samples.builtins samples.net_granting samples.store
                   (samples.in_result samples.three_items)
                   [samples.policy_txt; samples.report_pdf]) = [])
        \/ (payloads <> []
            /\ exists token,
                 truthy token = true
                 /\ snd (@push samples.builtins samples.net_granting
                           samples.store
                           (samples.in_result samples.three_items)
                           [samples.policy_txt; samples.report_pdf])
                    = @token_request samples.store
                      :: @submissions samples.builtins samples.store token 3
                           payloads)).
Proof.
  apply (@push_counts_what_it_sends samples.builtins samples.net_granting
           samples.store (samples.in_result samples.three_items)
           [samples.policy_txt; samples.report_pdf] 3).
  vm_compute; reflexivity.
Defined.

Lemma push_without_evidence_is_silent_witness :
  @push samples.builtins samples.net_401 samples.store
    (samples.in_result []) [samples.policy_txt]
  = (Ok 0, []).
Proof.
  eapply (@push_without_evidence_is_silent samples.builtins).
  - reflexivity.
  - intros x l. cbn. discriminate.
Defined.

Lemma run_in_requirement_mode_witness :
  exists res pushed requests,
    @run samples.builtins samples.disk "utf-8"
      (samples.always samples.reply_yes) (Some samples.store)
      samples.net_granting
      [path samples.policy_txt; path samples.report_pdf] None 8%Z
      (Some [samples.E83; samples.E79]) true
    = (Done (res, pushed), requests)
    /\ sources res = ["docs/policy.txt"; "docs/report.pdf"]
    /\ pushed = 2.
Proof.
  do 3 eexists. split; [vm_compute; reflexivity|].
  match goal with
  | |- sources ?res = _ /\ ?pushed = _ =>
      destruct (@run_in_requirement_mode samples.builtins samples.disk
                  "utf-8" (samples.always samples.reply_yes)
                  (Some samples.store) samples.net_granting
                  [path samples.policy_txt; path samples.report_pdf]
                  None 8%Z samples.E83 [samples.E79] true res pushed _
                  ltac:(vm_compute; reflexivity))
        as (Hsources & _ & _ & Hpushed)
  end.
  split; [exact Hsources|exact Hpushed].
Defined.

(** ** Strings *)

Lemma lstrip_by_idem (p : ascii -> bool) (s : string) :
  PyStr.lstrip_by p (PyStr.lstrip_by p s) = PyStr.lstrip_by p s.
Proof.
  induction s as [|c r IH]; cbn; [reflexivity|].
  destruct (p c) eqn:Hc; [exact IH|]. cbn. now rewrite Hc.
Qed.

Lemma rstrip_by_cons (p : ascii -> bool) (c : ascii) (r : string) :
  PyStr.rstrip_by p (String c r)
  = match PyStr.rstrip_by p r with
    | EmptyString => if p c then EmptyString else String c EmptyString
    | String a x => String c (String a x)
    end.
Proof. reflexivity. Qed.

Lemma rstrip_by_idem (p : ascii -> bool) (s : string) :
  PyStr.rstrip_by p (PyStr.rstrip_by p s) = PyStr.rstrip_by p s.
Proof.
  induction s as [|c r IH]; [reflexivity|].
  rewrite rstrip_by_cons.
  destruct (PyStr.rstrip_by p r) as [|a r'] eqn:Hr.
  - destruct (p c) eqn:Hc; [reflexivity|].
    rewrite rstrip_by_cons. cbn [PyStr.rstrip_by]. now rewrite Hc.
  - rewrite rstrip_by_cons, IH. reflexivity.
Qed.

Lemma rstrip_by_head (p : ascii -> bool) (c : ascii) (r : string) :
  p c = false ->
  exists r', PyStr.rstrip_by p (String c r) = String c r'.
Proof.
  intros Hc. cbn. destruct (PyStr.rstrip_by p r); [rewrite Hc|]; eauto.
Qed.

Lemma strip_commutes (p : ascii -> bool) (s : string) :
  PyStr.lstrip_by p (PyStr.rstrip_by p s)
  = PyStr.rstrip_by p (PyStr.lstrip_by p s).
Proof.
  induction s as [|c r IH]; [reflexivity|].
  destruct (p c) eqn:Hc.
  - cbn [PyStr.lstrip_by]. rewrite Hc, <- IH.
    cbn [PyStr.rstrip_by].
    destruct (PyStr.rstrip_by p r) as [|a r'] eqn:Hr.
    + rewrite Hc. reflexivity.
    + cbn [PyStr.lstrip_by]. now rewrite Hc.
  - cbn [PyStr.lstrip_by]. rewrite Hc.
    destruct (rstrip_by_head p c r Hc) as [r' ->].
    cbn [PyStr.lstrip_by]. now rewrite Hc.
Qed.

Lemma strip_idem (s : string) : PyStr.strip (PyStr.strip s) = PyStr.strip s.
Proof.
  unfold PyStr.strip.
  rewrite (strip_commutes _ (PyStr.lstrip_by _ s)).
  now rewrite lstrip_by_idem, rstrip_by_idem.
Qed.

Lemma is_space_lower (c : ascii) :
  PyStr.is_space (PyStr.lower_char c) = PyStr.is_space c.
Proof.
  destruct c as [[] [] [] [] [] [] [] []]; vm_compute; reflexivity.
Qed.

Lemma lower_char_idem (c : ascii) :
  PyStr.lower_char (PyStr.lower_char c) = PyStr.lower_char c.
Proof.
  destruct c as [[] [] [] [] [] [] [] []]; vm_compute; reflexivity.
Qed.

Lemma lower_idem (s : string) : PyStr.lower (PyStr.lower s) = PyStr.lower s.
Proof.
  induction s as [|c r IH]; cbn; [reflexivity|].
  now rewrite lower_char_idem, IH.
Qed.

Lemma lstrip_lower (s : string) :
  PyStr.lstrip_by PyStr.is_space (PyStr.lower s)
  = PyStr.lower (PyStr.lstrip_by PyStr.is_space s).
Proof.
  induction s as [|c r IH]; [reflexivity|].
  cbn [PyStr.lower PyStr.lstrip_by]. rewrite is_space_lower.
  destruct (PyStr.is_space c); [exact IH|reflexivity].
Qed.

Lemma rstrip_lower (s : string) :
  PyStr.rstrip_by PyStr.is_space (PyStr.lower s)
  = PyStr.lower (PyStr.rstrip_by PyStr.is_space s).
Proof.
  induction s as [|c r IH]; [reflexivity|].
  cbn [PyStr.lower]. rewrite !rstrip_by_cons, IH, is_space_lower.
  destruct (PyStr.rstrip_by PyStr.is_space r) as [|a x]; cbn [PyStr.lower].
  - destruct (PyStr.is_space c); reflexivity.
  - reflexivity.
Qed.

Lemma strip_lower (s : string) :
  PyStr.strip (PyStr.lower s) = PyStr.lower (PyStr.strip s).
Proof. unfold PyStr.strip. now rewrite lstrip_lower, rstrip_lower. Qed.

(** X16. The verdict read from a string does not depend on its case
    nor on white space around it. *)
Theorem parse_bool_ignores_case_and_padding :
  forall s : string,
    _parse_bool (VStr (PyStr.lower s)) = _parse_bool (VStr s)
    /\ _parse_bool (VStr (PyStr.strip s)) = _parse_bool (VStr s).
Proof.
  intros s. unfold _parse_bool.
  now rewrite strip_lower, lower_idem, strip_idem.
Qed.

(** X17. The text [concatenate_documents] returns has no white space
    at either end: stripping it again changes nothing. *)
Theorem concatenated_text_is_stripped :
  forall documents : list Document,
    PyStr.strip (concatenate_documents documents)
    = concatenate_documents documents.
Proof. intros documents. unfold concatenate_documents. apply strip_idem. Qed.

(** ** The text of a PDF *)

Lemma blank_page_text (p : page) :
  blank_page p
  = PyStr.is_empty
      (PyStr.strip
         match p with
         | Extracted (Some t) => t
         | Extracted None => EmptyString
         | ExtractionFailed => EmptyString
         end).
Proof. destruct p as [[t|]|]; reflexivity. Qed.

Lemma pdf_page_texts_spec :
  forall (reader_pages : list page) (idx : nat) (pages : list string),
    exists new,
      pdf_page_texts idx reader_pages pages = (pages ++ new)%list
      /\ Forall (fun e => exists e', e = String "[" (String "P" e')) new
      /\ (forallb blank_page reader_pages = true -> new = [])
      /\ (forallb blank_page reader_pages = false -> new <> []).
Proof.
  induction reader_pages as [|p rest IH]; intros idx pages.
  - exists []. cbn. rewrite app_nil_r. repeat split; auto. discriminate.
  - cbn [pdf_page_texts forallb]. rewrite (blank_page_text p).
    destruct (PyStr.is_empty _) eqn:Hblank.
    + destruct (IH (S idx) pages) as (new & Hnew & Hall & Hnone & Hsome).
      exists new. cbn [andb]. repeat split; auto.
    + match goal with
      | |- context [pdf_page_texts _ _ (pages ++ [?e])%list] =>
          destruct (IH (S idx) (pages ++ [e])%list)
            as (new & Hnew & Hall & _);
          exists (e :: new)
      end.
      rewrite Hnew, <- app_assoc. cbn [andb app].
      split; [reflexivity|]. split; [|split; discriminate].
      constructor; [|exact Hall]. eexists. reflexivity.
Qed.

Lemma join_head (sep e : string) (rest : list string) (e' : string) :
  e = String "[" (String "P" e') ->
  exists x, PyStr.join sep (e :: rest) = String "[" (String "P" x).
Proof.
  intros ->. destruct rest as [|e2 rest]; cbn; eauto.
Qed.

Lemma strip_keeps_head (x : string) :
  exists y,
    PyStr.strip (String "[" (String "P" x)) = String "[" (String "P" y).
Proof.
  unfold PyStr.strip. cbn [PyStr.lstrip_by].
  change (PyStr.is_space "[") with false. cbv iota.
  rewrite rstrip_by_cons.
  destruct (rstrip_by_head PyStr.is_space "P" x eq_refl) as [y ->].
  eauto.
Qed.

(** X18. The content extracted from a PDF is never empty: it is the
    notice [[No extractable text found in PDF]] when no page gives any
    text, and otherwise it starts with the tag of a page. *)
Theorem pdf_content_is_never_empty :
  forall reader_pages : list page,
    pdf_content reader_pages <> EmptyString
    /\ (forallb blank_page reader_pages = true ->
        pdf_content reader_pages = "[No extractable text found in PDF]")
    /\ (forallb blank_page reader_pages = false ->
        exists rest, pdf_content reader_pages = "[P" ++ rest).
Proof.
  intros reader_pages. unfold pdf_content.
  destruct (pdf_page_texts_spec reader_pages 1 [])
    as (new & -> & Hall & Hnone & Hsome).
  cbn [app].
  destruct new as [|e rest].
  - split; [discriminate|]. split; [reflexivity|].
    intros Hb. now destruct (Hsome Hb).
  - inversion Hall as [|? ? [e' He] _]; subst.
    destruct (join_head (PyStr.nl ++ PyStr.nl) _ rest e' eq_refl)
      as [x Hx].
    rewrite Hx. destruct (strip_keeps_head x) as [y Hy]. rewrite Hy.
    split; [discriminate|]. split.
    + intros Hb. discriminate (Hnone Hb).
    + intros _. exists y. reflexivity.
Qed.

(** ** The requirement catalog *)

Lemma mem_In (x : string) (l : list string) :
  PyStr.mem x l = false -> ~ In x l.
Proof.
  unfold PyStr.mem. induction l as [|y r IH]; cbn; [tauto|].
  intros H [<-|Hin].
  - now rewrite String.eqb_refl in H.
  - apply orb_false_elim in H as [_ H]. now apply IH.
Qed.

Lemma distinct_NoDup (l : list string) : distinct l = true -> NoDup l.
Proof.
  induction l as [|x r IH]; cbn; [constructor|].
  intros H. apply andb_prop in H as [Hx Hr].
  constructor; [|now apply IH].
  apply mem_In. now apply negb_true_iff.
Qed.

Lemma table_get_In (table : list (string * requirement)) (k : string)
    (r : requirement) :
  table_get table k = Some r -> In (k, r) table.
Proof.
  induction table as [|[k' r'] rest IH]; cbn; [discriminate|].
  destruct (String.eqb_spec k k') as [->|Hne].
  - intros [= ->]. now left.
  - intros H. right. now apply IH.
Qed.

Lemma In_table_get (table : list (string * requirement)) (k : string)
    (r : requirement) :
  NoDup (map fst table) -> In (k, r) table -> table_get table k = Some r.
Proof.
  induction table as [|[k' r'] rest IH]; cbn; [tauto|].
  intros Hnd [[= -> ->]|Hin].
  - now rewrite String.eqb_refl.
  - inversion Hnd as [|? ? Hnotin Hrest]; subst.
    destruct (String.eqb_spec k k') as [->|Hne].
    + exfalso. apply Hnotin. apply (in_map fst) in Hin. exact Hin.
    + now apply IH.
Qed.

Lemma catalog_keys_distinct : NoDup (map fst REQUIREMENTS).
Proof. apply distinct_NoDup. vm_compute; reflexivity. Qed.

(** X19. The catalog is well formed for the analyser and the payload
    builder: every entry has the attributes of a [RequirementPrompt]
    and a configured field name, no field name is [raw] or
    [fulfilled], and the field names, like the keys, are pairwise
    distinct. *)
Theorem catalog_is_well_formed :
  NoDup (map fst REQUIREMENTS)
  /\ NoDup (map field_name_of list_requirements)
  /\ Forall (fun r =>
               complete r = true
               /\ response_field_name r = Some (field_name_of r)
               /\ field_name_of r <> "raw"
               /\ field_name_of r <> "fulfilled") list_requirements.
Proof.
  split; [exact catalog_keys_distinct|]. split.
  - apply distinct_NoDup. vm_compute; reflexivity.
  - apply Forall_forall. intros r Hin.
    assert (Hcheck :
              forallb (fun r =>
                         complete r
                         && match response_field_name r with
                            | Some f => String.eqb f (field_name_of r)
                            | None => false
                            end
                         && negb (String.eqb (field_name_of r) "raw")
                         && negb (String.eqb (field_name_of r) "fulfilled"))
                list_requirements = true)
      by (vm_compute; reflexivity).
    rewrite forallb_forall in Hcheck. specialize (Hcheck r Hin).
    rewrite !andb_true_iff, !negb_true_iff in Hcheck.
    destruct Hcheck as [[[Hc Hf] Hraw] Hful].
    repeat split.
    + exact Hc.
    + destruct (response_field_name r) as [f|]; [|discriminate].
      apply String.eqb_eq in Hf. now rewrite Hf.
    + now apply String.eqb_neq.
    + now apply String.eqb_neq.
Qed.

(** X20. [get_requirement] and [list_requirements] agree: what is
    found under a key is listed, and what is listed is found under
    some key.  The keys are not the ids: no listed requirement is
    found under its own [id]. *)
Theorem get_requirement_agrees_with_list :
  (forall k r, get_requirement k = Some r -> In r list_requirements)
  /\ (forall r, In r list_requirements ->
                exists k, get_requirement k = Some r)
  /\ (forall r i, In r list_requirements -> id r = Some i ->
                  get_requirement i = None).
Proof.
  unfold get_requirement, list_requirements. repeat split.
  - intros k r H. apply table_get_In in H.
    apply (in_map snd) in H. exact H.
  - intros r Hin. apply in_map_iff in Hin as ([k r'] & Heq & Hin).
    cbn in Heq. subst r'. exists k.
    apply In_table_get; [exact catalog_keys_distinct|exact Hin].
  - intros r i Hin Hid.
    assert (Hcheck :
              forallb (fun r =>
                         match id r with
                         | Some i =>
                             match table_get REQUIREMENTS i with
                             | None => true
                             | Some _ => false
                             end
                         | None => true
                         end) (map snd REQUIREMENTS) = true)
      by (vm_compute; reflexivity).
    rewrite forallb_forall in Hcheck. specialize (Hcheck r Hin).
    rewrite Hid in Hcheck.
    now destruct (table_get REQUIREMENTS i).
Qed.

(** ** The configuration of the store *)

Lemma rstrip_by_snoc (p : ascii -> bool) (c : ascii) (s : string) :
  p c = true ->
  PyStr.rstrip_by p (s ++ String c EmptyString) = PyStr.rstrip_by p s.
Proof.
  intros Hc. induction s as [|a r IH].
  - cbn. now rewrite Hc.
  - cbn [append]. now rewrite !rstrip_by_cons, IH.
Qed.

(** X21. A slash at the end of the base URL does not change the
    evidence URL. *)
Theorem evidence_url_ignores_a_trailing_slash :
  forall config : EvidenceStoreConfig,
    evidence_url
      {| base_url := base_url config ++ "/";
         token_endpoint := token_endpoint config;
         client_id := client_id config;
         client_secret := client_secret config;
         tool_id := tool_id config;
         target_of_evaluation_id := target_of_evaluation_id config;
         evidence_path := evidence_path config |}
    = evidence_url config.
Proof.
  intros config. unfold evidence_url, PyStr.rstrip_char. cbn [base_url evidence_path].
  now rewrite rstrip_by_snoc.
Qed.

Lemma split_once_spec (sep : ascii) (s : string) :
  match cli.split_once sep s with
  | Some (before, after) =>
      s = before ++ String sep after /\ contains sep before = false
  | None => contains sep s = false
  end.
Proof.
  induction s as [|c r IH]; cbn; [reflexivity|].
  destruct (Ascii.eqb_spec c sep) as [->|Hne].
  - split; reflexivity.
  - destruct (cli.split_once sep r) as [[before after]|].
    + destruct IH as [-> Hb]. split; [reflexivity|]. cbn.
      rewrite Hb. now destruct (Ascii.eqb_spec c sep).
    + cbn. exact IH.
Qed.

(** X22. [--evidence-auth] is split at its first colon: the client id
    is the text before it and contains no colon, the secret is all
    the rest; without a colon the configuration is refused with
    [ConfigError]. *)
Theorem evidence_auth_is_split_at_the_first_colon :
  forall (env : Environ) (args : cli.Namespace) (auth : string),
    cli.given (cli.evidence_auth args) = Some auth ->
    (contains ":" auth = false ->
     cli.build_evidence_config env args
     = Failed (ConfigError
                 "Evidence auth must be in client_id:client_secret format."))
    /\ (contains ":" auth = true ->
        exists config,
          cli.build_evidence_config env args = Done config
          /\ auth = client_id config ++ ":" ++ client_secret config
          /\ contains ":" (client_id config) = false).
Proof.
  intros env args auth Hauth. unfold cli.build_evidence_config.
  rewrite Hauth. pose proof (split_once_spec ":" auth) as Hsplit.
  destruct (cli.split_once ":" auth) as [[before after]|].
  - destruct Hsplit as [-> Hb]. split.
    + intros Hno. exfalso. clear - Hno Hb.
      induction before as [|c r IH]; cbn in *; [discriminate|].
      apply orb_false_elim in Hb as [Hc Hr].
      rewrite Hc in Hno. cbn in Hno. now apply IH.
    + intros _. cbn [and_so]. eexists. split; [reflexivity|].
      destruct (cli.given (cli.evidence_target_id args));
        destruct (cli.given (cli.evidence_tool_id args));
        cbn; auto.
  - split; [reflexivity|]. intros Hyes. congruence.
Qed.

(** X23. The command line never moves the token endpoint or the
    evidence path: they are the ones of the environment, also when
    [--evidence-url] replaces the base URL. *)
Theorem command_line_keeps_the_token_endpoint :
  forall (env : Environ) (args : cli.Namespace)
         (config : EvidenceStoreConfig),
    cli.build_evidence_config env args = Done config ->
    token_endpoint config = token_endpoint (from_env env)
    /\ evidence_path config = evidence_path (from_env env)
    /\ base_url config
       = match cli.given (cli.evidence_url_arg args) with
         | Some u => u
         | None => base_url (from_env env)
         end.
Proof.
  intros env args config. unfold cli.build_evidence_config.
  destruct (cli.given (cli.evidence_url_arg args));
    destruct (cli.given (cli.evidence_auth args)) as [auth|];
    try destruct (cli.split_once ":" auth) as [[before after]|];
    cbn [and_so]; try discriminate;
    destruct (cli.given (cli.evidence_target_id args));
    destruct (cli.given (cli.evidence_tool_id args));
    intros [= <-]; cbn; auto.
Qed.

Lemma evidence_auth_is_split_at_the_first_colon_witness :
  (contains ":" "collector:s3cr:et" = false ->
   cli.build_evidence_config samples.empty_env samples.args_with_auth
   = Failed (ConfigError
               "Evidence auth must be in client_id:client_secret format."))
  /\ (contains ":" "collector:s3cr:et" = true ->
      exists config,
        cli.build_evidence_config samples.empty_env samples.args_with_auth
        = Done config
        /\ "collector:s3cr:et"
           = client_id config ++ ":" ++ client_secret config
        /\ contains ":" (client_id config) = false).
Proof.
  apply (evidence_auth_is_split_at_the_first_colon samples.empty_env
           samples.args_with_auth "collector:s3cr:et").
  reflexivity.
Defined.

Lemma command_line_keeps_the_token_endpoint_witness :
  exists config,
    cli.build_evidence_config samples.empty_env samples.args_with_auth
    = Done config
    /\ token_endpoint config = "http://localhost:8080/v1/auth/token"
    /\ base_url config = "http://store:9000".
Proof.
  eexists. split; [vm_compute; reflexivity|].
  match goal with
  | |- token_endpoint ?c = _ /\ _ =>
      destruct (command_line_keeps_the_token_endpoint samples.empty_env
                  samples.args_with_auth c ltac:(vm_compute; reflexivity))
        as (Ht & _ & Hb)
  end.
  split; [exact Ht|exact Hb].
Defined.

Section TestPayload.
Context {B : Builtins}.

(** X24. The connectivity payload is fully pruned for every
    configuration: it keeps its [raw] text and the tool id, and the
    empty list of related resources is gone. *)
Theorem test_payload_is_pruned :
  forall config : EvidenceStoreConfig,
    fully_pruned (build_test_evidence_payload config) = true
    /\ lookup_path (build_test_evidence_payload config) raw_path
       = Some (VStr "ping")
    /\ lookup_path (build_test_evidence_payload config) ["toolId"]
       = Some (VStr (tool_id config))
    /\ lookup_path (build_test_evidence_payload config)
         ["experimentalRelatedResourceIds"] = None.
Proof. intros config. repeat split. Qed.

End TestPayload.

(** ** The command line *)

Lemma unset_getenv_or (env : Environ) (a b : string) :
  config.unset (config.getenv_or env a b)
  = config.unset (env a) && config.unset (env b).
Proof.
  unfold config.getenv_or. destruct (env a) as [v|]; cbn; [|reflexivity].
  destruct (PyStr.is_empty v) eqn:Hv; cbn; [reflexivity|exact Hv].
Qed.

Lemma from_env_config_error (conv : config.Conversions) (env : Environ)
    (msg : string) :
  config.from_env conv env = Failed (ConfigError msg) ->
  msg = config.missing_key_message
  /\ config.unset
       (config.getenv_or env "DOC_ANALYSER_API_KEY" "OPENAI_API_KEY") = true
  /\ config.unset
       (config.getenv_or env "DOC_ANALYSER_BASE_URL" "OPENAI_BASE_URL")
     = true.
Proof.
  unfold config.from_env.
  destruct (config.unset (config.getenv_or env "DOC_ANALYSER_API_KEY" _));
    destruct (config.unset (config.getenv_or env "DOC_ANALYSER_BASE_URL" _));
    cbn [andb];
    try (intros [= <-]; now repeat split);
    destruct (env "DOC_ANALYSER_TEMPERATURE") as [t|];
    try destruct (config.to_float conv t);
    cbn [and_so]; try discriminate;
    destruct (env "DOC_ANALYSER_MAX_TOKENS") as [n|];
    try destruct (config.to_int conv n);
    cbn [and_so]; discriminate.
Qed.

Lemma from_env_failure (conv : config.Conversions) (env : Environ)
    (e : failure) :
  config.from_env conv env = Failed e ->
  (exists e', e = Python e') \/ e = ConfigError config.missing_key_message.
Proof.
  unfold config.from_env.
  destruct (config.unset _ && config.unset _);
    [intros [= <-]; now right|].
  destruct (env "DOC_ANALYSER_TEMPERATURE") as [t|];
    try destruct (config.to_float conv t) as [f|e1];
    cbn [and_so]; try (intros [= <-]; left; now eexists);
    destruct (env "DOC_ANALYSER_MAX_TOKENS") as [n|];
    try destruct (config.to_int conv n) as [k|e2];
    cbn [and_so]; try discriminate;
    intros [= <-]; left; now eexists.
Qed.

Lemma build_config_from_env (conv : config.Conversions) (env : Environ)
    (args : cli.Namespace) (e : failure) :
  cli.build_config conv env args = Failed e
  <-> config.from_env conv env = Failed e.
Proof.
  unfold cli.build_config.
  destruct (config.from_env conv env) as [cfg|e']; cbn [and_so];
    split; intros H; try discriminate; exact H.
Qed.

(** X25. [build_config] ends in [ConfigError] exactly when each of the
    four variables for the key and the base URL is unset or empty in
    the environment, and the message is then the one about the missing
    key: an [--api-key] or [--base-url] on the command line does not
    change that. *)
Theorem key_must_come_from_the_environment :
  forall (conv : config.Conversions) (env : Environ)
         (args : cli.Namespace),
    ((exists msg, cli.build_config conv env args = Failed (ConfigError msg))
     <-> config.unset (env "DOC_ANALYSER_API_KEY") = true
         /\ config.unset (env "OPENAI_API_KEY") = true
         /\ config.unset (env "DOC_ANALYSER_BASE_URL") = true
         /\ config.unset (env "OPENAI_BASE_URL") = true)
    /\ (forall msg,
           cli.build_config conv env args = Failed (ConfigError msg) ->
           msg = config.missing_key_message).
Proof.
  intros conv env args. split; [split|].
  - intros (msg & Hfail). apply build_config_from_env in Hfail.
    destruct (from_env_config_error conv env msg Hfail)
      as (_ & Hkey & Hurl).
    rewrite unset_getenv_or in Hkey, Hurl.
    apply andb_prop in Hkey as [Hk1 Hk2].
    apply andb_prop in Hurl as [Hu1 Hu2]. auto.
  - intros (Hk1 & Hk2 & Hu1 & Hu2). exists config.missing_key_message.
    apply build_config_from_env. unfold config.from_env.
    now rewrite !unset_getenv_or, Hk1, Hk2, Hu1, Hu2.
  - intros msg Hfail. apply build_config_from_env in Hfail.
    now destruct (from_env_config_error conv env msg Hfail).
Qed.

Lemma build_evidence_config_failure (env : Environ)
    (args : cli.Namespace) (e : failure) :
  cli.build_evidence_config env args = Failed e ->
  e = ConfigError "Evidence auth must be in client_id:client_secret format."
  /\ exists auth,
       cli.given (cli.evidence_auth args) = Some auth
       /\ contains ":" auth = false.
Proof.
  unfold cli.build_evidence_config.
  destruct (cli.given (cli.evidence_auth args)) as [auth|];
    cbn [and_so]; [|discriminate].
  pose proof (split_once_spec ":" auth) as Hsplit.
  destruct (cli.split_once ":" auth) as [[before after]|];
    cbn [and_so]; [discriminate|].
  intros [= <-]. split; [reflexivity|]. now exists auth.
Qed.

Lemma evidence_auth_refused (env : Environ) (args : cli.Namespace)
    (auth : string) :
  cli.given (cli.evidence_auth args) = Some auth ->
  contains ":" auth = false ->
  cli.build_evidence_config env args
  = Failed (ConfigError
              "Evidence auth must be in client_id:client_secret format.").
Proof.
  intros Hauth Hcolon. unfold cli.build_evidence_config. rewrite Hauth.
  pose proof (split_once_spec ":" auth) as Hsplit.
  destruct (cli.split_once ":" auth) as [[before after]|];
    [|reflexivity].
  exfalso. destruct Hsplit as [-> _]. clear - Hcolon.
  induction before as [|c r IH]; cbn in Hcolon.
  - discriminate.
  - apply orb_false_elim in Hcolon as [_ Hr]. now apply IH.
Qed.

Lemma check_files_spec (h : cli.Host) :
  forall (names : list string) (acc paths : list Path),
    cli.check_files h names acc = Done (inl paths) ->
    paths = (acc ++ map (cli.make_path h) names)%list.
Proof.
  induction names as [|name rest IH]; intros acc paths;
    cbn [cli.check_files map].
  - intros [= <-]. now rewrite app_nil_r.
  - destruct (cli.path_exists h (cli.make_path h name)) as [found|e];
      cbn [and_so]; [|discriminate].
    destruct found; cbn [negb]; [|discriminate].
    intros Hrest. rewrite (IH _ _ Hrest). now rewrite <- app_assoc.
Qed.

Lemma first_nonempty_last (l : list string) (d : string) :
  PyStr.is_empty d = false ->
  PyStr.is_empty (first_nonempty (l ++ [d])) = false.
Proof.
  intros Hd. induction l as [|s rest IH]; cbn [app first_nonempty].
  - now rewrite Hd.
  - destruct (PyStr.is_empty s) eqn:Hs; [exact IH|exact Hs].
Qed.

Lemma from_env_api_key (conv : config.Conversions) (env : Environ)
    (cfg : config.ModelConfig) :
  config.from_env conv env = Done cfg ->
  config.api_key cfg
  = first_nonempty [ or_empty (env "DOC_ANALYSER_API_KEY");
                     or_empty (env "OPENAI_API_KEY");
                     "not-set" ].
Proof.
  unfold config.from_env.
  destruct (config.unset _ && config.unset _); [discriminate|].
  destruct (env "DOC_ANALYSER_TEMPERATURE") as [t|];
    try destruct (config.to_float conv t) as [f|e1];
    cbn [and_so]; try discriminate;
    destruct (env "DOC_ANALYSER_MAX_TOKENS") as [n|];
    try destruct (config.to_int conv n) as [k|e2];
    cbn [and_so]; try discriminate;
    intros [= <-]; cbn [config.api_key]; unfold config.getenv_or;
    destruct (env "DOC_ANALYSER_API_KEY") as [a|];
    cbn [or_empty first_nonempty];
    try destruct (PyStr.is_empty a) eqn:Ha;
    rewrite ?Ha; try reflexivity;
    destruct (env "OPENAI_API_KEY") as [b|];
    cbn [or_empty first_nonempty PyStr.is_empty];
    try destruct (PyStr.is_empty b) eqn:Hb;
    rewrite ?Hb; reflexivity.
Qed.

(** X30. The API key of a configuration that [build_config] returns
    is the first non-empty one of [--api-key], [DOC_ANALYSER_API_KEY]
    and [OPENAI_API_KEY], and the placeholder [not-set] when all three
    are missing or empty; it is never empty. *)
Theorem api_key_precedence :
  forall (conv : config.Conversions) (env : Environ)
         (args : cli.Namespace) (cfg : config.ModelConfig),
    cli.build_config conv env args = Done cfg ->
    config.api_key cfg
    = first_nonempty [ or_empty (cli.api_key_arg args);
                       or_empty (env "DOC_ANALYSER_API_KEY");
                       or_empty (env "OPENAI_API_KEY");
                       "not-set" ]
    /\ PyStr.is_empty (config.api_key cfg) = false.
Proof.
  intros conv env args cfg Hcfg.
  assert (Hkey : config.api_key cfg
                 = first_nonempty
                     [ or_empty (cli.api_key_arg args);
                       or_empty (env "DOC_ANALYSER_API_KEY");
                       or_empty (env "OPENAI_API_KEY");
                       "not-set" ]).
  { unfold cli.build_config in Hcfg.
    destruct (config.from_env conv env) as [c|e] eqn:Henv;
      cbn [and_so] in Hcfg; [|discriminate].
    apply from_env_api_key in Henv. injection Hcfg as <-.
    unfold cli.given.
    destruct (cli.api_key_arg args) as [k|];
      cbn [or_empty first_nonempty];
      try destruct (PyStr.is_empty k) eqn:Hk;
      destruct (cli.model_arg args) as [m|];
      try destruct (PyStr.is_empty m);
      destruct (cli.base_url_arg args) as [u|];
      try destruct (PyStr.is_empty u);
      cbn [config.api_key PyStr.is_empty]; try exact Henv;
      reflexivity. }
  split; [exact Hkey|]. rewrite Hkey.
  change [ or_empty (cli.api_key_arg args);
           or_empty (env "DOC_ANALYSER_API_KEY");
           or_empty (env "OPENAI_API_KEY"); "not-set" ]
    with ([ or_empty (cli.api_key_arg args);
            or_empty (env "DOC_ANALYSER_API_KEY");
            or_empty (env "OPENAI_API_KEY") ] ++ ["not-set"])%list.
  now apply first_nonempty_last.
Qed.

Lemma api_key_precedence_witness :
  exists cfg,
    cli.build_config samples.numbers samples.env_with_key
      samples.args_with_auth = Done cfg
    /\ config.api_key cfg = "sk-test".
Proof.
  eexists. split; [vm_compute; reflexivity|].
  match goal with
  | |- config.api_key ?c = _ =>
      destruct (api_key_precedence samples.numbers samples.env_with_key
                  samples.args_with_auth c ltac:(vm_compute; reflexivity))
        as [Hkey _]
  end.
  exact Hkey.
Defined.

Section MainFacts.
Context {B : Builtins}.

Lemma send_test_evidence_code (h : cli.Host) (args : cli.Namespace) :
  cli.code (cli.send_test_evidence h args) = Done 0%Z
  \/ cli.code (cli.send_test_evidence h args) = Done 1%Z.
Proof.
  unfold cli.send_test_evidence.
  destruct (cli.build_evidence_config (cli.environ h) args) as [c|e];
    [|now right].
  destruct (send_evidence _ _ _) as [[v|e] client]; [now left|].
  destruct e; now right.
Qed.

Lemma analyse_and_report_code (h : cli.Host) (args : cli.Namespace)
    (cfg : LLMClient) (doc_paths : list Path)
    (push_enabled : bool) (publisher : option EvidenceStoreConfig)
    (rs : list requirement) :
  cli.code (cli.analyse_and_report h args cfg doc_paths push_enabled
              publisher rs) = Done 0%Z
  \/ cli.code (cli.analyse_and_report h args cfg doc_paths push_enabled
                 publisher rs) = Done 1%Z.
Proof.
  unfold cli.analyse_and_report.
  destruct (run _ _ _ _ _ _ _ _ _ _) as [[[res pushed]|e] reqs];
    [now left|].
  destruct e as [e| | | |]; try now right. destruct e; now right.
Qed.

(** The exit codes of [main] outside the case of no input. *)
Lemma main_with_input (h : cli.Host) (args : cli.Namespace) :
  negb (cli.test_evidence args)
  && match cli.files args with [] => true | _ => false end = false ->
  cli.code (cli.main h args) = Done 0%Z
  \/ cli.code (cli.main h args) = Done 1%Z
  \/ exists e, cli.code (cli.main h args) = Failed e.
Proof.
  intros Hinput. unfold cli.main. rewrite Hinput.
  destruct (cli.build_config _ _ args) as [cfg|e].
  - destruct (cli.test_evidence args).
    { destruct (send_test_evidence_code h args) as [H0|H1]; auto. }
    destruct (cli.check_files h (cli.files args) [])
      as [[paths|target]|e];
      [|now right; left|right; right; now exists e].
    destruct (cli.connect h cfg) as [llm|e];
      [|right; right; now exists e].
    destruct (cli.push_evidence args || cli.auto_push (cli.environ h)).
    + destruct (cli.build_evidence_config (cli.environ h) args)
        as [c|e]; [|right; right; now exists e].
      destruct (cli.given (cli.test_requirement args)) as [rid|].
      * destruct (get_requirement rid) as [r|]; [|now right; left].
        destruct (analyse_and_report_code h args llm paths true (Some c)
                    [r]); auto.
      * destruct (analyse_and_report_code h args llm paths true (Some c)
                    list_requirements); auto.
    + destruct (cli.given (cli.test_requirement args)) as [rid|].
      * destruct (get_requirement rid) as [r|]; [|now right; left].
        destruct (analyse_and_report_code h args llm paths false None
                    [r]); auto.
      * destruct (analyse_and_report_code h args llm paths false None
                    list_requirements); auto.
  - destruct e; try (right; right; eexists; reflexivity).
    now right; left.
Qed.

(** X26. [main] returns 2 exactly when [--test-evidence] is not set
    and no file is given; it has then printed nothing and made no
    request, whatever the environment holds. *)
Theorem exit_code_two_means_no_input :
  forall (h : cli.Host) (args : cli.Namespace),
    (cli.code (cli.main h args) = Done 2%Z
     <-> cli.test_evidence args = false /\ cli.files args = [])
    /\ (cli.code (cli.main h args) = Done 2%Z ->
        cli.stdout (cli.main h args) = []
        /\ cli.requests (cli.main h args) = []).
Proof.
  intros h args.
  destruct (negb (cli.test_evidence args)
            && match cli.files args with [] => true | _ => false end)
    eqn:Hinput.
  - assert (Hno : cli.test_evidence args = false /\ cli.files args = []).
    { apply andb_prop in Hinput as [Ht Hf].
      apply negb_true_iff in Ht.
      destruct (cli.files args); [now split|discriminate]. }
    unfold cli.main. rewrite Hinput. cbn. now repeat split.
  - assert (Hcode : cli.code (cli.main h args) <> Done 2%Z).
    { destruct (main_with_input h args Hinput) as [H|[H|(e & H)]];
        rewrite H; discriminate. }
    split; [split|]; [now intros H| |now intros H].
    intros [Ht Hf]. rewrite Ht, Hf in Hinput. discriminate.
Qed.

(** X27. Two errors of the configuration are not turned into an exit
    code.  An exception raised while [ModelConfig.from_env] converts a
    number of the environment escapes [main], which catches only
    [ConfigError] around [build_config].  And an [--evidence-auth]
    without a colon gives exit code 1 with [--test-evidence], but when
    files are analysed with the push enabled (every file found and the
    gateway constructed) its [ConfigError] escapes [main], because
    [build_evidence_config] is then called outside any [try].  In each
    case nothing was printed and no request was made. *)
Theorem uncaught_configuration_errors :
  forall (h : cli.Host) (args : cli.Namespace),
    negb (cli.test_evidence args)
    && match cli.files args with [] => true | _ => false end = false ->
    (forall e,
        config.from_env (cli.conversions h) (cli.environ h)
        = Failed (Python e) ->
        cli.code (cli.main h args) = Failed (Python e)
        /\ cli.stdout (cli.main h args) = []
        /\ cli.requests (cli.main h args) = [])
    /\ (forall cfg auth,
           cli.build_config (cli.conversions h) (cli.environ h) args
           = Done cfg ->
           cli.given (cli.evidence_auth args) = Some auth ->
           contains ":" auth = false ->
           (cli.test_evidence args = true ->
            cli.code (cli.main h args) = Done 1%Z
            /\ cli.stdout (cli.main h args) = []
            /\ cli.requests (cli.main h args) = [])
           /\ (forall paths llm,
                  cli.test_evidence args = false ->
                  cli.check_files h (cli.files args) [] = Done (inl paths) ->
                  cli.connect h cfg = Done llm ->
                  cli.push_evidence args || cli.auto_push (cli.environ h)
                  = true ->
                  cli.code (cli.main h args)
                  = Failed (ConfigError
                      "Evidence auth must be in client_id:client_secret format.")
                  /\ cli.stdout (cli.main h args) = []
                  /\ cli.requests (cli.main h args) = [])).
Proof.
  intros h args Hinput. split.
  - intros e Henv. apply (build_config_from_env _ _ args) in Henv.
    unfold cli.main. rewrite Hinput, Henv. now repeat split.
  - intros cfg auth Hcfg Hauth Hcolon.
    assert (Hstore : cli.build_evidence_config (cli.environ h) args
                     = Failed (ConfigError
                         "Evidence auth must be in client_id:client_secret format.")).
    { apply (evidence_auth_refused (cli.environ h) args auth Hauth Hcolon). }
    split.
    + intros Htest. unfold cli.main.
      rewrite Hinput, Hcfg, Htest. unfold cli.send_test_evidence.
      rewrite Hstore. now repeat split.
    + intros paths llm Htest Hfiles Hllm Hpush. unfold cli.main.
      rewrite Hinput, Hcfg, Htest, Hfiles, Hllm, Hpush, Hstore.
      now repeat split.
Qed.

Lemma analyse_and_report_done (h : cli.Host) (args : cli.Namespace)
    (cfg : LLMClient) (doc_paths : list Path)
    (push_enabled : bool) (publisher : option EvidenceStoreConfig)
    (r : requirement) (rs : list requirement) :
  cli.code (cli.analyse_and_report h args cfg doc_paths push_enabled
              publisher (r :: rs)) = Done 0%Z ->
  exists res items,
    cli.stdout (cli.analyse_and_report h args cfg doc_paths push_enabled
                  publisher (r :: rs)) = [cli.to_json h res]
    /\ sources res = map path_str doc_paths
    /\ lookup_path (data res) ["evidence"] = Some (VList items)
    /\ List.length items = S (List.length rs)
    /\ (push_enabled = false ->
        cli.requests (cli.analyse_and_report h args cfg doc_paths
                        push_enabled publisher (r :: rs)) = []).
Proof.
  unfold cli.analyse_and_report.
  destruct (run _ _ _ _ _ _ _ _ _ _) as [[[res pushed]|e] reqs] eqn:Hrun.
  - intros _.
    destruct (run_result_shape _ _ _ _ _ _ _ _ _ _ _ _ _ _ Hrun)
      as (documents & items & Hload & Hextract & Hsources & _ & Hdata
          & Hlen).
    exists res, items. cbn [cli.stdout cli.requests].
    split; [reflexivity|]. split; [exact Hsources|].
    split; [now rewrite Hdata|]. split; [exact Hlen|].
    intros ->. unfold run in Hrun. rewrite Hload, Hextract in Hrun.
    now inversion Hrun.
  - destruct e as [e| | | |]; try discriminate. destruct e; discriminate.
Qed.

(** X28. When [main] returns 0 after analysing files, it has printed
    one result: its sources are the given files in order, and its
    evidence has one item for the requirement of [--test-requirement],
    or one for each of the 19 requirements of the catalogue without
    that option.  With the push disabled no request was made. *)
Theorem main_reports_each_requirement :
  forall (h : cli.Host) (args : cli.Namespace),
    cli.test_evidence args = false ->
    cli.code (cli.main h args) = Done 0%Z ->
    exists res items,
      cli.stdout (cli.main h args) = [cli.to_json h res]
      /\ sources res
         = map (fun name_ => path_str (cli.make_path h name_))
             (cli.files args)
      /\ lookup_path (data res) ["evidence"] = Some (VList items)
      /\ List.length items
         = match cli.given (cli.test_requirement args) with
           | Some _ => 1
           | None => 19
           end
      /\ (cli.push_evidence args || cli.auto_push (cli.environ h) = false ->
          cli.requests (cli.main h args) = []).
Proof.
  intros h args Htest. unfold cli.main. rewrite Htest.
  destruct (negb false
            && match cli.files args with [] => true | _ => false end);
    [discriminate|].
  destruct (cli.build_config _ _ args) as [cfg|e];
    [|destruct e; discriminate].
  destruct (cli.check_files h (cli.files args) [])
    as [[paths|target]|e] eqn:Hfiles; [|discriminate|discriminate].
  apply check_files_spec in Hfiles. cbn [app] in Hfiles.
  destruct (cli.connect h cfg) as [llm|e]; [|discriminate].
  assert (Hpaths : map path_str paths
                   = map (fun name_ => path_str (cli.make_path h name_))
                       (cli.files args))
    by now rewrite Hfiles, map_map.
  assert (Hall : List.length list_requirements = 19) by reflexivity.
  destruct (cli.push_evidence args || cli.auto_push (cli.environ h)).
  - destruct (cli.build_evidence_config (cli.environ h) args) as [c|e];
      [|discriminate].
    destruct (cli.given (cli.test_requirement args)) as [rid|].
    + destruct (get_requirement rid) as [r|]; [|discriminate].
      intros Hcode.
      destruct (analyse_and_report_done _ _ _ _ _ _ _ _ Hcode)
        as (res & items & Hout & Hsources & Hitems & Hlen & _).
      exists res, items. rewrite <- Hpaths.
      split; [exact Hout|]. split; [exact Hsources|].
      split; [exact Hitems|]. split; [exact Hlen|discriminate].
    + destruct list_requirements as [|r rs]; [discriminate|].
      intros Hcode.
      destruct (analyse_and_report_done _ _ _ _ _ _ _ _ Hcode)
        as (res & items & Hout & Hsources & Hitems & Hlen & _).
      exists res, items. rewrite <- Hpaths.
      split; [exact Hout|]. split; [exact Hsources|].
      split; [exact Hitems|]. split; [|discriminate].
      rewrite Hlen. exact Hall.
  - destruct (cli.given (cli.test_requirement args)) as [rid|].
    + destruct (get_requirement rid) as [r|]; [|discriminate].
      intros Hcode.
      destruct (analyse_and_report_done _ _ _ _ _ _ _ _ Hcode)
        as (res & items & Hout & Hsources & Hitems & Hlen & Hquiet).
      exists res, items. rewrite <- Hpaths.
      split; [exact Hout|]. split; [exact Hsources|].
      split; [exact Hitems|]. split; [exact Hlen|].
      intros _. now apply Hquiet.
    + destruct list_requirements as [|r rs]; [discriminate|].
      intros Hcode.
      destruct (analyse_and_report_done _ _ _ _ _ _ _ _ Hcode)
        as (res & items & Hout & Hsources & Hitems & Hlen & Hquiet).
      exists res, items. rewrite <- Hpaths.
      split; [exact Hout|]. split; [exact Hsources|].
      split; [exact Hitems|]. split; 
        [rewrite Hlen; exact Hall|intros _; now apply Hquiet].
Qed.


End MainFacts.

Lemma uncaught_configuration_errors_witness :
  (cli.code (@cli.main samples.builtins samples.host_warm
               samples.args_with_auth)
   = Failed (Python (ValueError "could not convert string to float: warm"))
   /\ cli.stdout (@cli.main samples.builtins samples.host_warm
                    samples.args_with_auth) = []
   /\ cli.requests (@cli.main samples.builtins samples.host_warm
                      samples.args_with_auth) = [])
  /\ (cli.code (@cli.main samples.builtins samples.host
                  samples.args_bad_auth)
      = Failed (ConfigError
                  "Evidence auth must be in client_id:client_secret format.")
      /\ cli.stdout (@cli.main samples.builtins samples.host
                       samples.args_bad_auth) = []
      /\ cli.requests (@cli.main samples.builtins samples.host
                         samples.args_bad_auth) = []).
Proof.
  split.
  - apply (proj1 (@uncaught_configuration_errors samples.builtins
                    samples.host_warm samples.args_with_auth
                    ltac:(reflexivity))).
    vm_compute; reflexivity.
  - eapply (proj2 (proj2 (@uncaught_configuration_errors samples.builtins
                            samples.host samples.args_bad_auth
                            ltac:(reflexivity))
                     _ "collector" ltac:(vm_compute; reflexivity)
                     ltac:(reflexivity) ltac:(reflexivity)));
      vm_compute; reflexivity.
Defined.

Lemma main_reports_each_requirement_witness :
  exists res items,
    cli.stdout (@cli.main samples.builtins samples.host
                  samples.args_with_auth)
    = [cli.to_json samples.host res]
    /\ sources res = ["docs/policy.txt"]
    /\ lookup_path (data res) ["evidence"] = Some (VList items)
    /\ List.length items = 19.
Proof.
  destruct (@main_reports_each_requirement samples.builtins
              samples.host samples.args_with_auth)
    as (res & items & Hout & Hsources & Hitems & Hlen & _);
    [reflexivity|vm_compute; reflexivity|].
  exists res, items. now repeat split.
Defined.


End extras.
